(** * Live Currency Rate: a shallow embedding of [tool.py]

    The tool object of [tool.py] ([class Tools]) is embedded as a record
    that is threaded through the methods; every method returns its Python
    result (a value or a raised exception), the tool object after the call
    and the effects it performed on the outside world (HTTP requests,
    messages sent through the event emitter, writes of the state file).
    Amounts, rates and clock readings are IEEE 754 binary64 numbers, as
    Python's [float]. *)

From Stdlib Require Import ZArith List String Ascii Bool Lia DecimalString
  DecimalFacts DecimalPos DecimalN Sorted.
From Stdlib Require Import Floats.PrimFloat Floats.SpecFloat Floats.FloatOps
  Floats.FloatAxioms.
Import ListNotations.
Open Scope string_scope.

Set Implicit Arguments.
Set Warnings "-register-all,-inexact-float".
Open Scope Z_scope.

(** ** Exceptions and results *)

(** The exceptions that the code raises or catches.  Each constructor is a
    Python exception class; [FailedToFetch e] is the
    [Exception(f"Failed to fetch currency rates: {str(e)}")] of
    [_fetch_rates]. *)
Inductive exn : Type :=
| KeyError (key : string)
| ZeroDivisionError
| AttributeError (attribute : string)
| TypeError
| NameError (name : string)
| RequestException
| HTTPError (status : Z)
| JSONDecodeError
| InvalidVersion
| ValueError
| FileNotFoundError
| OSError
| FailedToFetch (cause : exn).

(** The result of evaluating a Python expression or call. *)
Inductive result (A : Type) : Type :=
| Ok (a : A)
| Raise (e : exn).

Arguments Ok {A} a.
Arguments Raise {A} e.

Definition bind {A B : Type} (m : result A) (k : A -> result B) : result B :=
  match m with
  | Ok a => k a
  | Raise e => Raise e
  end.

Declare Scope py_scope.
Delimit Scope py_scope with py.
Notation "x <- m ;; k" := (bind m (fun x => k))
  (at level 61, m at next level, right associativity) : py_scope.
Open Scope py_scope.

(** ** Numbers *)

Module Py.

(** [a * b] on two floats: IEEE multiplication, never an exception. *)
Definition mul (a b : float) : result float := Ok (PrimFloat.mul a b).

(** [a / b] on two floats: Python raises [ZeroDivisionError] when the
    divisor compares equal to zero (either sign), and divides as IEEE
    otherwise. *)
Definition div (a b : float) : result float :=
  if PrimFloat.eqb b 0%float then Raise ZeroDivisionError
  else Ok (PrimFloat.div a b).

(** [x < n] for a float [x] and an int [n]: Python compares the two
    exact values (no conversion of [n] to a float). *)
Definition lt_int (x : float) (n : Z) : bool :=
  match Prim2SF x with
  | S754_nan => false
  | S754_infinity negative => negative
  | S754_zero _ => (0 <? n)%Z
  | S754_finite negative m e =>
      let v := if negative then Z.neg m else Z.pos m in
      if (0 <=? e)%Z then (v * 2 ^ e <? n)%Z else (v <? n * 2 ^ (- e))%Z
  end.

(** [x >= n] for a float [x] and an int [n] that a float represents
    exactly (here 1 and 100). *)
Definition ge (x n : float) : bool := PrimFloat.leb n x.

End Py.

(** ** The rate table and the tool object *)

(** The payload of the rate endpoint,
    [{"base": ..., "rates": {...}, "updated": ...}].  A field is [None]
    when the key is absent from the object: the code reads every key with
    [data.get(key, default)].  [rates] keeps the order of the keys; a
    rate is a float, and a number written as an integer in the payload
    stands for the float of the same value, which is what the arithmetic
    with a float amount makes of it. *)
Record RateTable : Type := {
  base : option string;
  rates : option (list (string * float));
  updated : option string
}.

(** [class Valves]. *)
Record Valves : Type := {
  ENABLE_UPDATE_CHECK : bool;
  CACHE_DURATION : Z;
  API_URL : string
}.

Definition default_valves : Valves := {|
  ENABLE_UPDATE_CHECK := true;
  CACHE_DURATION := 180;
  API_URL := "https://cdn.jsdelivr.net/gh/anvme/currency@main/latest.json"
|}.

(** [self.cache]: [data] is [None] until a fetch stored a payload (and
    again if a payload was the JSON value [null], which [response.json()]
    returns as [None]). *)
Record Cache : Type := {
  data : option RateTable;
  timestamp : float
}.

Definition empty_cache : Cache := {| data := None; timestamp := 0%float |}.

(** ** JSON documents, datetimes and the update state *)

(** A JSON document as [json.load] returns it.  The members of an object
    are the items of the Python dict, in order, with distinct keys. *)
Inductive json : Type :=
| JNull
| JBool (b : bool)
| JInt (n : Z)
| JFloat (x : float)
| JStr (s : string)
| JArr (items : list json)
| JObj (members : list (string * json)).

(** A [datetime.datetime]; [utcoffset] is [None] for a naive datetime and
    the offset from UTC in seconds for an aware one. *)
Record datetime : Type := {
  year : Z;
  month : Z;
  day : Z;
  hour : Z;
  minute : Z;
  second : Z;
  microsecond : Z;
  utcoffset : option Z
}.

(** The values that the update state holds: what the state file gave, and
    the datetime that [_load_state] and [_check_github_release] store
    under ["last_check"]. *)
Inductive value : Type :=
| VJson (j : json)
| VDatetime (d : datetime).

(** A Python dict with string keys, as the list of its items. *)
Definition dict (V : Type) : Type := list (string * V).

Module Dict.
Section Ops.
Variable V : Type.

(** [d.get(key)]. *)
Fixpoint get (key : string) (d : dict V) : option V :=
  match d with
  | [] => None
  | (k, v) :: rest => if String.eqb key k then Some v else get key rest
  end.

(** [key in d]. *)
Definition mem (key : string) (d : dict V) : bool :=
  match get key d with
  | Some _ => true
  | None => false
  end.

(** [d[key]]. *)
Definition item (key : string) (d : dict V) : result V :=
  match get key d with
  | Some v => Ok v
  | None => Raise (KeyError key)
  end.

(** [d[key] = v]: an existing key keeps its place, a new one goes last. *)
Fixpoint set (key : string) (v : V) (d : dict V) : dict V :=
  match d with
  | [] => [(key, v)]
  | (k, w) :: rest =>
      if String.eqb key k then (k, v) :: rest else (k, w) :: set key v rest
  end.

(** [list(d.keys())]. *)
Definition keys (d : dict V) : list string := map fst d.

End Ops.
End Dict.

(** [datetime(2024, 1, 1)]. *)
Definition datetime_2024_01_01 : datetime := {|
  year := 2024; month := 1; day := 1;
  hour := 0; minute := 0; second := 0; microsecond := 0;
  utcoffset := None
|}.

(** The state that [_load_state] returns when it cannot read the file. *)
Definition default_update_state : dict value :=
  [ ("last_check", VDatetime datetime_2024_01_01);
    ("latest_version", VJson JNull);
    ("latest_url", VJson JNull);
    ("has_shown_notification", VJson (JBool false)) ].

(** An instance of [class Tools]. *)
Record Tools : Type := {
  valves : Valves;
  cache : Cache;
  update_state : dict value
}.

Definition set_cache (self : Tools) (c : Cache) : Tools :=
  {| valves := valves self; cache := c; update_state := update_state self |}.

Definition set_update_state (self : Tools) (s : dict value) : Tools :=
  {| valves := valves self; cache := cache self; update_state := s |}.

(** Class constants. *)
Definition EXT_TITLE : string := "Live Currency Rate".
Definition CURRENT_VERSION : string := "0.1.0".
Definition GITHUB_USER : string := "anvme".
Definition GITHUB_REPO : string := "openwebui-live_currency_rate".
Definition EXT_PATH : string := "t/anvme/live_currency_rate".
Definition DATA_FILE : string :=
  "/tmp/openwebui_upd_check_" ++ GITHUB_USER ++ "_" ++ GITHUB_REPO ++ ".json".

(** ** The outside world *)

(** The state file [DATA_FILE] as [open] and [json.load] find it: [Absent]
    ([FileNotFoundError]), [Corrupt] for content that the parser rejects
    ([JSONDecodeError], or [UnicodeDecodeError] for bytes that are not
    text; both are [ValueError]s), or the document it holds. *)
Inductive state_file : Type :=
| Absent
| Corrupt
| Stored (document : json).

(** What a method does to the outside world, in order. *)
Inductive effect : Type :=
| HttpGet (url : string)
| Emit (content : string)
| WriteFile (path : string) (contents : state_file).

(** How the three library calls of a fetch ([requests.get],
    [raise_for_status], [response.json]) end: the first that raises
    decides, and [Body] is the decoded payload when none does. *)
Inductive http_reply (A : Type) : Type :=
| RequestFailed
| BadStatus (status : Z)
| BadBody
| Body (payload : A).

Arguments RequestFailed {A}.
Arguments BadStatus {A} status.
Arguments BadBody {A}.
Arguments Body {A} payload.

(** The try block of a fetch as a result. *)
Definition http_result {A : Type} (reply : http_reply A) : result A :=
  match reply with
  | RequestFailed => Raise RequestException
  | BadStatus status => Raise (HTTPError status)
  | BadBody => Raise JSONDecodeError
  | Body payload => Ok payload
  end.

Definition fetch_failed {A : Type} (reply : http_reply A) : bool :=
  match reply with
  | Body _ => false
  | _ => true
  end.

(** The number of HTTP requests in a trace of effects. *)
Definition http_calls (trace : list effect) : nat :=
  List.length (filter (fun e => match e with HttpGet _ => true | _ => false end) trace).

(** ** [_fetch_rates] *)

(** The guard of the cache, lines 142-145: a payload is cached and
    [current_time - timestamp < CACHE_DURATION]. *)
Definition cache_is_valid (self : Tools) (current_time : float) : bool :=
  match data (cache self) with
  | Some _ =>
      Py.lt_int (PrimFloat.sub current_time (timestamp (cache self)))
                (CACHE_DURATION (valves self))
  | None => false
  end.

(** [_fetch_rates], called when [time.time()] reads [current_time] and the
    rate endpoint would answer [reply].  The payload is [None] when the
    body was the JSON value [null]. *)
Definition _fetch_rates (self : Tools) (current_time : float)
    (reply : http_reply (option RateTable))
  : result (option RateTable) * Tools * list effect :=
  if cache_is_valid self current_time then
    (Ok (data (cache self)), self, [])
  else
    match http_result reply with
    | Ok payload =>
        (Ok payload,
         set_cache self {| data := payload; timestamp := current_time |},
         [HttpGet (API_URL (valves self))])
    | Raise e =>
        match data (cache self) with
        | Some table => (Ok (Some table), self, [HttpGet (API_URL (valves self))])
        | None => (Raise (FailedToFetch e), self, [HttpGet (API_URL (valves self))])
        end
    end.

(** A sequence of calls of [_fetch_rates] on one tool object: each call
    comes with its clock reading and the reply the endpoint would give.
    Returns the results in order, the tool object at the end and all
    effects. *)
Fixpoint fetch_sequence (self : Tools)
    (calls : list (float * http_reply (option RateTable)))
  : list (result (option RateTable)) * Tools * list effect :=
  match calls with
  | [] => ([], self, [])
  | (current_time, reply) :: rest =>
      let '(r, self1, trace1) := _fetch_rates self current_time reply in
      let '(rs, self2, trace2) := fetch_sequence self1 rest in
      (r :: rs, self2, (trace1 ++ trace2)%list)
  end.

(** ** Rendering floats: the format spec [,.Nf] *)

Module Fmt.

(** [s.rstrip(chars)]: drop every trailing character that occurs in
    [chars]. *)
Fixpoint contains (c : ascii) (chars : string) : bool :=
  match chars with
  | EmptyString => false
  | String c' rest => Ascii.eqb c c' || contains c rest
  end.

Fixpoint rstrip_where (p : ascii -> bool) (s : string) : string :=
  match s with
  | EmptyString => EmptyString
  | String c rest =>
      match rstrip_where p rest with
      | EmptyString => if p c then EmptyString else String c EmptyString
      | kept => String c kept
      end
  end.

Definition rstrip (chars s : string) : string :=
  rstrip_where (fun c => contains c chars) s.

(** The decimal numeral of a natural number. *)
Definition decimal (n : Z) : string :=
  DecimalString.NilEmpty.string_of_uint (N.to_uint (Z.to_N n)).

(** A numeral padded with zeros on the left up to [width] digits. *)
Fixpoint zeros (n : nat) : string :=
  match n with
  | O => EmptyString
  | S k => String "0" (zeros k)
  end.

Definition zfill (width : nat) (s : string) : string :=
  zeros (width - String.length s) ++ s.

(** The [,] option: a comma before every group of three digits, counted
    from the right. *)
Fixpoint group_thousands (digits : string) : string :=
  match digits with
  | EmptyString => EmptyString
  | String c rest =>
      String c
        (if (Nat.ltb 0 (String.length rest)
             && Nat.eqb (Nat.modulo (String.length rest) 3) 0)%bool
         then String "," (group_thousands rest)
         else group_thousands rest)
  end.

(** [num / den] rounded to the nearest integer, ties to even
    ([0 <= num], [0 < den]). *)
Definition round_half_even (num den : Z) : Z :=
  let q := num / den in
  match 2 * (num mod den) ?= den with
  | Lt => q
  | Gt => q + 1
  | Eq => if Z.even q then q else q + 1
  end.

(** The magnitude [m * 2^e] in units of [10^-decimals], correctly
    rounded. *)
Definition scaled (decimals : nat) (m : positive) (e : Z) : Z :=
  let p := 10 ^ Z.of_nat decimals in
  if 0 <=? e then Z.pos m * 2 ^ e * p
  else round_half_even (Z.pos m * p) (2 ^ (- e)).

(** Sign, grouped integer digits, point and [decimals] fraction digits
    of [units * 10^-decimals]. *)
Definition render (decimals : nat) (negative : bool) (units : Z) : string :=
  let p := 10 ^ Z.of_nat decimals in
  (if negative then "-" else "")
  ++ group_thousands (decimal (units / p))
  ++ match decimals with
     | O => ""
     | S _ => String "." (zfill decimals (decimal (units mod p)))
     end.

(** [f"{x:,.Nf}"] with [N = decimals]: the exact binary value of [x],
    correctly rounded to [decimals] places. *)
Definition fixed (decimals : nat) (x : float) : string :=
  match Prim2SF x with
  | S754_nan => "nan"
  | S754_infinity negative => if negative then "-inf" else "inf"
  | S754_zero negative => render decimals negative 0
  | S754_finite negative m e => render decimals negative (scaled decimals m e)
  end.

End Fmt.

(** ** [_format_amount] and [_get_currency_name] *)

Definition crypto_currencies : list string := ["BTC"; "ETH"; "SOL"].

(** [currency in crypto_currencies]. *)
Definition is_crypto (currency : string) : bool :=
  existsb (String.eqb currency) crypto_currencies.

Definition _format_amount (amount : float) (currency : string) : string :=
  if is_crypto currency then
    Fmt.rstrip "." (Fmt.rstrip "0" (Fmt.fixed 8 amount))
  else if Py.ge amount 100 then Fmt.fixed 2 amount
  else if Py.ge amount 1 then Fmt.fixed 4 amount
  else Fmt.rstrip "." (Fmt.rstrip "0" (Fmt.fixed 6 amount)).

(** [names.get(code, code)] over the table of display names. *)
Definition currency_names : dict string :=
  [ ("USD", "United States Dollar ($)");
    ("EUR", "Euro (€)");
    ("JPY", "Japanese Yen (¥)");
    ("GBP", "British Pound (£)");
    ("CNY", "Chinese Yuan (¥)");
    ("AUD", "Australian Dollar (A$)");
    ("CAD", "Canadian Dollar (C$)");
    ("CHF", "Swiss Franc (Fr)");
    ("HKD", "Hong Kong Dollar (HK$)");
    ("SGD", "Singapore Dollar (S$)");
    ("NZD", "New Zealand Dollar (NZ$)");
    ("SEK", "Swedish Krona (kr)");
    ("KRW", "South Korean Won (₩)");
    ("NOK", "Norwegian Krone (kr)");
    ("INR", "Indian Rupee (₹)");
    ("MXN", "Mexican Peso ($)");
    ("BRL", "Brazilian Real (R$)");
    ("ZAR", "South African Rand (R)");
    ("TRY", "Turkish Lira (₺)");
    ("DKK", "Danish Krone (kr)");
    ("PLN", "Polish Zloty (zł)");
    ("CZK", "Czech Koruna (Kč)");
    ("ILS", "Israeli New Shekel (₪)");
    ("THB", "Thai Baht (฿)");
    ("MYR", "Malaysian Ringgit (RM)");
    ("PHP", "Philippine Peso (₱)");
    ("IDR", "Indonesian Rupiah (Rp)");
    ("HUF", "Hungarian Forint (Ft)");
    ("RON", "Romanian Leu (lei)");
    ("BGN", "Bulgarian Lev (лв)");
    ("ISK", "Icelandic Króna (kr)");
    ("BTC", "Bitcoin (BTC)");
    ("SOL", "Solana (SOL)");
    ("ETH", "Ethereum (ETH)") ].

Definition _get_currency_name (code : string) : string :=
  match Dict.get code currency_names with
  | Some name => name
  | None => code
  end.

(** ** String methods, on ASCII text *)

Module Str.

Definition map_chars (f : ascii -> ascii) : string -> string :=
  fix go (s : string) : string :=
    match s with
    | EmptyString => EmptyString
    | String c rest => String (f c) (go rest)
    end.

Definition upper_char (c : ascii) : ascii :=
  let n := nat_of_ascii c in
  if (Nat.leb 97 n && Nat.leb n 122)%bool then ascii_of_nat (n - 32) else c.

Definition lower_char (c : ascii) : ascii :=
  let n := nat_of_ascii c in
  if (Nat.leb 65 n && Nat.leb n 90)%bool then ascii_of_nat (n + 32) else c.

(** [s.upper()] and [s.lower()]. *)
Definition upper : string -> string := map_chars upper_char.
Definition lower : string -> string := map_chars lower_char.

(** The ASCII characters that [str.isspace] accepts. *)
Definition is_space (c : ascii) : bool :=
  let n := nat_of_ascii c in
  ((Nat.leb 9 n && Nat.leb n 13) || (Nat.leb 28 n && Nat.leb n 32))%bool.

Fixpoint lstrip_where (p : ascii -> bool) (s : string) : string :=
  match s with
  | EmptyString => EmptyString
  | String c rest => if p c then lstrip_where p rest else s
  end.

(** [s.strip()]. *)
Definition strip (s : string) : string :=
  Fmt.rstrip_where is_space (lstrip_where is_space s).

(** [s.lstrip(chars)]. *)
Definition lstrip (chars s : string) : string :=
  lstrip_where (fun c => Fmt.contains c chars) s.

(** [s.replace(old, new)] for a one-character [old]. *)
Fixpoint replace_char (old : ascii) (new s : string) : string :=
  match s with
  | EmptyString => EmptyString
  | String c rest =>
      if Ascii.eqb c old then new ++ replace_char old new rest
      else String c (replace_char old new rest)
  end.

(** [sorted(names)]: by code point, which is the byte order of UTF-8. *)
Fixpoint insert (x : string) (sorted : list string) : list string :=
  match sorted with
  | [] => [x]
  | y :: rest => if String.ltb y x || String.eqb y x then y :: insert x rest
                 else x :: sorted
  end.

Definition sorted (names : list string) : list string :=
  fold_right insert [] names.

End Str.

(** ** The tool functions *)

(** What a tool function returns to the host.  The host receives text:
    - [CurrencyNotFound code available] is
      ["❌ Currency '{code}' not found. Available currencies include: {available}..."];
    - [Conversion] carries the pieces of the conversion message, in the
      order of lines 333-337; [update_time] is the datetime of the
      ["Updated:"] line, when there is one;
    - [Listing] carries the title, the count, the crypto lines
      (code and name) and the rows of fiat codes of [list_currencies];
    - [InvalidFilter] is the invalid filter type message;
    - [Error e] is [f"❌ Error: {str(e)}"]. *)
Inductive response : Type :=
| CurrencyNotFound (code available : string)
| Conversion (formatted_amount from_currency from_name
              formatted_result to_currency to_name
              formatted_rate : string) (update_time : option datetime)
| Listing (title : string) (count : nat)
          (crypto_lines : list (string * string)) (fiat_rows : list string)
| InvalidFilter
| Error (e : exn).

(** [", ".join(sorted(rates.keys())[:20])]. *)
Definition available_currencies (rates : dict float) : string :=
  String.concat ", " (firstn 20 (Str.sorted (Dict.keys rates))).

(** Lines 272-309 of [convert_currency]: the value of [result]. *)
Definition conversion_result (base : string) (rates : dict float)
    (from_currency to_currency : string) (amount : float) : result float :=
  let from_is_crypto := is_crypto from_currency in
  let to_is_crypto := is_crypto to_currency in
  if String.eqb from_currency base then
    if to_is_crypto then
      r <- Dict.item to_currency rates ;; Py.div amount r
    else
      r <- Dict.item to_currency rates ;; Py.mul amount r
  else if String.eqb to_currency base then
    if from_is_crypto then
      r <- Dict.item from_currency rates ;; Py.mul amount r
    else
      r <- Dict.item from_currency rates ;; Py.div amount r
  else
    usd_value <-
      (if from_is_crypto then
         r <- Dict.item from_currency rates ;; Py.mul amount r
       else
         r <- Dict.item from_currency rates ;; Py.div amount r) ;;
    if to_is_crypto then
      r <- Dict.item to_currency rates ;; Py.div usd_value r
    else
      r <- Dict.item to_currency rates ;; Py.mul usd_value r.

(** [data.get(...)] on the payload that [_fetch_rates] returned: [None]
    has no attribute [get]. *)
Definition payload_table (payload : option RateTable) : result RateTable :=
  match payload with
  | Some table => Ok table
  | None => Raise (AttributeError "get")
  end.

Definition get_default {A : Type} (field : option A) (default : A) : A :=
  match field with
  | Some a => a
  | None => default
  end.

(** [data.get("rates", {})], [data.get("base", "USD")] and
    [data.get("updated", "")]. *)
Definition table_rates (table : RateTable) : dict float :=
  get_default (rates table) [].

Definition table_base (table : RateTable) : string :=
  get_default (base table) "USD".

Definition table_updated (table : RateTable) : string :=
  get_default (updated table) "".

(** [code.upper().strip()], lines 255-256, for a code given as ASCII
    text (see [is_ascii]); on other text Python's methods follow the
    Unicode tables, which [Str.upper] and [Str.strip] do not. *)
Definition normalize (code : string) : string := Str.strip (Str.upper code).

(** [to_currency.upper().strip() if to_currency else base]: [None] and
    the empty string are false. *)
Definition target_code (to_currency : option string) (base : string) : string :=
  match to_currency with
  | None | Some EmptyString => base
  | Some code => normalize code
  end.

(** A chunk of three per row, lines 413-415. *)
Fixpoint rows_of_three (codes : list string) : list string :=
  match codes with
  | a :: b :: c :: rest =>
      String.concat ", " (Str.sorted [a; b; c]) :: rows_of_three rest
  | [] => []
  | row => [String.concat ", " (Str.sorted row)]
  end.

Section ToolFunctions.

(** [datetime.fromisoformat], [None] when it raises [ValueError]. *)
Variable fromisoformat : string -> option datetime.

(** Lines 321-330: the datetime of the ["Updated:"] line. *)
Definition update_time_of (updated : string) : option datetime :=
  if String.eqb updated "" then None
  else fromisoformat (Str.replace_char "Z" "+00:00" updated).

(** The body of the [try] of [convert_currency] after the fetch. *)
Definition convert_currency_body (fetched : result (option RateTable))
    (from_currency : string) (to_currency : option string) (amount : float)
  : result response :=
  payload <- fetched ;;
  table <- payload_table payload ;;
  let rates := table_rates table in
  let base := table_base table in
  let updated := table_updated table in
  let from_currency := normalize from_currency in
  let to_currency := target_code to_currency base in
  if negb (Dict.mem from_currency rates) && negb (String.eqb from_currency base)
  then Ok (CurrencyNotFound from_currency (available_currencies rates))
  else if negb (Dict.mem to_currency rates) && negb (String.eqb to_currency base)
  then Ok (CurrencyNotFound to_currency (available_currencies rates))
  else
    result <- conversion_result base rates from_currency to_currency amount ;;
    rate <- Py.div result amount ;;
    Ok (Conversion (_format_amount amount from_currency)
                   from_currency (_get_currency_name from_currency)
                   (_format_amount result to_currency)
                   to_currency (_get_currency_name to_currency)
                   (_format_amount rate to_currency)
                   (update_time_of updated)).

(** The [except Exception] of a tool function. *)
Definition or_error (r : result response) : response :=
  match r with
  | Ok text => text
  | Raise e => Error e
  end.

(** [convert_currency], called when the clock reads [current_time] and
    the rate endpoint would answer [reply].  [amount] is a float, as its
    annotation says; [__user__] is a parameter of the function that its
    body never reads. *)
Definition convert_currency (self : Tools) (current_time : float)
    (reply : http_reply (option RateTable))
    (from_currency : string) (to_currency : option string) (amount : float)
    (__user__ : json)
  : response * Tools * list effect :=
  let '(fetched, self', trace) := _fetch_rates self current_time reply in
  (or_error (convert_currency_body fetched from_currency to_currency amount),
   self', trace).

(** [get_crypto_price] delegates with [amount=1.0]. *)
Definition get_crypto_price (self : Tools) (current_time : float)
    (reply : http_reply (option RateTable))
    (crypto currency : string) (__user__ : json)
  : response * Tools * list effect :=
  convert_currency self current_time reply crypto (Some currency) 1%float __user__.

Definition list_currencies_body (fetched : result (option RateTable))
    (filter_type : option string) : result response :=
  payload <- fetched ;;
  table <- payload_table payload ;;
  let rates := table_rates table in
  let base := table_base table in
  let all_currencies := base :: Dict.keys rates in
  let listing (currencies : list string) (title : string) :=
    let crypto_list := filter is_crypto currencies in
    let fiat_list := filter (fun c => negb (is_crypto c)) currencies in
    Listing title (List.length currencies)
            (map (fun code => (code, _get_currency_name code))
                 (Str.sorted crypto_list))
            (rows_of_three fiat_list) in
  match filter_type with
  | None | Some EmptyString => Ok (listing all_currencies "All Currencies")
  | Some filter_type =>
      let filter_type := Str.lower filter_type in
      if String.eqb filter_type "crypto" then
        Ok (listing (filter is_crypto all_currencies) "Cryptocurrencies")
      else if String.eqb filter_type "fiat" then
        Ok (listing (filter (fun c => negb (is_crypto c)) all_currencies)
                    "Fiat Currencies")
      else Ok InvalidFilter
  end.

Definition list_currencies (self : Tools) (current_time : float)
    (reply : http_reply (option RateTable))
    (filter_type : option string) (__user__ : json)
  : response * Tools * list effect :=
  let '(fetched, self', trace) := _fetch_rates self current_time reply in
  (or_error (list_currencies_body fetched filter_type), self', trace).

End ToolFunctions.

(** ** The update notifier *)

(** The classes named by the [except] clauses. *)
Definition is_ValueError (e : exn) : bool :=
  match e with
  | ValueError | JSONDecodeError | InvalidVersion => true
  | _ => false
  end.

Definition is_OSError (e : exn) : bool :=
  match e with
  | OSError | FileNotFoundError => true
  | _ => false
  end.

Definition is_RequestException (e : exn) : bool :=
  match e with
  | RequestException | HTTPError _ => true
  | _ => false
  end.

(** [try: body except classes: handler]. *)
Definition try_except {A : Type} (body : result A) (handled : exn -> bool)
    (handler : result A) : result A :=
  match body with
  | Ok a => Ok a
  | Raise e => if handled e then handler else Raise e
  end.

(** Truth value of an object, as [not x] and [if x] test it. *)
Definition truthy (v : value) : bool :=
  match v with
  | VDatetime _ => true
  | VJson JNull => false
  | VJson (JBool b) => b
  | VJson (JInt n) => negb (n =? 0)
  | VJson (JFloat x) => negb (PrimFloat.eqb x 0%float)
  | VJson (JStr s) => negb (String.eqb s "")
  | VJson (JArr items) => match items with [] => false | _ => true end
  | VJson (JObj members) => match members with [] => false | _ => true end
  end.

(** [v == s] for a string [s]. *)
Definition value_eq_str (v : value) (s : string) : bool :=
  match v with
  | VJson (JStr s') => String.eqb s' s
  | _ => false
  end.

(** [d.isoformat()]. *)
Definition two_digits (n : Z) : string := Fmt.zfill 2 (Fmt.decimal n).

Definition isoformat (d : datetime) : string :=
  Fmt.zfill 4 (Fmt.decimal (year d)) ++ "-" ++ two_digits (month d) ++ "-"
  ++ two_digits (day d) ++ "T" ++ two_digits (hour d) ++ ":"
  ++ two_digits (minute d) ++ ":" ++ two_digits (second d)
  ++ (if microsecond d =? 0 then ""
      else "." ++ Fmt.zfill 6 (Fmt.decimal (microsecond d)))
  ++ match utcoffset d with
     | None => ""
     | Some offset =>
         let a := Z.abs offset in
         (if offset <? 0 then "-" else "+")
         ++ two_digits (a / 3600) ++ ":" ++ two_digits (a mod 3600 / 60)
         ++ (if a mod 60 =? 0 then "" else ":" ++ two_digits (a mod 60))
     end.

(** Days from 1970-01-01 to a date of the proleptic Gregorian calendar. *)
Definition days_from_civil (y m d : Z) : Z :=
  let y' := if m <=? 2 then y - 1 else y in
  let era := y' / 400 in
  let yoe := y' - era * 400 in
  let doy := (153 * (if 2 <? m then m - 3 else m + 9) + 2) / 5 + d - 1 in
  let doe := yoe * 365 + yoe / 4 - yoe / 100 + doy in
  era * 146097 + doe - 719468.

(** Microseconds from the epoch to [d], on the clock that [d] shows. *)
Definition microseconds_of (d : datetime) : Z :=
  (((days_from_civil (year d) (month d) (day d) * 24 + hour d) * 60
    + minute d) * 60 + second d) * 1000000 + microsecond d.

(** [a - b] in microseconds: two naive datetimes, or two aware ones
    compared as instants; a naive and an aware one cannot be subtracted. *)
Definition datetime_sub (a b : datetime) : result Z :=
  match utcoffset a, utcoffset b with
  | None, None => Ok (microseconds_of a - microseconds_of b)
  | Some oa, Some ob =>
      Ok ((microseconds_of a - oa * 1000000) - (microseconds_of b - ob * 1000000))
  | _, _ => Raise TypeError
  end.

(** [timedelta(hours=24)] in microseconds. *)
Definition twenty_four_hours : Z := 24 * 3600 * 1000000.

(** The answer of the release endpoint: [requests.get] raises, or a
    response with a status code and a body, the JSON document that
    [response.json()] decodes ([None] when it raises). *)
Inductive release_reply : Type :=
| ReleaseRequestFailed
| ReleaseResponse (status_code : Z) (body : option json).

(** [data.get]: only a dict has the method. *)
Definition members_of (data : json) : result (dict json) :=
  match data with
  | JObj members => Ok members
  | _ => Raise (AttributeError "get")
  end.

(** [x.lstrip("v")] on what [data.get("tag_name", "")] gave: only a
    string has the method. *)
Definition lstrip_v (x : json) : result string :=
  match x with
  | JStr s => Ok (Str.lstrip "v" s)
  | _ => Raise (AttributeError "lstrip")
  end.

(** What the update notifier meets outside the tool object during one
    call: [datetime.now()] (a naive datetime), the release endpoint, and
    whether [open(DATA_FILE, "w")] succeeds. *)
Record World : Type := {
  now : datetime;
  release_endpoint : release_reply;
  disk_writable : bool
}.

(** A host-provided callback, [event_emitter]. *)
Inductive emitter : Type := HostEmitter.

Definition release_url : string :=
  "https://api.github.com/repos/" ++ GITHUB_USER ++ "/" ++ GITHUB_REPO
  ++ "/releases/latest".

(** The names bound at module level of [tool.py]: its imports and the
    class. *)
Definition module_globals : list string :=
  [ "BaseModel"; "Field"; "Optional"; "Dict"; "Any"; "requests"; "json";
    "time"; "datetime"; "timedelta"; "version"; "Tools" ].

(** Reading a bare name in the body of a method: the locals of the
    method, then the globals of the module (the attributes of the class
    are not in scope there, and no name read this way in [tool.py] is a
    builtin).  The text is what an f-string shows for the object. *)
Definition load_name (locals : dict string) (name : string) : result string :=
  match Dict.get name locals with
  | Some text => Ok text
  | None =>
      if existsb (String.eqb name) module_globals
      then Ok ("<" ++ name ++ ">")
      else Raise (NameError name)
  end.

Definition newline : string := String (ascii_of_nat 10) EmptyString.

(** [json.dump] accepts the documents of the state file and no datetime. *)
Fixpoint document_of (items : dict value) : result (dict json) :=
  match items with
  | [] => Ok []
  | (k, VJson j) :: rest => tail <- document_of rest ;; Ok ((k, j) :: tail)
  | (k, VDatetime _) :: rest => Raise TypeError
  end.

(** [_save_state]: the effect on the state file and what propagates. *)
Definition _save_state (self : Tools) (w : World) : result unit * list effect :=
  match
    (last_check <- Dict.item "last_check" (update_state self) ;;
     match last_check with
     | VDatetime d =>
         Ok (Dict.set "last_check" (VJson (JStr (isoformat d))) (update_state self))
     | VJson _ => Raise (AttributeError "isoformat")
     end)
  with
  | Raise e => (try_except (Raise e) is_OSError (Ok tt), [])
  | Ok data =>
      if disk_writable w then
        match document_of data with
        | Ok members => (Ok tt, [WriteFile DATA_FILE (Stored (JObj members))])
        | Raise e =>
            (try_except (Raise e) is_OSError (Ok tt), [WriteFile DATA_FILE Corrupt])
        end
      else (try_except (Raise OSError) is_OSError (Ok tt), [])
  end.

(** [_should_check_for_updates]. *)
Definition _should_check_for_updates (self : Tools) (w : World) (user : json)
  : result bool :=
  if negb (ENABLE_UPDATE_CHECK (valves self)) then Ok false
  else
    match user with
    | JObj members =>
        match Dict.get "role" members with
        | Some (JStr "admin") =>
            last_check <- Dict.item "last_check" (update_state self) ;;
            match last_check with
            | VDatetime d =>
                time_since_check <- datetime_sub (now w) d ;;
                Ok (twenty_four_hours <=? time_since_check)
            | VJson _ => Raise TypeError
            end
        | _ => Ok false
        end
    | _ => Ok false
    end.

(** The [try] block of [_check_github_release]: the update state after
    it.  The body of a 200 reply is whatever JSON the endpoint sent:
    [data.get] needs an object and [.lstrip] a string, and
    ["latest_url"] takes the value of ["html_url"] as it is. *)
Definition release_check (self : Tools) (w : World) : result (dict value) :=
  match release_endpoint w with
  | ReleaseRequestFailed => Raise RequestException
  | ReleaseResponse status_code body =>
      if status_code =? 200 then
        data <- match body with
                | Some document => Ok document
                | None => Raise JSONDecodeError
                end ;;
        members <- members_of data ;;
        new_version <-
          lstrip_v (get_default (Dict.get "tag_name" members) (JStr "")) ;;
        latest <- Dict.item "latest_version" (update_state self) ;;
        let version_changed := negb (value_eq_str latest new_version) in
        let s1 := Dict.set "latest_version" (VJson (JStr new_version))
                           (update_state self) in
        let s2 := Dict.set "latest_url"
                           (VJson (get_default (Dict.get "html_url" members)
                                               (JStr ""))) s1 in
        Ok (if version_changed
            then Dict.set "has_shown_notification" (VJson (JBool false)) s2
            else s2)
      else Ok (update_state self)
  end.

(** [_check_github_release]: the [try], its [except] that passes, and the
    [finally] that stamps [last_check] and saves. *)
Definition _check_github_release (self : Tools) (w : World)
  : result unit * Tools * list effect :=
  let attempt :=
    try_except (release_check self w)
      (fun e => is_RequestException e
                || match e with JSONDecodeError | KeyError _ => true | _ => false end)
      (Ok (update_state self)) in
  let state := match attempt with Ok s => s | Raise _ => update_state self end in
  let self' :=
    set_update_state self (Dict.set "last_check" (VDatetime (now w)) state) in
  let '(saved, writes) := _save_state self' w in
  (match attempt with Ok _ => saved | Raise e => _ <- saved ;; Raise e end,
   self', HttpGet release_url :: writes).

Section Notifier.

(** [packaging.version]: [parse] is [None] when it raises
    [InvalidVersion] (a [ValueError]), and [version_gt a b] is
    [a > b]. *)
Variable Version : Type.
Variable version_parse : string -> option Version.
Variable version_gt : Version -> Version -> bool.

(** [version.parse(v)] on an object of the update state: anything but a
    string is a [TypeError]. *)
Definition parse_version (v : value) : result Version :=
  match v with
  | VJson (JStr s) =>
      match version_parse s with
      | Some parsed => Ok parsed
      | None => Raise InvalidVersion
      end
  | _ => Raise TypeError
  end.

(** [str(v)] inside an f-string, for the strings that reach line 105. *)
Definition text_of (v : value) : string :=
  match v with
  | VJson (JStr s) => s
  | _ => ""
  end.

(** [_get_update_notification]. *)
Definition _get_update_notification (self : Tools) : result string :=
  latest_version <- Dict.item "latest_version" (update_state self) ;;
  if negb (truthy latest_version) then Ok ""
  else
    try_except
      (latest <- parse_version latest_version ;;
       current <- parse_version (VJson (JStr CURRENT_VERSION)) ;;
       if version_gt latest current then
         let github_url :=
           "https://github.com/" ++ GITHUB_USER ++ "/" ++ GITHUB_REPO in
         let ext_url := "https://openwebui.com/" ++ EXT_PATH in
         title <- load_name [("self", "<Tools>"); ("github_url", github_url);
                             ("ext_url", ext_url)] "EXT_TITLE" ;;
         Ok ("**🔔 " ++ title ++ " Update Available!**" ++ newline
             ++ "Version " ++ text_of latest_version ++ " is now available."
             ++ newline
             ++ "Current version: " ++ CURRENT_VERSION ++ newline
             ++ "📦 [GitHub](" ++ github_url ++ ") | 🔘 [OpenWebUI]("
             ++ ext_url ++ ") | 🗒️ [Release Notes](" ++ github_url
             ++ "/releases)" ++ newline)
       else Ok "")
      (fun e => is_ValueError e || match e with TypeError => true | _ => false end)
      (Ok "").

(** [_check_and_notify_updates]: what it raises if anything, the tool
    object and the effects up to that point. *)
Definition _check_and_notify_updates (self : Tools) (w : World)
    (user : json) (event_emitter : option emitter)
  : result unit * Tools * list effect :=
  match _should_check_for_updates self w user with
  | Raise e => (Raise e, self, [])
  | Ok should_check =>
      let '(checked, self1, trace1) :=
        if should_check then _check_github_release self w
        else (Ok tt, self, []) in
      match checked with
      | Raise e => (Raise e, self1, trace1)
      | Ok _ =>
          match Dict.item "has_shown_notification" (update_state self1) with
          | Raise e => (Raise e, self1, trace1)
          | Ok shown =>
              match event_emitter with
              | Some HostEmitter =>
                  if negb (truthy shown) then
                    match _get_update_notification self1 with
                    | Raise e => (Raise e, self1, trace1)
                    | Ok notification =>
                        if String.eqb notification "" then (Ok tt, self1, trace1)
                        else
                          let self2 :=
                            set_update_state self1
                              (Dict.set "has_shown_notification"
                                        (VJson (JBool true))
                                        (update_state self1)) in
                          let '(saved, writes) := _save_state self2 w in
                          (saved, self2,
                           (trace1 ++ Emit notification :: writes)%list)
                    end
                  else (Ok tt, self1, trace1)
              | None => (Ok tt, self1, trace1)
              end
          end
      end
  end.

End Notifier.

(** The messages that a trace sent through the event emitter. *)
Definition emitted (trace : list effect) : list string :=
  flat_map (fun e => match e with Emit content => [content] | _ => [] end) trace.

(** ** Loading the update state *)

Section Load.

(** [datetime.fromisoformat], [None] when it raises [ValueError]. *)
Variable fromisoformat : string -> option datetime.

(** [open(DATA_FILE, "r")] and [json.load(f)]. *)
Definition open_and_load (file : state_file) : result json :=
  match file with
  | Absent => Raise FileNotFoundError
  | Corrupt => Raise JSONDecodeError
  | Stored document => Ok document
  end.

(** [datetime.fromisoformat(x)]: [TypeError] unless [x] is a string. *)
Definition datetime_fromisoformat (x : json) : result datetime :=
  match x with
  | JStr s =>
      match fromisoformat s with
      | Some d => Ok d
      | None => Raise ValueError
      end
  | _ => Raise TypeError
  end.

(** [_load_state]. *)
Definition _load_state (file : state_file) : result (dict value) :=
  try_except
    (data <- open_and_load file ;;
     members <- members_of data ;;
     last_check <-
       datetime_fromisoformat
         (get_default (Dict.get "last_check" members) (JStr "2024-01-01")) ;;
     Ok (Dict.set "last_check" (VDatetime last_check)
                  (map (fun item => (fst item, VJson (snd item))) members)))
    (fun e => match e with FileNotFoundError => true | _ => is_ValueError e end)
    (Ok default_update_state).

(** [Tools()]: [__init__]. *)
Definition __init__ (file : state_file) : result Tools :=
  state <- _load_state file ;;
  Ok {| valves := default_valves; cache := empty_cache; update_state := state |}.

End Load.

(** ** Two instances of the library interfaces

    The functions above take [packaging.version] and
    [datetime.fromisoformat] as parameters.  The instances below cover the
    inputs that the examples use: release versions made of dot-separated
    numbers, and calendar dates written [YYYY-MM-DD]. *)

Module Lib.

Definition digit_value (c : ascii) : option Z :=
  let n := nat_of_ascii c in
  if (Nat.leb 48 n && Nat.leb n 57)%bool then Some (Z.of_nat (n - 48)) else None.

Fixpoint number_from (acc : Z) (s : string) : option Z :=
  match s with
  | EmptyString => Some acc
  | String c rest =>
      match digit_value c with
      | Some d => number_from (10 * acc + d) rest
      | None => None
      end
  end.

(** A non-empty run of decimal digits. *)
Definition number (s : string) : option Z :=
  match s with
  | EmptyString => None
  | _ => number_from 0 s
  end.

(** [s.split(sep)]. *)
Fixpoint split_on (sep : ascii) (s : string) : list string :=
  match s with
  | EmptyString => [EmptyString]
  | String c rest =>
      if Ascii.eqb c sep then EmptyString :: split_on sep rest
      else match split_on sep rest with
           | head :: tail => String c head :: tail
           | [] => [String c EmptyString]
           end
  end.

Fixpoint all_some {A : Type} (l : list (option A)) : option (list A) :=
  match l with
  | [] => Some []
  | Some a :: rest =>
      match all_some rest with
      | Some tail => Some (a :: tail)
      | None => None
      end
  | None :: _ => None
  end.

(** A release version: the numbers between the dots. *)
Definition release_parse (s : string) : option (list Z) :=
  all_some (map number (split_on "." s)).

(** Releases compare number by number, a missing number counting as
    zero. *)
Fixpoint compare_to_zeros (a : list Z) : comparison :=
  match a with
  | [] => Eq
  | x :: a' => match x ?= 0 with Eq => compare_to_zeros a' | c => c end
  end.

Fixpoint release_compare (a b : list Z) : comparison :=
  match a, b with
  | [], _ => CompOpp (compare_to_zeros b)
  | _, [] => compare_to_zeros a
  | x :: a', y :: b' => match x ?= y with Eq => release_compare a' b' | c => c end
  end.

Definition release_gt (a b : list Z) : bool :=
  match release_compare a b with
  | Gt => true
  | _ => false
  end.

Definition is_leap (y : Z) : bool :=
  ((y mod 4 =? 0) && negb (y mod 100 =? 0) || (y mod 400 =? 0))%bool.

Definition days_in_month (y m : Z) : Z :=
  if m =? 2 then (if is_leap y then 29 else 28)
  else if ((m =? 4) || (m =? 6) || (m =? 9) || (m =? 11))%bool then 30
  else 31.

(** A calendar date [YYYY-MM-DD], at midnight. *)
Definition date_fromisoformat (s : string) : option datetime :=
  match split_on "-" s with
  | [ys; ms; ds] =>
      match number ys, number ms, number ds with
      | Some y, Some m, Some d =>
          if (Nat.eqb (String.length ys) 4 && Nat.eqb (String.length ms) 2
              && Nat.eqb (String.length ds) 2
              && (1 <=? y) && (1 <=? m) && (m <=? 12)
              && (1 <=? d) && (d <=? days_in_month y m))%bool
          then Some {| year := y; month := m; day := d;
                       hour := 0; minute := 0; second := 0; microsecond := 0;
                       utcoffset := None |}
          else None
      | _, _, _ => None
      end
  | _ => None
  end.

(** A clock reading [HH:MM:SS] or [HH:MM:SS.ffffff]: hour, minute, second
    and microsecond. *)
Definition time_of_day (s : string) : option (Z * Z * Z * Z) :=
  match split_on ":" s with
  | [hs; ms; rest] =>
      let '(ss, fraction) :=
        match split_on "." rest with
        | [ss; fs] =>
            (ss, if Nat.eqb (String.length fs) 6 then number fs else None)
        | [ss] => (ss, Some 0)
        | _ => (rest, None)
        end in
      match number hs, number ms, number ss, fraction with
      | Some h, Some m, Some sec, Some us =>
          if (Nat.eqb (String.length hs) 2 && Nat.eqb (String.length ms) 2
              && Nat.eqb (String.length ss) 2
              && (h <=? 23) && (m <=? 59) && (sec <=? 59))%bool
          then Some (h, m, sec, us)
          else None
      | _, _, _, _ => None
      end
  | _ => None
  end.

(** A naive datetime as [isoformat] writes it,
    [YYYY-MM-DDTHH:MM:SS] with an optional [.ffffff], or a date alone. *)
Definition stamp_fromisoformat (s : string) : option datetime :=
  match split_on "T" s with
  | [date] => date_fromisoformat date
  | [date; time] =>
      match date_fromisoformat date, time_of_day time with
      | Some d, Some (h, m, sec, us) =>
          Some {| year := year d; month := month d; day := day d;
                  hour := h; minute := m; second := sec; microsecond := us;
                  utcoffset := None |}
      | _, _ => None
      end
  | _ => None
  end.

End Lib.

(** ** Sample data *)

Module Sample.

Definition table : RateTable := {|
  base := Some "USD";
  rates := Some [("EUR", 0.5%float); ("JPY", 49%float); ("BTC", 65536%float)];
  updated := Some "2024-05-01"
|}.

(** A tool object as [Tools()] builds it when there is no state file. *)
Definition fresh : Tools := {|
  valves := default_valves;
  cache := empty_cache;
  update_state := default_update_state
|}.

(** A tool object that fetched [table] when the clock read 1000. *)
Definition loaded : Tools :=
  set_cache fresh {| data := Some table; timestamp := 1000%float |}.

(** A tool object that knows of release 0.2.0 and has not announced it. *)
Definition outdated : Tools :=
  set_update_state fresh
    (Dict.set "latest_version" (VJson (JStr "0.2.0")) default_update_state).

Definition admin : json := JObj [("role", JStr "admin")].

Definition world : World := {|
  now := {| year := 2026; month := 11; day := 3;
            hour := 10; minute := 0; second := 0; microsecond := 0;
            utcoffset := None |};
  release_endpoint :=
    ReleaseResponse 200
      (Some (JObj [("tag_name", JStr "v0.2.0");
                   ("html_url", JStr "https://github.com/anvme")]));
  disk_writable := true
|}.

End Sample.

(** A call of [_fetch_rates] that finds the cache of [self] too old and
    the endpoint failing. *)
Definition stale_failure (self : Tools)
    (call : float * http_reply (option RateTable)) : Prop :=
  Py.lt_int (PrimFloat.sub (fst call) (timestamp (cache self)))
            (CACHE_DURATION (valves self)) = false
  /\ fetch_failed (snd call) = true.

(** A code that passes the validation of lines 259-265: the base, or a key
    of [rates]. *)
Definition valid_code (base : string) (rates : dict float) (code : string)
  : Prop :=
  code = base \/ Dict.mem code rates = true.

(** The state files for which loading is guaranteed: no file, content
    that is not JSON, or a JSON object whose ["last_check"] is absent or a
    string. *)
Definition loadable (file : state_file) : Prop :=
  match file with
  | Absent | Corrupt => True
  | Stored (JObj members) =>
      match Dict.get "last_check" members with
      | None | Some (JStr _) => True
      | Some _ => False
      end
  | Stored _ => False
  end.

(** ** The conversion and formatting rules in the words of the
    specification *)

Module Spec.

(** "one of {BTC, ETH, SOL}". *)
Definition crypto (code : string) : bool :=
  String.eqb code "BTC" || String.eqb code "ETH" || String.eqb code "SOL".

(** "[amount * rates[from]] if crypto, else [amount / rates[from]]": an
    amount of [code] as a base-denominated value. *)
Definition into_base (code : string) (rate amount : float) : float :=
  if crypto code then PrimFloat.mul amount rate else PrimFloat.div amount rate.

(** "[to] is crypto ? [amount / rates[to]] : [amount * rates[to]]": a
    base-denominated value as an amount of [code]. *)
Definition from_base (code : string) (rate value : float) : float :=
  if crypto code then PrimFloat.div value rate else PrimFloat.mul value rate.

(** The digit that a character writes. *)
Definition digit (c : ascii) : option Z :=
  let n := Z.of_nat (nat_of_ascii c) in
  if (48 <=? n) && (n <=? 57) then Some (n - 48) else None.

(** The natural number that a text of digits writes in base ten. *)
Fixpoint value_from (acc : Z) (digits : string) : option Z :=
  match digits with
  | EmptyString => Some acc
  | String c rest =>
      match digit c with
      | Some d => value_from (10 * acc + d) rest
      | None => None
      end
  end.

Definition value (digits : string) : option Z := value_from 0 digits.

(** [digits] is the decimal numeral of [n]: it writes [n], and it starts
    with a zero only when it is ["0"]. *)
Definition numeral (n : Z) (digits : string) : Prop :=
  value digits = Some n
  /\ match digits with
     | EmptyString => False
     | String c rest => c = "0"%char -> rest = EmptyString
     end.

(** [text] is [digits] with a comma between groups of three, counted
    from the right: a head of one to three characters, then groups of
    three, each after a comma. *)
Inductive grouped : string -> string -> Prop :=
| grouped_head (head : string) :
    (1 <= String.length head <= 3)%nat -> grouped head head
| grouped_more (digits text group : string) :
    grouped digits text -> String.length group = 3%nat ->
    grouped (digits ++ group) (text ++ "," ++ group).

(** [text] shows [units * 10^-decimals] with [decimals] decimal places:
    a minus sign when [negative], the numeral of the integer part with a
    comma between thousands, and, when [decimals] is not zero, a point
    and exactly [decimals] digits that write the fraction. *)
Definition shows (decimals : nat) (negative : bool) (units : Z)
    (text : string) : Prop :=
  exists digits whole fraction : string,
    numeral (units / 10 ^ Z.of_nat decimals) digits
    /\ grouped digits whole
    /\ String.length fraction = decimals
    /\ value fraction = Some (units mod 10 ^ Z.of_nat decimals)
    /\ text = (if negative then "-" else "")
              ++ whole
              ++ match decimals with
                 | O => ""
                 | S _ => "." ++ fraction
                 end.

(** [units] is the integer nearest to [num / den]; of two integers
    equally near, the even one. *)
Definition nearest_even (num den units : Z) : Prop :=
  2 * Z.abs (units * den - num) <= den
  /\ (2 * Z.abs (units * den - num) = den -> Z.even units = true).

(** "render with N decimal places": the text of [f"{x:,.Nf}"].  A finite
    [x] of magnitude [m * 2^e] is shown as the multiple of [10^-N]
    nearest to it. *)
Definition renders (decimals : nat) (x : float) (text : string) : Prop :=
  match Prim2SF x with
  | S754_nan => text = "nan"
  | S754_infinity negative => text = if negative then "-inf" else "inf"
  | S754_zero negative => shows decimals negative 0 text
  | S754_finite negative m e =>
      exists units : Z,
        nearest_even (Z.pos m * 2 ^ Z.max 0 e * 10 ^ Z.of_nat decimals)
          (2 ^ Z.max 0 (- e)) units
        /\ shows decimals negative units text
  end.

(** "strip trailing zero digits": without the longest run of zeros that
    ends the text. *)
Fixpoint all_zeros (s : string) : bool :=
  match s with
  | EmptyString => true
  | String c rest => Ascii.eqb c "0" && all_zeros rest
  end.

Fixpoint drop_trailing_zeros (s : string) : string :=
  match s with
  | EmptyString => EmptyString
  | String c rest =>
      if Ascii.eqb c "0" && all_zeros rest then EmptyString
      else String c (drop_trailing_zeros rest)
  end.

(** "a trailing decimal point if one remains": the last character, when
    it is a point. *)
Fixpoint drop_final_point (s : string) : string :=
  match s with
  | EmptyString => EmptyString
  | String c EmptyString => if Ascii.eqb c "." then EmptyString else s
  | String c rest => String c (drop_final_point rest)
  end.

(** "strip trailing zero digits and a trailing decimal point if one
    remains". *)
Definition strip_zeros_and_point (s : string) : string :=
  drop_final_point (drop_trailing_zeros s).

(** "if code is crypto, render with 8 decimal places then strip [...].
    If fiat: render with 2 decimals when amount >= 100, 4 decimals when
    1 <= amount < 100, else render with 6 decimals and strip": the texts
    that the rule allows for an amount of a currency. *)
Definition formats (amount : float) (code text : string) : Prop :=
  if crypto code then
    exists rendered,
      renders 8 amount rendered /\ text = strip_zeros_and_point rendered
  else if PrimFloat.leb 100 amount then renders 2 amount text
  else if PrimFloat.leb 1 amount && PrimFloat.ltb amount 100
  then renders 4 amount text
  else
    exists rendered,
      renders 6 amount rendered /\ text = strip_zeros_and_point rendered.

End Spec.

(** The number that a numeral of the standard library writes after the
    digits that make [acc]. *)
Fixpoint uint_value (acc : Z) (u : Decimal.uint) : Z :=
  match u with
  | Decimal.Nil => acc
  | Decimal.D0 u => uint_value (10 * acc + 0) u
  | Decimal.D1 u => uint_value (10 * acc + 1) u
  | Decimal.D2 u => uint_value (10 * acc + 2) u
  | Decimal.D3 u => uint_value (10 * acc + 3) u
  | Decimal.D4 u => uint_value (10 * acc + 4) u
  | Decimal.D5 u => uint_value (10 * acc + 5) u
  | Decimal.D6 u => uint_value (10 * acc + 6) u
  | Decimal.D7 u => uint_value (10 * acc + 7) u
  | Decimal.D8 u => uint_value (10 * acc + 8) u
  | Decimal.D9 u => uint_value (10 * acc + 9) u
  end.

(** The number of decimal points in a text. *)
Fixpoint points (s : string) : nat :=
  match s with
  | EmptyString => O
  | String c rest => ((if Ascii.eqb c "." then 1 else 0) + points rest)%nat
  end.

(** An update state that [_save_state] can write: its ["last_check"]
    is a datetime and every other value is a JSON document. *)
Fixpoint all_json (items : dict value) : bool :=
  match items with
  | [] => true
  | (_, VJson _) :: rest => all_json rest
  | (_, VDatetime _) :: _ => false
  end.

Fixpoint storable (items : dict value) : bool :=
  match items with
  | [] => false
  | (key, v) :: rest =>
      if String.eqb "last_check" key then
        match v with
        | VDatetime _ => all_json rest
        | VJson _ => false
        end
      else
        match v with
        | VJson _ => storable rest
        | VDatetime _ => false
        end
  end.

(** Codes in ascending order: each one is at most the next. *)
Definition ascending (codes : list string) : Prop :=
  Sorted.Sorted (fun a b => String.leb a b = true) codes.

(** The last character of a text. *)
Fixpoint last_char (s : string) : option ascii :=
  match s with
  | EmptyString => None
  | String c EmptyString => Some c
  | String _ rest => last_char rest
  end.

(** A user that [_should_check_for_updates] takes for an admin. *)
Definition is_admin (user : json) : bool :=
  match user with
  | JObj members =>
      match Dict.get "role" members with
      | Some (JStr role) => String.eqb role "admin"
      | _ => false
      end
  | _ => false
  end.

(** The attribute that a 200 reply of the release endpoint lacks, if any:
    [get] when the body is no object, [lstrip] when its ["tag_name"] is
    no string. *)
Definition release_attribute_error (w : World) : option string :=
  match release_endpoint w with
  | ReleaseResponse status_code (Some data) =>
      if status_code =? 200 then
        match data with
        | JObj members =>
            match get_default (Dict.get "tag_name" members) (JStr "") with
            | JStr _ => None
            | _ => Some "lstrip"
            end
        | _ => Some "get"
        end
      else None
  | _ => None
  end.

(** The exceptions that the [except] of [_check_github_release] passes
    over. *)
Definition is_swallowed (e : exn) : bool :=
  is_RequestException e
  || match e with JSONDecodeError | KeyError _ => true | _ => false end.

(** Text made of ASCII characters only, on which [Str.upper], [Str.lower]
    and [Str.strip] are the methods of Python's [str]. *)
Fixpoint is_ascii (s : string) : bool :=
  match s with
  | EmptyString => true
  | String c rest => Nat.ltb (nat_of_ascii c) 128 && is_ascii rest
  end.

(** What the notify step of [_check_and_notify_updates] returns when it
    sends nothing. *)
Definition silent_notify_result (shown : result value)
    (event_emitter : option emitter) (notification : result string)
  : result unit :=
  match shown with
  | Raise e => Raise e
  | Ok flag =>
      match event_emitter with
      | Some _ => if negb (truthy flag) then _ <- notification ;; Ok tt
                  else Ok tt
      | None => Ok tt
      end
  end.

(** * Properties *)

(** ** The rate cache *)

Lemma fetch_failed_raises {A : Type} (reply : http_reply A) :
  fetch_failed reply = true -> exists e, http_result reply = Raise e.
Proof.
  destruct reply; simpl; intros H; try discriminate; eexists; reflexivity.
Qed.

(** A valid cache answers without touching the network or the tool
    object. *)
Lemma fetch_rates_hit (self : Tools) (t : float)
    (reply : http_reply (option RateTable)) (table : RateTable) :
  data (cache self) = Some table ->
  Py.lt_int (PrimFloat.sub t (timestamp (cache self)))
            (CACHE_DURATION (valves self)) = true ->
  _fetch_rates self t reply = (Ok (Some table), self, []).
Proof.
  intros Hdata Hage. unfold _fetch_rates, cache_is_valid.
  rewrite Hdata, Hage. reflexivity.
Qed.

(** A miss that the endpoint answers stores the payload and the clock
    reading together. *)
Lemma fetch_rates_miss_success (self : Tools) (t : float)
    (payload : option RateTable) :
  cache_is_valid self t = false ->
  _fetch_rates self t (Body payload)
  = (Ok payload, set_cache self {| data := payload; timestamp := t |},
     [HttpGet (API_URL (valves self))]).
Proof.
  intros Hmiss. unfold _fetch_rates. rewrite Hmiss. reflexivity.
Qed.

(** A miss that the endpoint fails falls back on the cached table and
    leaves the tool object as it was. *)
Lemma fetch_rates_miss_failure_cached (self : Tools) (t : float)
    (reply : http_reply (option RateTable)) (table : RateTable) :
  cache_is_valid self t = false ->
  fetch_failed reply = true ->
  data (cache self) = Some table ->
  _fetch_rates self t reply
  = (Ok (Some table), self, [HttpGet (API_URL (valves self))]).
Proof.
  intros Hmiss Hfail Hdata. unfold _fetch_rates. rewrite Hmiss.
  destruct (fetch_failed_raises reply Hfail) as [e He].
  rewrite He, Hdata. reflexivity.
Qed.

Lemma cache_is_valid_no_data (self : Tools) (t : float) :
  data (cache self) = None -> cache_is_valid self t = false.
Proof. intros H. unfold cache_is_valid. rewrite H. reflexivity. Qed.

(** C3: [_fetch_rates] raises only when the fetch fails and nothing is
    cached; a failed fetch (request error, error status or undecodable
    body) with a cached table returns that table and leaves the cache
    unchanged, also right after the fetch that stored it; a failed fetch
    with nothing cached raises the fetch error. *)
Theorem fetch_rates_falls_back_to_cache (self : Tools) (t : float)
    (reply : http_reply (option RateTable)) :
  (forall e, fst (fst (_fetch_rates self t reply)) = Raise e ->
     fetch_failed reply = true /\ data (cache self) = None) /\
  (fetch_failed reply = true ->
     forall table, data (cache self) = Some table ->
       fst (fst (_fetch_rates self t reply)) = Ok (Some table)
       /\ snd (fst (_fetch_rates self t reply)) = self) /\
  (fetch_failed reply = true ->
     forall (t0 : float) (table : RateTable),
       cache_is_valid self t0 = false ->
       let '(results, self', _) :=
         fetch_sequence self [(t0, Body (Some table)); (t, reply)] in
       results = [Ok (Some table); Ok (Some table)]
       /\ cache self' = {| data := Some table; timestamp := t0 |}) /\
  (fetch_failed reply = true -> data (cache self) = None ->
     exists cause,
       http_result reply = Raise cause
       /\ _fetch_rates self t reply
          = (Raise (FailedToFetch cause), self, [HttpGet (API_URL (valves self))])).
Proof.
  split; [|split; [|split]].
  - intros e H. split.
    + revert H. unfold _fetch_rates.
      destruct (cache_is_valid self t); [discriminate|].
      destruct reply; simpl; try reflexivity.
      discriminate.
    + revert H. unfold _fetch_rates, cache_is_valid.
      destruct (data (cache self)) as [table|]; [|reflexivity].
      destruct (Py.lt_int _ _); [discriminate|].
      destruct (http_result reply); discriminate.
  - intros Hfail table Hdata.
    unfold _fetch_rates, cache_is_valid. rewrite Hdata.
    destruct (Py.lt_int _ _); [split; reflexivity|].
    destruct (fetch_failed_raises reply Hfail) as [e He]. rewrite He.
    split; reflexivity.
  - intros Hfail t0 table Hmiss. simpl.
    rewrite (fetch_rates_miss_success self t0 (Some table) Hmiss).
    set (self1 := set_cache self _).
    destruct (Py.lt_int (PrimFloat.sub t t0) (CACHE_DURATION (valves self))) eqn:Hage.
    + rewrite (fetch_rates_hit self1 t reply (table := table) eq_refl Hage).
      split; reflexivity.
    + assert (Hmiss1 : cache_is_valid self1 t = false) by exact Hage.
      rewrite (fetch_rates_miss_failure_cached self1 t reply Hmiss1 Hfail eq_refl).
      split; reflexivity.
  - intros Hfail Hnone.
    destruct (fetch_failed_raises reply Hfail) as [e He].
    exists e. split; [exact He|].
    unfold _fetch_rates. rewrite (cache_is_valid_no_data self t Hnone).
    rewrite He, Hnone. reflexivity.
Qed.

Lemma fetch_rates_falls_back_to_cache_witness :
  fst (fst (_fetch_rates Sample.loaded 2000%float BadBody)) = Ok (Some Sample.table)
  /\ snd (fst (_fetch_rates Sample.loaded 2000%float BadBody)) = Sample.loaded.
Proof.
  destruct (fetch_rates_falls_back_to_cache Sample.loaded 2000%float BadBody)
    as (_ & Hcached & _).
  apply Hcached; reflexivity.
Defined.

(** C7: a cached table whose age is below [CACHE_DURATION] (180 by
    default) is returned at once, with no request; so a call that fetches
    at [t0] and a call at [t1] within the duration make one request
    together, and a later call at [t2], once the duration has elapsed,
    makes the second. *)
Theorem fetch_rates_one_request_per_duration (self : Tools)
    (t0 t1 t2 : float) (table : RateTable)
    (r1 r2 : http_reply (option RateTable))
    (Hmiss : cache_is_valid self t0 = false)
    (Hwithin : Py.lt_int (PrimFloat.sub t1 t0) (CACHE_DURATION (valves self)) = true)
    (Hafter : Py.lt_int (PrimFloat.sub t2 t0) (CACHE_DURATION (valves self)) = false) :
  (forall (tools : Tools) (t : float) (reply : http_reply (option RateTable))
          (cached : RateTable),
      data (cache tools) = Some cached ->
      Py.lt_int (PrimFloat.sub t (timestamp (cache tools)))
                (CACHE_DURATION (valves tools)) = true ->
      _fetch_rates tools t reply = (Ok (Some cached), tools, [])) /\
  CACHE_DURATION default_valves = 180 /\
  http_calls (snd (fetch_sequence self [(t0, Body (Some table)); (t1, r1)])) = 1%nat /\
  http_calls (snd (fetch_sequence self
                     [(t0, Body (Some table)); (t1, r1); (t2, r2)])) = 2%nat.
Proof.
  split; [|split; [reflexivity|]].
  - intros tools t reply cached Hdata Hage.
    exact (fetch_rates_hit tools t reply Hdata Hage).
  - simpl.
    rewrite (fetch_rates_miss_success self t0 (Some table) Hmiss).
    set (self1 := set_cache self _).
    rewrite (fetch_rates_hit self1 t1 r1 (table := table) eq_refl Hwithin).
    split; [reflexivity|].
    unfold _fetch_rates.
    assert (Hmiss2 : cache_is_valid self1 t2 = false) by exact Hafter.
    rewrite Hmiss2.
    destruct (http_result r2); reflexivity.
Qed.

Lemma fetch_rates_one_request_per_duration_witness :
  http_calls (snd (fetch_sequence Sample.fresh
                     [(1000%float, Body (Some Sample.table));
                      (1179.5%float, BadBody)])) = 1%nat
  /\ http_calls (snd (fetch_sequence Sample.fresh
                        [(1000%float, Body (Some Sample.table));
                         (1179.5%float, BadBody);
                         (1180%float, RequestFailed)])) = 2%nat.
Proof.
  destruct (fetch_rates_one_request_per_duration Sample.fresh
              1000%float 1179.5%float 1180%float Sample.table
              BadBody RequestFailed) as (_ & _ & H);
    [reflexivity | vm_compute; reflexivity | vm_compute; reflexivity | exact H].
Defined.

(** Calls that find the cache too old and the endpoint failing: each one
    makes a request, returns the cached table and leaves the tool object,
    so also the timestamp, untouched. *)
Lemma fetch_sequence_stale_failures (self : Tools) (table : RateTable)
    (calls : list (float * http_reply (option RateTable))) :
  data (cache self) = Some table ->
  Forall (stale_failure self) calls ->
  fetch_sequence self calls
  = (map (fun _ => Ok (Some table)) calls, self,
     map (fun _ => HttpGet (API_URL (valves self))) calls).
Proof.
  intros Hdata Hcalls.
  induction Hcalls as [|[t reply] rest [Hold Hfail] _ IH]; [reflexivity|].
  simpl in Hold, Hfail. simpl.
  assert (Hmiss : cache_is_valid self t = false).
  { unfold cache_is_valid. rewrite Hdata. exact Hold. }
  rewrite (fetch_rates_miss_failure_cached self t reply Hmiss Hfail Hdata).
  rewrite IH. reflexivity.
Qed.

(** C10: serving the cached table after a failed fetch does not touch the
    timestamp: as long as the fetches fail, every call made once the
    duration has elapsed since the last successful fetch makes a request
    and gets the same table from the same cache, and the first fetch that
    succeeds stores its payload with its own clock reading. *)
Theorem stale_fallback_keeps_timestamp (self : Tools) (table : RateTable)
    (calls : list (float * http_reply (option RateTable)))
    (Hdata : data (cache self) = Some table)
    (Hcalls : Forall (stale_failure self) calls) :
  (let '(results, self', trace) := fetch_sequence self calls in
   results = map (fun _ => Ok (Some table)) calls
   /\ self' = self
   /\ timestamp (cache self') = timestamp (cache self)
   /\ http_calls trace = List.length calls) /\
  (forall (t : float) (payload : option RateTable),
      Py.lt_int (PrimFloat.sub t (timestamp (cache self)))
                (CACHE_DURATION (valves self)) = false ->
      let '(results, self', trace) :=
        fetch_sequence self (calls ++ [(t, Body payload)]) in
      cache self' = {| data := payload; timestamp := t |}
      /\ http_calls trace = S (List.length calls)).
Proof.
  split.
  - rewrite (fetch_sequence_stale_failures Hdata Hcalls).
    repeat split; try reflexivity.
    unfold http_calls. clear Hcalls.
    induction calls as [|c rest IH]; simpl; [reflexivity|]. now rewrite IH.
  - intros t payload Hold.
    assert (Hmiss : cache_is_valid self t = false).
    { unfold cache_is_valid. rewrite Hdata. exact Hold. }
    clear Hold.
    induction Hcalls as [|[t' reply] rest [Hold' Hfail] _ IH].
    + simpl. rewrite (fetch_rates_miss_success self t payload Hmiss).
      split; reflexivity.
    + simpl in Hold', Hfail. simpl.
      assert (Hmiss' : cache_is_valid self t' = false).
      { unfold cache_is_valid. rewrite Hdata. exact Hold'. }
      rewrite (fetch_rates_miss_failure_cached self t' reply Hmiss' Hfail Hdata).
      destruct (fetch_sequence self (rest ++ [(t, Body payload)]))
        as [[results self'] trace].
      destruct IH as [Hc Hn]. split; [exact Hc|].
      unfold http_calls in *. simpl. now rewrite Hn.
Qed.

Lemma stale_fallback_keeps_timestamp_witness :
  let '(results, self', trace) :=
    fetch_sequence Sample.loaded
      [(1180%float, BadBody); (1500%float, RequestFailed);
       (9000%float, BadStatus 503)] in
  results = [Ok (Some Sample.table); Ok (Some Sample.table); Ok (Some Sample.table)]
  /\ self' = Sample.loaded
  /\ timestamp (cache self') = 1000%float
  /\ http_calls trace = 3%nat.
Proof.
  refine (proj1 (@stale_fallback_keeps_timestamp Sample.loaded Sample.table
            [(1180%float, BadBody); (1500%float, RequestFailed);
             (9000%float, BadStatus 503)] eq_refl _)).
  repeat constructor.
Defined.

(** ** The conversion *)

Lemma mem_get {V : Type} (key : string) (d : dict V) :
  Dict.mem key d = true -> exists v, Dict.get key d = Some v.
Proof.
  unfold Dict.mem. destruct (Dict.get key d) as [v|]; [|discriminate].
  intros _. exists v. reflexivity.
Qed.

Lemma item_get {V : Type} (key : string) (d : dict V) (v : V) :
  Dict.get key d = Some v -> Dict.item key d = Ok v.
Proof. intros H. unfold Dict.item. rewrite H. reflexivity. Qed.

Lemma valid_code_rate (base : string) (rates : dict float) (code : string) :
  valid_code base rates code -> code <> base ->
  exists r, Dict.get code rates = Some r.
Proof.
  intros [Heq|Hmem] Hneq; [contradiction|]. exact (mem_get code rates Hmem).
Qed.

Lemma eqb_false_of_neq (a b : string) : a <> b -> String.eqb a b = false.
Proof. intros H. apply String.eqb_neq. exact H. Qed.

Lemma is_crypto_spec (code : string) : is_crypto code = Spec.crypto code.
Proof.
  unfold is_crypto, Spec.crypto, crypto_currencies. cbn [existsb].
  destruct (String.eqb code "BTC"), (String.eqb code "ETH"),
    (String.eqb code "SOL"); reflexivity.
Qed.

Lemma div_nonzero (a b : float) :
  PrimFloat.eqb b 0%float = false -> Py.div a b = Ok (PrimFloat.div a b).
Proof. intros H. unfold Py.div. rewrite H. reflexivity. Qed.

(** C1, as the code has it: for two codes that are the base or keys of
    [rates], whenever the rates that the formula reads are keys of
    [rates] and the rates that it divides by are not zero, the result
    follows three cases, in binary64 arithmetic.  From the base:
    [amount / rates[to]] when [to] is one of BTC, ETH, SOL and
    [amount * rates[to]] otherwise.  To the base: [amount * rates[from]]
    when [from] is one of BTC, ETH, SOL and [amount / rates[from]]
    otherwise.  Any other pair: the amount is first turned into a base
    value by the second rule, and that value into the target by the
    first rule. *)
Theorem conversion_three_cases (base : string) (rates : dict float)
    (from_currency to_currency : string) (amount : float)
    (Hfrom : valid_code base rates from_currency)
    (Hto : valid_code base rates to_currency) :
  (from_currency = base ->
   forall r,
     Dict.get to_currency rates = Some r ->
     (Spec.crypto to_currency = true -> PrimFloat.eqb r 0%float = false) ->
     conversion_result base rates from_currency to_currency amount
     = Ok (Spec.from_base to_currency r amount)) /\
  (from_currency <> base -> to_currency = base ->
   exists r,
     Dict.get from_currency rates = Some r
     /\ ((Spec.crypto from_currency = false -> PrimFloat.eqb r 0%float = false) ->
         conversion_result base rates from_currency to_currency amount
         = Ok (Spec.into_base from_currency r amount))) /\
  (from_currency <> base -> to_currency <> base ->
   exists r_from r_to,
     Dict.get from_currency rates = Some r_from
     /\ Dict.get to_currency rates = Some r_to
     /\ ((Spec.crypto from_currency = false ->
          PrimFloat.eqb r_from 0%float = false) ->
         (Spec.crypto to_currency = true ->
          PrimFloat.eqb r_to 0%float = false) ->
         conversion_result base rates from_currency to_currency amount
         = Ok (Spec.from_base to_currency r_to
                 (Spec.into_base from_currency r_from amount)))).
Proof.
  split; [|split].
  - intros Heq r Hr Hnonzero. unfold conversion_result, Spec.from_base.
    rewrite Heq, String.eqb_refl, (item_get _ _ Hr), is_crypto_spec.
    cbn [bind].
    destruct (Spec.crypto to_currency); [|reflexivity].
    apply div_nonzero, Hnonzero. reflexivity.
  - intros Hneq Heq.
    destruct (valid_code_rate Hfrom Hneq) as [r Hr].
    exists r. split; [exact Hr|]. intros Hnonzero.
    unfold conversion_result, Spec.into_base.
    rewrite (eqb_false_of_neq Hneq), Heq, String.eqb_refl.
    rewrite (item_get _ _ Hr), is_crypto_spec. cbn [bind].
    destruct (Spec.crypto from_currency); [reflexivity|].
    apply div_nonzero, Hnonzero. reflexivity.
  - intros Hneq_from Hneq_to.
    destruct (valid_code_rate Hfrom Hneq_from) as [rf Hrf].
    destruct (valid_code_rate Hto Hneq_to) as [rt Hrt].
    exists rf, rt. split; [exact Hrf|]. split; [exact Hrt|].
    intros Hnonzero_from Hnonzero_to.
    unfold conversion_result, Spec.from_base, Spec.into_base.
    rewrite (eqb_false_of_neq Hneq_from), (eqb_false_of_neq Hneq_to).
    rewrite (item_get _ _ Hrf), (item_get _ _ Hrt), !is_crypto_spec.
    cbn [bind].
    destruct (Spec.crypto from_currency), (Spec.crypto to_currency);
      unfold Py.mul; cbn [bind].
    + apply div_nonzero, Hnonzero_to. reflexivity.
    + reflexivity.
    + rewrite (@div_nonzero amount rf (Hnonzero_from eq_refl)). cbn [bind].
      apply div_nonzero, Hnonzero_to. reflexivity.
    + rewrite (@div_nonzero amount rf (Hnonzero_from eq_refl)). reflexivity.
Qed.

Lemma conversion_three_cases_witness :
  conversion_result "USD" [("EUR", 0.5%float); ("ETH", 4096%float)]
    "ETH" "EUR" 2%float
  = Ok 4096%float.
Proof.
  destruct (proj2 (proj2 (@conversion_three_cases "USD"
              [("EUR", 0.5%float); ("ETH", 4096%float)] "ETH" "EUR" 2%float
              (or_intror eq_refl) (or_intror eq_refl)))
              ltac:(discriminate) ltac:(discriminate))
    as (r_from & r_to & Hrate_from & Hrate_to & Hresult).
  injection Hrate_from as <-. injection Hrate_to as <-.
  rewrite Hresult; [reflexivity | discriminate | discriminate].
Defined.

(** C1 fails as stated: the base converted into itself is a pair of valid
    codes, yet the rule for [from == base] reads [rates[base]], which is
    no key, and a rate of zero in a divisor position gives no result
    either. *)
Lemma conversion_three_cases_counterexample :
  conversion_result "USD" [("EUR", 0.5%float); ("JPY", 49%float)]
    "USD" "USD" 1%float = Raise (KeyError "USD")
  /\ conversion_result "USD" [("EUR", 0%float); ("JPY", 49%float)]
       "EUR" "JPY" 1%float = Raise ZeroDivisionError.
Proof. split; vm_compute; reflexivity. Qed.

(** C2, as the code has it: for a code other than the base with a rate
    [r] that is not zero, converting into the same code computes the
    round trip [(amount / r) * r] (fiat) or [(amount * r) / r] (crypto) in
    binary64; the result is [amount] whenever that round trip is exact. *)
Theorem identity_conversion_round_trip (base : string) (rates : dict float)
    (code : string) (amount r : float)
    (Hcode : code <> base)
    (Hrate : Dict.get code rates = Some r)
    (Hnonzero : PrimFloat.eqb r 0%float = false) :
  let round_trip :=
    if is_crypto code
    then PrimFloat.div (PrimFloat.mul amount r) r
    else PrimFloat.mul (PrimFloat.div amount r) r in
  conversion_result base rates code code amount = Ok round_trip
  /\ (round_trip = amount ->
      conversion_result base rates code code amount = Ok amount).
Proof.
  assert (H : conversion_result base rates code code amount
              = Ok (if is_crypto code
                    then PrimFloat.div (PrimFloat.mul amount r) r
                    else PrimFloat.mul (PrimFloat.div amount r) r)).
  { unfold conversion_result.
    rewrite (eqb_false_of_neq Hcode), (item_get _ _ Hrate).
    destruct (is_crypto code); unfold Py.div, Py.mul; simpl;
      rewrite Hnonzero; reflexivity. }
  simpl. split; [exact H|]. intros Hexact. rewrite H, Hexact. reflexivity.
Qed.

Lemma identity_conversion_round_trip_witness :
  conversion_result "USD" [("EUR", 0.5%float); ("BTC", 65536%float)]
    "EUR" "EUR" 3%float = Ok 3%float.
Proof.
  refine (proj2 (@identity_conversion_round_trip "USD"
            [("EUR", 0.5%float); ("BTC", 65536%float)] "EUR" 3%float 0.5%float
            _ _ _) _).
  - discriminate.
  - reflexivity.
  - reflexivity.
  - reflexivity.
Defined.

(** C2 fails as stated: with rate 49 the round trip of 1 is the float
    just below 1, and converting the base into itself looks up the base
    among the rates, where it is not a key. *)
Lemma identity_conversion_counterexample :
  conversion_result "USD" [("EUR", 0.5%float); ("JPY", 49%float)]
    "JPY" "JPY" 1%float = Ok 0x1.fffffffffffffp-1%float
  /\ PrimFloat.eqb 0x1.fffffffffffffp-1%float 1%float = false
  /\ conversion_result "USD" [("EUR", 0.5%float); ("JPY", 49%float)]
       "USD" "USD" 1%float = Raise (KeyError "USD").
Proof. repeat split; vm_compute; reflexivity. Qed.

Lemma valid_code_passes (base : string) (rates : dict float) (code : string) :
  valid_code base rates code ->
  negb (Dict.mem code rates) && negb (String.eqb code base) = false.
Proof.
  intros [Heq|Hmem].
  - rewrite Heq, String.eqb_refl. apply andb_false_r.
  - rewrite Hmem. reflexivity.
Qed.

(** With a zero amount no conversion is ever shown. *)
Lemma zero_amount_never_converts (fromisoformat : string -> option datetime)
    (fetched : result (option RateTable)) (from_currency : string)
    (to_currency : option string) (amount : float) :
  PrimFloat.eqb amount 0%float = true ->
  (exists code available,
      or_error (convert_currency_body fromisoformat fetched
                  from_currency to_currency amount)
      = CurrencyNotFound code available)
  \/ (exists e,
      or_error (convert_currency_body fromisoformat fetched
                  from_currency to_currency amount) = Error e).
Proof.
  intros Hzero. unfold convert_currency_body.
  destruct fetched as [[table|]|e]; simpl;
    [| right; eexists; reflexivity | right; eexists; reflexivity].
  destruct (negb (Dict.mem _ _) && negb (String.eqb _ _)).
  { left. do 2 eexists. reflexivity. }
  destruct (negb (Dict.mem _ _) && negb (String.eqb _ _)).
  { left. do 2 eexists. reflexivity. }
  right.
  destruct (conversion_result _ _ _ _ _) as [result|e]; simpl;
    [|eexists; reflexivity].
  unfold Py.div. rewrite Hzero. simpl. eexists; reflexivity.
Qed.

(** For two valid codes the tool function shows the result of
    [conversion_result] and the rate [result / amount]. *)
Lemma convert_currency_body_valid (fromisoformat : string -> option datetime)
    (table : RateTable) (from_currency : string) (to_currency : option string)
    (amount : float) :
  let from_ := normalize from_currency in
  let to_ := target_code to_currency (table_base table) in
  valid_code (table_base table) (table_rates table) from_ ->
  valid_code (table_base table) (table_rates table) to_ ->
  convert_currency_body fromisoformat (Ok (Some table))
    from_currency to_currency amount
  = (converted <- conversion_result (table_base table) (table_rates table)
                    from_ to_ amount ;;
     rate <- Py.div converted amount ;;
     Ok (Conversion (_format_amount amount from_) from_
           (_get_currency_name from_)
           (_format_amount converted to_) to_
           (_get_currency_name to_)
           (_format_amount rate to_)
           (update_time_of fromisoformat (table_updated table)))).
Proof.
  intros from_ to_ Hfrom Hto. subst from_ to_.
  cbv beta zeta iota delta [convert_currency_body bind payload_table].
  rewrite (valid_code_passes Hfrom), (valid_code_passes Hto).
  reflexivity.
Qed.

(** C4, as the code has it: the amount is not validated, whatever its
    sign.  For two valid codes whose conversion yields a result, a zero
    amount makes the rate division [result / amount] raise
    [ZeroDivisionError], which the tool function returns as its error
    text in place of a conversion; any other amount, negative ones
    included, is converted and shown.  With a zero amount no input at all
    leads to a shown conversion. *)
Theorem zero_amount_renders_error (fromisoformat : string -> option datetime)
    (table : RateTable) (from_currency : string) (to_currency : option string)
    (amount converted : float)
    (Hfrom : valid_code (table_base table) (table_rates table)
               (normalize from_currency))
    (Hto : valid_code (table_base table) (table_rates table)
             (target_code to_currency (table_base table)))
    (Hresult : conversion_result (table_base table) (table_rates table)
                 (normalize from_currency)
                 (target_code to_currency (table_base table)) amount
               = Ok converted) :
  let from_ := normalize from_currency in
  let to_ := target_code to_currency (table_base table) in
  (PrimFloat.eqb amount 0%float = true ->
     or_error (convert_currency_body fromisoformat (Ok (Some table))
                 from_currency to_currency amount)
     = Error ZeroDivisionError) /\
  (PrimFloat.eqb amount 0%float = false ->
     or_error (convert_currency_body fromisoformat (Ok (Some table))
                 from_currency to_currency amount)
     = Conversion (_format_amount amount from_) from_ (_get_currency_name from_)
                  (_format_amount converted to_) to_ (_get_currency_name to_)
                  (_format_amount (PrimFloat.div converted amount) to_)
                  (update_time_of fromisoformat (table_updated table))) /\
  (forall (fetched : result (option RateTable)) (source : string)
          (target : option string),
     PrimFloat.eqb amount 0%float = true ->
     (exists code available,
         or_error (convert_currency_body fromisoformat fetched
                     source target amount)
         = CurrencyNotFound code available)
     \/ (exists e,
         or_error (convert_currency_body fromisoformat fetched
                     source target amount) = Error e)).
Proof.
  intros from_ to_.
  pose proof (convert_currency_body_valid fromisoformat table from_currency
                to_currency amount Hfrom Hto) as Hbody.
  rewrite Hresult in Hbody. cbn [bind] in Hbody.
  split; [|split].
  - intros Hzero. rewrite Hbody. unfold Py.div. rewrite Hzero. reflexivity.
  - intros Hnonzero. rewrite Hbody. unfold Py.div. rewrite Hnonzero.
    reflexivity.
  - intros fetched source target Hzero.
    exact (zero_amount_never_converts fromisoformat fetched source target Hzero).
Qed.

Lemma zero_amount_renders_error_witness :
  or_error (convert_currency_body Lib.date_fromisoformat (Ok (Some Sample.table))
              "btc" (Some "jpy") (-2)%float)
  = Conversion "-2" "BTC" "Bitcoin (BTC)" "-6,422,528" "JPY"
               "Japanese Yen (¥)" "3,211,264.00"
               (Lib.date_fromisoformat "2024-05-01").
Proof.
  refine (proj1 (proj2 (@zero_amount_renders_error Lib.date_fromisoformat
            Sample.table "btc" (Some "jpy") (-2)%float (-6422528)%float
            _ _ _)) _).
  - right; reflexivity.
  - right; reflexivity.
  - reflexivity.
  - reflexivity.
Defined.

(** C4 fails as stated: converting a zero amount shows the error text of
    the division, not a conversion. *)
Lemma zero_amount_counterexample :
  fst (fst (convert_currency Lib.date_fromisoformat Sample.fresh 1000%float
              (Body (Some Sample.table)) "USD" (Some "EUR") 0%float JNull))
  = Error ZeroDivisionError.
Proof. vm_compute. reflexivity. Qed.

(** ** The update notifier *)

(** [_fetch_rates] reads and writes the cache only: the update state
    stays, and the only effect is at most one request to the rate
    endpoint. *)
Lemma fetch_rates_effects (self : Tools) (t : float)
    (reply : http_reply (option RateTable)) :
  update_state (snd (fst (_fetch_rates self t reply))) = update_state self
  /\ (snd (_fetch_rates self t reply) = []
      \/ snd (_fetch_rates self t reply) = [HttpGet (API_URL (valves self))]).
Proof.
  unfold _fetch_rates.
  destruct (cache_is_valid self t); [split; [reflexivity|left; reflexivity]|].
  destruct (http_result reply) as [payload|e].
  - split; [reflexivity|right; reflexivity].
  - destruct (data (cache self)); (split; [reflexivity|right; reflexivity]).
Qed.

Lemma emitted_of_fetch (self : Tools) (trace : list effect) :
  trace = [] \/ trace = [HttpGet (API_URL (valves self))] -> emitted trace = [].
Proof. intros [H|H]; rewrite H; reflexivity. Qed.

(** C5, what the code does: with a stored latest version that is newer
    than the running one, the notification not yet shown and an event
    emitter at hand, the notify step raises [NameError] for [EXT_TITLE],
    the bare name in the message of [_get_update_notification]: no
    message is sent and the update state is left as it was, the
    notification still marked as not shown. *)
Theorem notify_raises_name_error (Version : Type)
    (version_parse : string -> option Version)
    (version_gt : Version -> Version -> bool)
    (self : Tools) (w : World) (user : json)
    (latest : string) (parsed_latest parsed_current : Version)
    (Hcheck : _should_check_for_updates self w user = Ok false)
    (Hlatest : Dict.get "latest_version" (update_state self)
               = Some (VJson (JStr latest)))
    (Hnonempty : String.eqb latest "" = false)
    (Hshown : Dict.get "has_shown_notification" (update_state self)
              = Some (VJson (JBool false)))
    (Hparse_latest : version_parse latest = Some parsed_latest)
    (Hparse_current : version_parse CURRENT_VERSION = Some parsed_current)
    (Hnewer : version_gt parsed_latest parsed_current = true) :
  _get_update_notification version_parse version_gt self
  = Raise (NameError "EXT_TITLE")
  /\ _check_and_notify_updates version_parse version_gt self w user
       (Some HostEmitter)
     = (Raise (NameError "EXT_TITLE"), self, []).
Proof.
  assert (Hmessage : _get_update_notification version_parse version_gt self
                     = Raise (NameError "EXT_TITLE")).
  { unfold _get_update_notification, Dict.item. rewrite Hlatest.
    cbn [bind truthy negb]. rewrite Hnonempty. cbn [negb].
    unfold parse_version. rewrite Hparse_latest, Hparse_current.
    cbn [bind]. rewrite Hnewer. reflexivity. }
  split; [exact Hmessage|].
  unfold _check_and_notify_updates. rewrite Hcheck.
  unfold Dict.item. rewrite Hshown. cbn [truthy negb].
  rewrite Hmessage. reflexivity.
Qed.

Lemma notify_raises_name_error_witness :
  _get_update_notification Lib.release_parse Lib.release_gt Sample.outdated
  = Raise (NameError "EXT_TITLE")
  /\ _check_and_notify_updates Lib.release_parse Lib.release_gt
       Sample.outdated Sample.world (JObj []) (Some HostEmitter)
     = (Raise (NameError "EXT_TITLE"), Sample.outdated, []).
Proof.
  apply (@notify_raises_name_error (list Z) Lib.release_parse Lib.release_gt
           Sample.outdated Sample.world (JObj []) "0.2.0" [0; 2; 0] [0; 1; 0]);
    reflexivity.
Defined.

(** X18: the parts of the notify step that the slip leaves alone: a
    version that does not parse is passed over in silence. *)
Lemma notify_unparsable_is_silent (Version : Type)
    (version_parse : string -> option Version)
    (version_gt : Version -> Version -> bool)
    (self : Tools) (w : World) (user : json) (latest : string) :
  _should_check_for_updates self w user = Ok false ->
  Dict.get "latest_version" (update_state self) = Some (VJson (JStr latest)) ->
  Dict.get "has_shown_notification" (update_state self)
  = Some (VJson (JBool false)) ->
  version_parse latest = None ->
  _check_and_notify_updates version_parse version_gt self w user
    (Some HostEmitter)
  = (Ok tt, self, []).
Proof.
  intros Hcheck Hlatest Hshown Hparse.
  unfold _check_and_notify_updates. rewrite Hcheck.
  unfold Dict.item. rewrite Hshown. cbn [truthy negb].
  unfold _get_update_notification, Dict.item. rewrite Hlatest.
  cbn [bind truthy]. destruct (negb (negb (String.eqb latest ""))); [reflexivity|].
  unfold parse_version. rewrite Hparse. reflexivity.
Qed.

(** X19: once the notification is marked as shown, the notify step
    sends nothing and raises nothing. *)
Lemma notify_shown_is_silent (Version : Type)
    (version_parse : string -> option Version)
    (version_gt : Version -> Version -> bool)
    (self : Tools) (w : World) (user : json) (event_emitter : option emitter) :
  _should_check_for_updates self w user = Ok false ->
  Dict.get "has_shown_notification" (update_state self)
  = Some (VJson (JBool true)) ->
  _check_and_notify_updates version_parse version_gt self w user event_emitter
  = (Ok tt, self, []).
Proof.
  intros Hcheck Hshown.
  unfold _check_and_notify_updates. rewrite Hcheck.
  unfold Dict.item. rewrite Hshown. cbn [truthy negb].
  destruct event_emitter as [[]|]; reflexivity.
Qed.

(** C6, what the code does: none of the three tool functions calls
    [_check_and_notify_updates].  Whatever the arguments, the user and the
    answer of the rate endpoint, a tool function leaves the update state
    as it was, sends no message, and its only effect is at most one
    request to the rate endpoint: neither the notify step nor the check
    step takes place. *)
Theorem tools_never_run_the_notifier
    (fromisoformat : string -> option datetime)
    (self : Tools) (t : float) (reply : http_reply (option RateTable))
    (from_currency : string) (to_currency : option string) (amount : float)
    (crypto currency : string) (filter_type : option string) (user : json) :
  let quiet (outcome : response * Tools * list effect) :=
    update_state (snd (fst outcome)) = update_state self
    /\ emitted (snd outcome) = []
    /\ (snd outcome = [] \/ snd outcome = [HttpGet (API_URL (valves self))]) in
  quiet (convert_currency fromisoformat self t reply
           from_currency to_currency amount user)
  /\ quiet (get_crypto_price fromisoformat self t reply crypto currency user)
  /\ quiet (list_currencies self t reply filter_type user).
Proof.
  intros quiet.
  assert (Hconvert : forall a b c,
             quiet (convert_currency fromisoformat self t reply a b c user)).
  { intros a b c. unfold quiet, convert_currency.
    destruct (fetch_rates_effects self t reply) as [Hstate Htrace].
    destruct (_fetch_rates self t reply) as [[fetched self'] trace].
    simpl in *. split; [exact Hstate|]. split; [|exact Htrace].
    exact (emitted_of_fetch self Htrace). }
  split; [apply Hconvert|]. split; [apply Hconvert|].
  unfold quiet, list_currencies.
  destruct (fetch_rates_effects self t reply) as [Hstate Htrace].
  destruct (_fetch_rates self t reply) as [[fetched self'] trace].
  simpl in *. split; [exact Hstate|]. split; [|exact Htrace].
  exact (emitted_of_fetch self Htrace).
Qed.

(** The check step that a tool call by an admin would owe: called
    directly on the same tool object, it asks the release endpoint and
    stamps and saves the update state. *)
Lemma check_step_when_called :
  let '(_, self', trace) :=
    _check_and_notify_updates Lib.release_parse Lib.release_gt
      Sample.fresh Sample.world Sample.admin (Some HostEmitter) in
  Dict.get "latest_version" (update_state self') = Some (VJson (JStr "0.2.0"))
  /\ Dict.get "last_check" (update_state self')
     = Some (VDatetime (now Sample.world))
  /\ http_calls trace = 1%nat
  /\ update_state
       (snd (fst (convert_currency Lib.date_fromisoformat Sample.fresh
                    1000%float (Body (Some Sample.table))
                    "USD" (Some "EUR") 1%float Sample.admin)))
     = default_update_state.
Proof. vm_compute. repeat split; reflexivity. Qed.

(** ** Loading the update state *)

(** C9, as the code has it: for a state file that is absent, that does
    not parse, or that holds a JSON object whose ["last_check"] is absent
    or a string, loading succeeds.  It returns the default state when the
    file is absent, when its content does not parse, and when
    ["last_check"] is a string that is not an ISO date; a readable object
    comes back with its ["last_check"] parsed. *)
Theorem load_state_falls_back_to_defaults
    (fromisoformat : string -> option datetime) (file : state_file)
    (Hfile : loadable file) :
  (exists state, _load_state fromisoformat file = Ok state) /\
  (file = Absent \/ file = Corrupt ->
     _load_state fromisoformat file = Ok default_update_state) /\
  (forall members s,
     file = Stored (JObj members) ->
     Dict.get "last_check" members = Some (JStr s) ->
     fromisoformat s = None ->
     _load_state fromisoformat file = Ok default_update_state) /\
  (forall members s d,
     file = Stored (JObj members) ->
     Dict.get "last_check" members = Some (JStr s) ->
     fromisoformat s = Some d ->
     _load_state fromisoformat file
     = Ok (Dict.set "last_check" (VDatetime d)
             (map (fun item => (fst item, VJson (snd item))) members))).
Proof.
  split; [|split; [|split]].
  - destruct file as [| |document]; try (eexists; reflexivity).
    destruct document as [| | | | | |members]; try contradiction.
    simpl in Hfile. unfold _load_state. simpl.
    destruct (Dict.get "last_check" members) as [[| | | |s| |]|];
      try contradiction; simpl.
    + destruct (fromisoformat s); eexists; reflexivity.
    + destruct (fromisoformat "2024-01-01"); eexists; reflexivity.
  - intros [H|H]; rewrite H; reflexivity.
  - intros members s Hstored Hget Hparse. rewrite Hstored.
    unfold _load_state. simpl. rewrite Hget. simpl. rewrite Hparse. reflexivity.
  - intros members s d Hstored Hget Hparse. rewrite Hstored.
    unfold _load_state. simpl. rewrite Hget. simpl. rewrite Hparse. reflexivity.
Qed.

Lemma load_state_falls_back_to_defaults_witness :
  _load_state Lib.date_fromisoformat
    (Stored (JObj [("last_check", JStr "yesterday");
                   ("latest_version", JStr "0.2.0")]))
  = Ok default_update_state.
Proof.
  refine (proj1 (proj2 (proj2 (@load_state_falls_back_to_defaults
            Lib.date_fromisoformat
            (Stored (JObj [("last_check", JStr "yesterday");
                           ("latest_version", JStr "0.2.0")])) I)))
            _ "yesterday" eq_refl eq_refl eq_refl).
Defined.

(** C9 fails as stated: a state file that holds a JSON document other
    than an object, or an object whose ["last_check"] is not a string,
    makes the load raise. *)
Lemma load_state_counterexample :
  _load_state Lib.date_fromisoformat (Stored (JArr []))
  = Raise (AttributeError "get")
  /\ _load_state Lib.date_fromisoformat (Stored (JObj [("last_check", JInt 5)]))
     = Raise TypeError
  /\ __init__ Lib.date_fromisoformat (Stored (JArr []))
     = Raise (AttributeError "get").
Proof. repeat split; reflexivity. Qed.

(** ** The formatter *)

Lemma SFcompare_antisym (x y : spec_float) :
  SFcompare y x
  = match SFcompare x y with
    | Some c => Some (CompOpp c)
    | None => None
    end.
Proof.
  destruct x as [s1|s1| |s1 m1 e1], y as [s2|s2| |s2 m2 e2]; simpl;
    try reflexivity;
    try (destruct s1; reflexivity);
    try (destruct s2; reflexivity);
    try (destruct s1, s2; reflexivity).
  destruct s1, s2; simpl; try reflexivity;
    rewrite (Z.compare_antisym e1 e2);
    change (Pos.compare_cont Eq m2 m1)
      with (Pos.compare_cont (CompOpp Eq) m2 m1);
    rewrite <- (Pos.compare_cont_antisym m1 m2 Eq);
    destruct (e1 ?= e2); simpl; reflexivity.
Qed.

(** An amount that is not [>= 100] but is [>= 1] is [< 100]: the second
    test of the cascade is the range [1 <= amount < 100]. *)
Lemma below_hundred (amount : float) :
  PrimFloat.leb 100 amount = false ->
  PrimFloat.leb 1 amount = true ->
  PrimFloat.ltb amount 100 = true.
Proof.
  rewrite !leb_spec, ltb_spec. unfold SFleb, SFltb.
  rewrite (SFcompare_antisym (Prim2SF 100) (Prim2SF amount)).
  intros H100 H1.
  destruct (SFcompare (Prim2SF 100) (Prim2SF amount)) as [[]|] eqn:Hc;
    try discriminate; try reflexivity.
  destruct (Prim2SF amount) as [s|s| |s m e].
  - vm_compute in Hc. discriminate.
  - vm_compute in Hc. destruct s; discriminate.
  - vm_compute in H1. discriminate.
  - cbn in Hc. destruct s; discriminate.
Qed.

Lemma points_append (a b : string) :
  points (a ++ b) = (points a + points b)%nat.
Proof.
  induction a as [|c a IH]; simpl; [reflexivity|]. rewrite IH. lia.
Qed.

Lemma points_uint (u : Decimal.uint) :
  points (DecimalString.NilEmpty.string_of_uint u) = O.
Proof. induction u; simpl; auto. Qed.

Lemma points_decimal (n : Z) : points (Fmt.decimal n) = O.
Proof. apply points_uint. Qed.

Lemma points_group_thousands (s : string) :
  points (Fmt.group_thousands s) = points s.
Proof.
  induction s as [|c s IH]; [reflexivity|].
  cbn [Fmt.group_thousands points].
  match goal with
  | |- context [if ?b then _ else _] =>
      match b with
      | andb _ _ => destruct b
      end
  end; cbn [points]; rewrite IH; reflexivity.
Qed.

Lemma points_zeros (k : nat) : points (Fmt.zeros k) = O.
Proof. induction k as [|k IH]; simpl; auto. Qed.

Lemma points_zfill (width : nat) (s : string) :
  points (Fmt.zfill width s) = points s.
Proof.
  unfold Fmt.zfill. rewrite points_append, points_zeros. reflexivity.
Qed.

Lemma points_render (decimals : nat) (negative : bool) (units : Z) :
  (points (Fmt.render decimals negative units) <= 1)%nat.
Proof.
  unfold Fmt.render. rewrite !points_append, points_group_thousands,
    points_decimal.
  destruct negative, decimals; simpl; rewrite ?points_zfill, ?points_decimal;
    lia.
Qed.

(** A rendered number has at most one decimal point. *)
Lemma points_fixed (decimals : nat) (x : float) :
  (points (Fmt.fixed decimals x) <= 1)%nat.
Proof.
  unfold Fmt.fixed.
  destruct (Prim2SF x) as [s|s| |s m e]; try apply points_render.
  - destruct s; simpl; lia.
  - simpl; lia.
Qed.

Lemma points_rstrip_where (p : ascii -> bool) (s : string) :
  (points (Fmt.rstrip_where p s) <= points s)%nat.
Proof.
  induction s as [|c s IH]; simpl; [lia|].
  destruct (Fmt.rstrip_where p s) as [|c' kept].
  - destruct (p c); simpl; lia.
  - simpl in *. lia.
Qed.

Lemma drop_final_point_empty (s : string) :
  Spec.drop_final_point s = EmptyString -> s = EmptyString \/ s = ".".
Proof.
  destruct s as [|c [|c' rest]]; simpl; auto.
  - destruct (Ascii.eqb_spec c "."); [subst; auto|discriminate].
  - discriminate.
Qed.

(** On a text with at most one point, [rstrip(".")] removes what the
    specification calls a trailing decimal point. *)
Lemma rstrip_point_is_drop_final_point (s : string) :
  (points s <= 1)%nat -> Fmt.rstrip "." s = Spec.drop_final_point s.
Proof.
  unfold Fmt.rstrip.
  induction s as [|c s IH]; intros Hpoints; [reflexivity|].
  simpl in Hpoints.
  assert (Hs : (points s <= 1)%nat) by lia.
  specialize (IH Hs).
  change (Fmt.rstrip_where (fun c0 => Fmt.contains c0 ".") (String c s))
    with (match Fmt.rstrip_where (fun c0 => Fmt.contains c0 ".") s with
          | EmptyString =>
              if Fmt.contains c "." then EmptyString else String c EmptyString
          | kept => String c kept
          end).
  rewrite IH.
  destruct s as [|c' rest].
  - simpl. rewrite orb_false_r. reflexivity.
  - destruct (Spec.drop_final_point (String c' rest)) as [|k kept] eqn:Hdrop.
    + destruct (drop_final_point_empty _ Hdrop) as [H|H]; [discriminate|].
      injection H as Hc' Hrest. subst c' rest.
      simpl in Hpoints. simpl.
      destruct (Ascii.eqb c "."); [simpl in Hpoints; lia|reflexivity].
    + change (Spec.drop_final_point (String c (String c' rest)))
        with (String c (Spec.drop_final_point (String c' rest))).
      rewrite Hdrop. reflexivity.
Qed.

Lemma value_from_uint (u : Decimal.uint) (acc : Z) :
  Spec.value_from acc (NilEmpty.string_of_uint u) = Some (uint_value acc u).
Proof.
  revert acc. induction u; intros acc; cbn [NilEmpty.string_of_uint uint_value];
    [reflexivity|..]; apply IHu.
Qed.

Lemma of_uint_acc_value (u : Decimal.uint) (acc : positive) :
  Z.pos (Pos.of_uint_acc u acc) = uint_value (Z.pos acc) u.
Proof.
  revert acc. induction u; intros acc; cbn [Pos.of_uint_acc uint_value];
    [reflexivity|..]; rewrite IHu; f_equal; lia.
Qed.

Lemma of_uint_value (u : Decimal.uint) :
  Z.of_N (Pos.of_uint u) = uint_value 0 u.
Proof.
  induction u; cbn [Pos.of_uint uint_value]; [reflexivity|exact IHu|..];
    cbn [Z.of_N]; rewrite of_uint_acc_value; reflexivity.
Qed.

Lemma value_decimal (v : Z) : 0 <= v -> Spec.value (Fmt.decimal v) = Some v.
Proof.
  intros Hv. unfold Spec.value, Fmt.decimal. rewrite value_from_uint.
  rewrite <- of_uint_value.
  change (Pos.of_uint (N.to_uint (Z.to_N v))) with (N.of_uint (N.to_uint (Z.to_N v))).
  rewrite DecimalN.Unsigned.of_to. f_equal. lia.
Qed.

Lemma unorm_fixpoint (u : Decimal.uint) :
  Decimal.unorm u = u ->
  match u with
  | Decimal.Nil => False
  | Decimal.D0 rest => rest = Decimal.Nil
  | _ => True
  end.
Proof.
  destruct u; try exact (fun _ => I).
  - discriminate.
  - unfold Decimal.unorm. rewrite nzhead_D0.
    destruct (Decimal.nzhead u) eqn:Hhead; try discriminate.
    + intros H. injection H as <-. reflexivity.
    + destruct (nzhead_nonzero _ _ Hhead).
Qed.

Lemma decimal_canonical (v : Z) :
  match Fmt.decimal v with
  | EmptyString => False
  | String c rest => c = "0"%char -> rest = EmptyString
  end.
Proof.
  unfold Fmt.decimal.
  assert (H := @unorm_fixpoint (N.to_uint (Z.to_N v))).
  rewrite <- DecimalN.Unsigned.to_of, DecimalN.Unsigned.of_to in H.
  specialize (H eq_refl).
  destruct (N.to_uint (Z.to_N v)); cbn [NilEmpty.string_of_uint];
    try discriminate; [exact H|].
  intros _. subst. reflexivity.
Qed.

Lemma numeral_decimal (v : Z) : 0 <= v -> Spec.numeral v (Fmt.decimal v).
Proof.
  intros Hv. split; [apply value_decimal, Hv|apply decimal_canonical].
Qed.

Lemma digit_range (c : ascii) (d : Z) : Spec.digit c = Some d -> 0 <= d <= 9.
Proof.
  unfold Spec.digit.
  destruct (48 <=? Z.of_nat (nat_of_ascii c)) eqn:Hlow; [|discriminate].
  destruct (Z.of_nat (nat_of_ascii c) <=? 57) eqn:Hhigh; [|discriminate].
  cbn [andb]. intros H. injection H as <-. lia.
Qed.

Lemma digit_zero (c : ascii) : Spec.digit c = Some 0 -> c = "0"%char.
Proof.
  unfold Spec.digit.
  destruct ((48 <=? Z.of_nat (nat_of_ascii c))
            && (Z.of_nat (nat_of_ascii c) <=? 57)); [|discriminate].
  intros H. injection H as H.
  rewrite <- (ascii_nat_embedding c).
  replace (nat_of_ascii c) with 48%nat by lia. reflexivity.
Qed.

Lemma value_from_bounds (s : string) (acc v : Z) :
  0 <= acc -> Spec.value_from acc s = Some v ->
  acc * 10 ^ Z.of_nat (String.length s) <= v
  < (acc + 1) * 10 ^ Z.of_nat (String.length s).
Proof.
  revert acc. induction s as [|c s IH]; intros acc Hacc; cbn [Spec.value_from].
  - intros H. injection H as <-. cbn. lia.
  - destruct (Spec.digit c) as [d|] eqn:Hd; [|discriminate].
    intros H. apply digit_range in Hd.
    apply IH in H; [|lia].
    cbn [String.length]. rewrite Nat2Z.inj_succ, Z.pow_succ_r by lia.
    assert (0 < 10 ^ Z.of_nat (String.length s)) by (apply Z.pow_pos_nonneg; lia).
    nia.
Qed.

Lemma length_decimal (v : Z) (d : nat) :
  0 <= v < 10 ^ Z.of_nat d -> (0 < d)%nat ->
  (String.length (Fmt.decimal v) <= d)%nat.
Proof.
  intros Hv Hd.
  pose proof (@value_decimal v (proj1 Hv)) as Hvalue.
  pose proof (decimal_canonical v) as Hcanonical.
  destruct (Fmt.decimal v) as [|c rest]; [destruct Hcanonical|].
  unfold Spec.value in Hvalue. cbn [Spec.value_from] in Hvalue.
  destruct (Spec.digit c) as [k|] eqn:Hk; [|discriminate].
  destruct (Z.eq_dec k 0) as [->|Hnonzero].
  - rewrite (Hcanonical (digit_zero _ Hk)). cbn. lia.
  - pose proof (digit_range _ Hk).
    apply value_from_bounds in Hvalue; [|lia].
    assert (Hlt : 10 ^ Z.of_nat (String.length rest) < 10 ^ Z.of_nat d).
    { assert (0 < 10 ^ Z.of_nat (String.length rest))
        by (apply Z.pow_pos_nonneg; lia).
      nia. }
    apply Z.pow_lt_mono_r_iff in Hlt; [|lia|lia].
    cbn [String.length]. lia.
Qed.

Lemma length_zeros (k : nat) : String.length (Fmt.zeros k) = k.
Proof. induction k as [|k IH]; cbn; [reflexivity|]. rewrite IH. reflexivity. Qed.

Lemma string_length_app (a b : string) :
  String.length (a ++ b) = (String.length a + String.length b)%nat.
Proof. induction a as [|c a IH]; cbn; [reflexivity|]. rewrite IH. reflexivity. Qed.

Lemma value_zeros_app (k : nat) (s : string) :
  Spec.value (Fmt.zeros k ++ s) = Spec.value s.
Proof.
  unfold Spec.value. induction k as [|k IH]; [reflexivity|exact IH].
Qed.

Lemma zfill_fraction (r : Z) (d : nat) :
  0 <= r < 10 ^ Z.of_nat d -> (0 < d)%nat ->
  String.length (Fmt.zfill d (Fmt.decimal r)) = d
  /\ Spec.value (Fmt.zfill d (Fmt.decimal r)) = Some r.
Proof.
  intros Hr Hd. unfold Fmt.zfill. split.
  - rewrite string_length_app, length_zeros.
    pose proof (length_decimal Hr Hd). lia.
  - rewrite value_zeros_app. apply value_decimal. lia.
Qed.

Lemma group_thousands_short (s : string) :
  (String.length s <= 3)%nat -> Fmt.group_thousands s = s.
Proof.
  destruct s as [|a [|b [|c [|d s]]]]; cbn; try reflexivity. lia.
Qed.

Lemma group_thousands_app (d g : string) :
  d <> EmptyString -> String.length g = 3%nat ->
  Fmt.group_thousands (d ++ g) = Fmt.group_thousands d ++ "," ++ g.
Proof.
  intros Hd Hg. induction d as [|c d IH]; [destruct Hd; reflexivity|].
  destruct d as [|c' d].
  - cbn [append Fmt.group_thousands]. rewrite Hg.
    rewrite (group_thousands_short g) by lia. reflexivity.
  - specialize (IH ltac:(discriminate)).
    change ((String c (String c' d)) ++ g) with (String c (String c' d ++ g)).
    cbn [Fmt.group_thousands]. rewrite IH.
    rewrite string_length_app, Hg.
    replace ((String.length (String c' d) + 3) mod 3)%nat
      with (String.length (String c' d) mod 3)%nat.
    2:{ rewrite <- (Nat.Div0.mod_add (String.length (String c' d)) 1 3).
        reflexivity. }
    replace (Nat.ltb 0 (String.length (String c' d) + 3)) with true
      by (symmetry; apply Nat.ltb_lt; lia).
    replace (Nat.ltb 0 (String.length (String c' d))) with true
      by (symmetry; apply Nat.ltb_lt; cbn; lia).
    cbn [andb].
    destruct (Nat.eqb (String.length (String c' d) mod 3) 0); reflexivity.
Qed.

Lemma split_last_three (s : string) :
  (3 < String.length s)%nat ->
  exists d g, s = d ++ g /\ String.length g = 3%nat /\ d <> EmptyString.
Proof.
  induction s as [|c s IH]; cbn [String.length]; [lia|].
  intros Hlen.
  destruct (Nat.eq_dec (String.length s) 3) as [Heq|Hneq].
  - exists (String c EmptyString), s. repeat split; [exact Heq|discriminate].
  - destruct IH as (d & g & -> & Hg & Hd); [lia|].
    exists (String c d), g. repeat split; [exact Hg|discriminate].
Qed.

Lemma grouped_group_thousands (s : string) :
  s <> EmptyString -> Spec.grouped s (Fmt.group_thousands s).
Proof.
  remember (String.length s) as n eqn:Hn.
  revert s Hn. induction n as [n IH] using (well_founded_induction lt_wf).
  intros s Hn Hs.
  destruct (le_lt_dec (String.length s) 3) as [Hshort|Hlong].
  - rewrite (group_thousands_short s Hshort). apply Spec.grouped_head.
    destruct s; [destruct Hs; reflexivity|cbn in *; lia].
  - destruct (split_last_three s Hlong) as (d & g & -> & Hg & Hd).
    rewrite (@group_thousands_app d g Hd Hg).
    apply Spec.grouped_more; [|exact Hg].
    apply (IH (String.length d)); [|reflexivity|exact Hd].
    rewrite Hn, string_length_app. lia.
Qed.

Lemma round_half_even_nearest (num den : Z) :
  0 <= num -> 0 < den ->
  Spec.nearest_even num den (Fmt.round_half_even num den)
  /\ 0 <= Fmt.round_half_even num den.
Proof.
  intros Hnum Hden. unfold Spec.nearest_even, Fmt.round_half_even.
  pose proof (Z.div_mod num den ltac:(lia)) as Hdiv.
  pose proof (Z.mod_pos_bound num den Hden) as Hmod.
  assert (Hq : 0 <= num / den) by (apply Z.div_pos; lia).
  set (q := num / den) in *. set (r := num mod den) in *.
  destruct (Z.compare_spec (2 * r) den) as [Heq|Hlt|Hgt].
  - destruct (Z.even q) eqn:Heven.
    + replace (q * den - num) with (- r) by lia.
      rewrite Z.abs_opp, Z.abs_eq by lia. repeat split; [lia|auto|lia].
    + replace ((q + 1) * den - num) with (den - r) by lia.
      rewrite Z.abs_eq by lia. repeat split; [lia| |lia].
      intros _. rewrite Z.add_1_r, Z.even_succ, <- Z.negb_even, Heven.
      reflexivity.
  - replace (q * den - num) with (- r) by lia.
    rewrite Z.abs_opp, Z.abs_eq by lia. repeat split; lia.
  - replace ((q + 1) * den - num) with (den - r) by lia.
    rewrite Z.abs_eq by lia. repeat split; lia.
Qed.

Lemma scaled_nearest (decimals : nat) (m : positive) (e : Z) :
  Spec.nearest_even (Z.pos m * 2 ^ Z.max 0 e * 10 ^ Z.of_nat decimals)
    (2 ^ Z.max 0 (- e)) (Fmt.scaled decimals m e)
  /\ 0 <= Fmt.scaled decimals m e.
Proof.
  unfold Fmt.scaled.
  assert (Hp : 0 < 10 ^ Z.of_nat decimals) by (apply Z.pow_pos_nonneg; lia).
  destruct (Z.leb_spec 0 e) as [He|He].
  - rewrite (Z.max_r 0 e), (Z.max_l 0 (- e)) by lia.
    assert (0 < 2 ^ e) by (apply Z.pow_pos_nonneg; lia).
    change (2 ^ 0) with 1. unfold Spec.nearest_even.
    replace (Z.pos m * 2 ^ e * 10 ^ Z.of_nat decimals * 1
             - Z.pos m * 2 ^ e * 10 ^ Z.of_nat decimals) with 0 by lia.
    cbn [Z.abs]. repeat split; [lia|lia|nia].
  - rewrite (Z.max_l 0 e), (Z.max_r 0 (- e)) by lia.
    change (2 ^ 0) with 1. rewrite Z.mul_1_r.
    apply round_half_even_nearest; [nia|apply Z.pow_pos_nonneg; lia].
Qed.

Lemma render_shows (decimals : nat) (negative : bool) (units : Z) :
  0 <= units ->
  Spec.shows decimals negative units (Fmt.render decimals negative units).
Proof.
  intros Hunits. unfold Spec.shows, Fmt.render.
  assert (Hp : 0 < 10 ^ Z.of_nat decimals) by (apply Z.pow_pos_nonneg; lia).
  assert (Hq : 0 <= units / 10 ^ Z.of_nat decimals) by (apply Z.div_pos; lia).
  pose proof (Z.mod_pos_bound units _ Hp) as Hr.
  exists (Fmt.decimal (units / 10 ^ Z.of_nat decimals)),
    (Fmt.group_thousands (Fmt.decimal (units / 10 ^ Z.of_nat decimals))),
    (match decimals with
     | O => ""
     | S _ => Fmt.zfill decimals (Fmt.decimal (units mod 10 ^ Z.of_nat decimals))
     end).
  split; [apply numeral_decimal, Hq|].
  split.
  { apply grouped_group_thousands.
    pose proof (decimal_canonical (units / 10 ^ Z.of_nat decimals)) as H.
    intros Hempty. rewrite Hempty in H. exact H. }
  destruct decimals as [|k].
  - repeat split. change (10 ^ Z.of_nat 0) with 1. rewrite Z.mod_1_r.
    reflexivity.
  - destruct (@zfill_fraction (units mod 10 ^ Z.of_nat (S k)) (S k) Hr
                ltac:(lia)) as [Hlength Hvalue].
    repeat split; assumption.
Qed.

Lemma fixed_renders (decimals : nat) (x : float) :
  Spec.renders decimals x (Fmt.fixed decimals x).
Proof.
  unfold Spec.renders, Fmt.fixed.
  destruct (Prim2SF x) as [negative|negative| |negative m e];
    try reflexivity.
  - apply render_shows. lia.
  - exists (Fmt.scaled decimals m e).
    destruct (scaled_nearest decimals m e) as [Hnearest Hnonneg].
    split; [exact Hnearest|apply render_shows, Hnonneg].
Qed.

Lemma drop_trailing_zeros_empty (s : string) :
  Spec.drop_trailing_zeros s = EmptyString <-> Spec.all_zeros s = true.
Proof.
  destruct s as [|c s]; cbn [Spec.drop_trailing_zeros Spec.all_zeros];
    [tauto|].
  destruct (Ascii.eqb c "0" && Spec.all_zeros s); split; try tauto;
    discriminate.
Qed.

Lemma rstrip_zero_is_drop_trailing_zeros (s : string) :
  Fmt.rstrip "0" s = Spec.drop_trailing_zeros s.
Proof.
  unfold Fmt.rstrip. induction s as [|c s IH]; [reflexivity|].
  cbn [Fmt.rstrip_where Spec.drop_trailing_zeros]. rewrite IH.
  cbn [Fmt.contains]. rewrite orb_false_r.
  destruct (Spec.drop_trailing_zeros s) as [|k kept] eqn:Hdrop.
  - apply drop_trailing_zeros_empty in Hdrop. rewrite Hdrop, andb_true_r.
    reflexivity.
  - destruct (Spec.all_zeros s) eqn:Hzeros.
    + apply drop_trailing_zeros_empty in Hzeros. congruence.
    + rewrite andb_false_r. reflexivity.
Qed.

Lemma nearest_even_unique (num den u1 u2 : Z) :
  0 < den ->
  Spec.nearest_even num den u1 -> Spec.nearest_even num den u2 -> u1 = u2.
Proof.
  intros Hden [H1 E1] [H2 E2].
  assert (Hstep : forall a b : Z,
             a < b ->
             2 * Z.abs (a * den - num) <= den ->
             2 * Z.abs (b * den - num) <= den ->
             (2 * Z.abs (a * den - num) = den -> Z.even a = true) ->
             (2 * Z.abs (b * den - num) = den -> Z.even b = true) ->
             False).
  { intros a b Hab Ha Hb Ea Eb.
    assert (Hgap : den <= b * den - a * den) by nia.
    assert (Hb1 : b = a + 1) by nia.
    assert (Hta : 2 * Z.abs (a * den - num) = den) by lia.
    assert (Htb : 2 * Z.abs (b * den - num) = den) by lia.
    specialize (Ea Hta). specialize (Eb Htb).
    rewrite Hb1, Z.add_1_r, Z.even_succ, <- Z.negb_even, Ea in Eb.
    discriminate. }
  destruct (Z.lt_trichotomy u1 u2) as [Hlt|[Heq|Hgt]]; [|exact Heq|].
  - destruct (Hstep u1 u2 Hlt H1 H2 E1 E2).
  - destruct (Hstep u2 u1 ltac:(lia) H2 H1 E2 E1).
Qed.

Lemma digit_injective (c1 c2 : ascii) (d : Z) :
  Spec.digit c1 = Some d -> Spec.digit c2 = Some d -> c1 = c2.
Proof.
  unfold Spec.digit.
  destruct ((48 <=? Z.of_nat (nat_of_ascii c1))
            && (Z.of_nat (nat_of_ascii c1) <=? 57)); [|discriminate].
  destruct ((48 <=? Z.of_nat (nat_of_ascii c2))
            && (Z.of_nat (nat_of_ascii c2) <=? 57)); [|discriminate].
  intros H1 H2. injection H1 as H1. injection H2 as H2.
  rewrite <- (ascii_nat_embedding c1), <- (ascii_nat_embedding c2).
  f_equal. lia.
Qed.

Lemma value_from_injective (s1 s2 : string) (acc1 acc2 v : Z) :
  0 <= acc1 -> 0 <= acc2 ->
  String.length s1 = String.length s2 ->
  Spec.value_from acc1 s1 = Some v -> Spec.value_from acc2 s2 = Some v ->
  acc1 = acc2 /\ s1 = s2.
Proof.
  revert s2 acc1 acc2.
  induction s1 as [|c1 s1 IH]; intros [|c2 s2] acc1 acc2 Hacc1 Hacc2 Hlen;
    try discriminate; cbn [Spec.value_from].
  - intros H1 H2. split; [congruence|reflexivity].
  - destruct (Spec.digit c1) as [d1|] eqn:Hd1; [|discriminate].
    destruct (Spec.digit c2) as [d2|] eqn:Hd2; [|discriminate].
    intros H1 H2.
    pose proof (digit_range _ Hd1). pose proof (digit_range _ Hd2).
    injection Hlen as Hlen.
    destruct (IH s2 (10 * acc1 + d1) (10 * acc2 + d2) ltac:(lia) ltac:(lia)
                Hlen H1 H2) as [Hacc ->].
    assert (d1 = d2) by lia. subst d2.
    rewrite (digit_injective _ _ Hd1 Hd2). split; [lia|reflexivity].
Qed.

Lemma numeral_length (n : Z) (s : string) :
  Spec.numeral n s ->
  (n = 0 /\ s = "0")
  \/ (10 ^ (Z.of_nat (String.length s) - 1) <= n
      < 10 ^ Z.of_nat (String.length s)).
Proof.
  intros [Hvalue Hcanonical].
  destruct s as [|c rest]; [destruct Hcanonical|].
  pose proof (@value_from_bounds _ 0 n ltac:(lia) Hvalue) as Hwhole.
  unfold Spec.value in Hvalue. cbn [Spec.value_from] in Hvalue.
  destruct (Spec.digit c) as [k|] eqn:Hk; [|discriminate].
  destruct (Z.eq_dec k 0) as [->|Hnonzero].
  - left. pose proof (digit_zero _ Hk) as ->.
    rewrite (Hcanonical eq_refl) in *. cbn in Hvalue.
    split; [congruence|reflexivity].
  - right. pose proof (digit_range _ Hk).
    apply value_from_bounds in Hvalue; [|lia].
    cbn [String.length] in *.
    replace (Z.of_nat (S (String.length rest)) - 1)
      with (Z.of_nat (String.length rest)) by lia.
    assert (0 < 10 ^ Z.of_nat (String.length rest))
      by (apply Z.pow_pos_nonneg; lia).
    split; [nia|lia].
Qed.

Lemma numeral_unique (n : Z) (s1 s2 : string) :
  Spec.numeral n s1 -> Spec.numeral n s2 -> s1 = s2.
Proof.
  intros H1 H2.
  destruct (numeral_length H1) as [[Hn1 ->]|B1],
    (numeral_length H2) as [[Hn2 ->]|B2]; try reflexivity.
  - assert (0 < 10 ^ (Z.of_nat (String.length s2) - 1)); [|lia].
    apply Z.pow_pos_nonneg; [lia|].
    destruct s2; [destruct (proj2 H2)|cbn [String.length]; lia].
  - assert (0 < 10 ^ (Z.of_nat (String.length s1) - 1)); [|lia].
    apply Z.pow_pos_nonneg; [lia|].
    destruct s1; [destruct (proj2 H1)|cbn [String.length]; lia].
  - assert (Hlen : String.length s1 = String.length s2).
    { destruct (Nat.lt_trichotomy (String.length s1) (String.length s2))
        as [Hlt|[Heq|Hgt]]; [|exact Heq|].
      - assert (10 ^ Z.of_nat (String.length s1)
                <= 10 ^ (Z.of_nat (String.length s2) - 1))
          by (apply Z.pow_le_mono_r; lia).
        lia.
      - assert (10 ^ Z.of_nat (String.length s2)
                <= 10 ^ (Z.of_nat (String.length s1) - 1))
          by (apply Z.pow_le_mono_r; lia).
        lia. }
    exact (proj2 (@value_from_injective s1 s2 0 0 n ltac:(lia) ltac:(lia)
                    Hlen (proj1 H1) (proj1 H2))).
Qed.

Lemma app_inj_suffix (a b c d : string) :
  a ++ b = c ++ d -> String.length b = String.length d -> a = c /\ b = d.
Proof.
  revert c. induction a as [|x a IH]; intros [|y c]; cbn [append].
  - auto.
  - intros -> H. cbn [String.length] in H. rewrite string_length_app in H. lia.
  - intros <- H. cbn [String.length] in H. rewrite string_length_app in H. lia.
  - intros H Hlen. injection H as -> H.
    destruct (IH c H Hlen) as [-> ->]. auto.
Qed.

Lemma grouped_nonempty (digits text : string) :
  Spec.grouped digits text -> (1 <= String.length digits)%nat.
Proof.
  induction 1 as [head Hhead|digits text group _ IH Hgroup]; [lia|].
  rewrite string_length_app. lia.
Qed.

Lemma grouped_unique (digits text1 text2 : string) :
  Spec.grouped digits text1 -> Spec.grouped digits text2 -> text1 = text2.
Proof.
  intros H1. revert text2.
  induction H1 as [head Hhead|digits text group H1 IH Hgroup]; intros text2 H2.
  - inversion H2 as [head' Hhead' Heq1 Heq2|digits' text' group' H' Hgroup' Heq1 Heq2];
      [reflexivity|].
    subst head. apply grouped_nonempty in H'.
    rewrite string_length_app in Hhead. lia.
  - inversion H2 as [head' Hhead' Heq1 Heq2|digits' text' group' H' Hgroup' Heq1 Heq2].
    + subst. apply grouped_nonempty in H1.
      rewrite string_length_app in Hhead'. lia.
    + destruct (@app_inj_suffix digits' group' digits group Heq1
                  ltac:(congruence)) as [-> ->].
      rewrite (IH _ H'). reflexivity.
Qed.

Lemma shows_unique (decimals : nat) (negative : bool) (units : Z)
    (text1 text2 : string) :
  Spec.shows decimals negative units text1 ->
  Spec.shows decimals negative units text2 -> text1 = text2.
Proof.
  intros (d1 & w1 & f1 & Hn1 & Hg1 & Hl1 & Hv1 & ->)
         (d2 & w2 & f2 & Hn2 & Hg2 & Hl2 & Hv2 & ->).
  rewrite (numeral_unique Hn1 Hn2) in Hg1.
  rewrite (grouped_unique Hg1 Hg2).
  rewrite (proj2 (@value_from_injective f1 f2 0 0 _ ltac:(lia) ltac:(lia)
                    ltac:(congruence) Hv1 Hv2)).
  reflexivity.
Qed.

Lemma renders_unique (decimals : nat) (x : float) (text1 text2 : string) :
  Spec.renders decimals x text1 -> Spec.renders decimals x text2 ->
  text1 = text2.
Proof.
  unfold Spec.renders.
  destruct (Prim2SF x) as [negative|negative| |negative m e].
  - apply shows_unique.
  - congruence.
  - congruence.
  - intros (u1 & Hr1 & Hs1) (u2 & Hr2 & Hs2).
    assert (Hden : 0 < 2 ^ Z.max 0 (- e)) by (apply Z.pow_pos_nonneg; lia).
    rewrite (nearest_even_unique Hden Hr1 Hr2) in Hs1.
    exact (shows_unique Hs1 Hs2).
Qed.

Lemma strip_is_spec_strip (decimals : nat) (x : float) :
  Fmt.rstrip "." (Fmt.rstrip "0" (Fmt.fixed decimals x))
  = Spec.strip_zeros_and_point (Fmt.fixed decimals x).
Proof.
  unfold Spec.strip_zeros_and_point.
  rewrite <- rstrip_zero_is_drop_trailing_zeros.
  apply rstrip_point_is_drop_final_point.
  unfold Fmt.rstrip at 1.
  pose proof (points_rstrip_where (fun c => Fmt.contains c "0")
                (Fmt.fixed decimals x)).
  pose proof (points_fixed decimals x). unfold Fmt.rstrip. lia.
Qed.

Lemma is_crypto_codes (currency : string) :
  is_crypto currency = true
  <-> currency = "BTC" \/ currency = "ETH" \/ currency = "SOL".
Proof.
  unfold is_crypto, crypto_currencies. cbn [existsb].
  rewrite !orb_true_iff, !String.eqb_eq. intuition discriminate.
Qed.

Lemma format_amount_formats (amount : float) (currency : string) :
  Spec.formats amount currency (_format_amount amount currency).
Proof.
  unfold _format_amount, Spec.formats, Py.ge.
  rewrite <- is_crypto_spec.
  destruct (is_crypto currency).
  { exists (Fmt.fixed 8 amount).
    split; [apply fixed_renders|apply strip_is_spec_strip]. }
  destruct (PrimFloat.leb 100 amount) eqn:H100; [apply fixed_renders|].
  destruct (PrimFloat.leb 1 amount) eqn:H1.
  - rewrite (below_hundred H100 H1). apply fixed_renders.
  - exists (Fmt.fixed 6 amount).
    split; [apply fixed_renders|apply strip_is_spec_strip].
Qed.

Lemma formats_unique (amount : float) (currency text1 text2 : string) :
  Spec.formats amount currency text1 -> Spec.formats amount currency text2 ->
  text1 = text2.
Proof.
  unfold Spec.formats.
  destruct (Spec.crypto currency).
  { intros (r1 & Hr1 & ->) (r2 & Hr2 & ->).
    rewrite (@renders_unique _ _ _ _ Hr1 Hr2). reflexivity. }
  destruct (PrimFloat.leb 100 amount); [apply renders_unique|].
  destruct (PrimFloat.leb 1 amount && PrimFloat.ltb amount 100);
    [apply renders_unique|].
  intros (r1 & Hr1 & ->) (r2 & Hr2 & ->).
  rewrite (@renders_unique _ _ _ _ Hr1 Hr2). reflexivity.
Qed.

(** C8: [_format_amount] gives the one text that the rule of the
    specification allows, for every amount and code.  The crypto codes
    are BTC, ETH and SOL and no other.  A crypto amount is rendered with
    8 decimals and then stripped of trailing zeros and of a trailing
    point; a fiat amount is rendered with 2 decimals from 100 on, with 4
    decimals between 1 and 100, and otherwise with 6 decimals and
    stripped in the same way.  Rendering with N decimals shows the
    multiple of [10^-N] nearest to the amount (of two equally near, the
    even one): a minus sign for a negative amount, the integer part
    without leading zeros and with a comma between thousands, a point,
    and exactly N digits of fraction.  In particular 1234.5 USD is
    ["1,234.50"], 0.123456789 BTC is ["0.12345679"], 0.5 USD is ["0.5"],
    0.05 USD is ["0.05"], 1.05 USD is ["1.0500"], 1.5 ETH is ["1.5"],
    2 SOL is ["2"] and 1234567.125 EUR is ["1,234,567.12"]. *)
Theorem format_amount_follows_rule (amount : float) (currency : string) :
  (is_crypto currency = true
   <-> currency = "BTC" \/ currency = "ETH" \/ currency = "SOL")
  /\ (forall text : string,
        Spec.formats amount currency text
        <-> text = _format_amount amount currency)
  /\ _format_amount 1234.5%float "USD" = "1,234.50"
  /\ _format_amount 0.123456789%float "BTC" = "0.12345679"
  /\ _format_amount 0.5%float "USD" = "0.5"
  /\ _format_amount 0.05%float "USD" = "0.05"
  /\ _format_amount 1.05%float "USD" = "1.0500"
  /\ _format_amount 1.5%float "ETH" = "1.5"
  /\ _format_amount 2%float "SOL" = "2"
  /\ _format_amount 1234567.125%float "EUR" = "1,234,567.12".
Proof.
  split; [apply is_crypto_codes|].
  split; [|repeat split; vm_compute; reflexivity].
  intros text. split.
  - intros H.
    exact (@formats_unique _ _ _ _ H (format_amount_formats amount currency)).
  - intros ->. apply format_amount_formats.
Qed.

(** * Further properties *)

(** ** Dicts *)

Lemma dict_get_set_same {V : Type} (key : string) (v : V) (d : dict V) :
  Dict.get key (Dict.set key v d) = Some v.
Proof.
  induction d as [|[k w] rest IH]; simpl.
  - rewrite String.eqb_refl. reflexivity.
  - destruct (String.eqb key k) eqn:Hk; simpl; rewrite Hk; auto.
Qed.

Lemma dict_get_set_other {V : Type} (key other : string) (v : V) (d : dict V) :
  other <> key -> Dict.get other (Dict.set key v d) = Dict.get other d.
Proof.
  intros Hneq. induction d as [|[k w] rest IH]; simpl.
  - rewrite (eqb_false_of_neq Hneq). reflexivity.
  - destruct (String.eqb key k) eqn:Hk; simpl.
    + apply String.eqb_eq in Hk. subst k.
      rewrite (eqb_false_of_neq Hneq). reflexivity.
    + destruct (String.eqb other k); auto.
Qed.

Lemma dict_set_set {V : Type} (key : string) (v v' : V) (d : dict V) :
  Dict.set key v (Dict.set key v' d) = Dict.set key v d.
Proof.
  induction d as [|[k w] rest IH]; simpl.
  - rewrite String.eqb_refl. reflexivity.
  - destruct (String.eqb key k) eqn:Hk; simpl; rewrite Hk; [reflexivity|].
    rewrite IH. reflexivity.
Qed.

Lemma dict_set_same {V : Type} (key : string) (v : V) (d : dict V) :
  Dict.get key d = Some v -> Dict.set key v d = d.
Proof.
  induction d as [|[k w] rest IH]; simpl; [discriminate|].
  destruct (String.eqb key k) eqn:Hk.
  - intros H. injection H as ->. reflexivity.
  - intros H. rewrite (IH H). reflexivity.
Qed.

Lemma dict_get_map {V W : Type} (f : V -> W) (key : string) (d : dict V) :
  Dict.get key (map (fun item => (fst item, f (snd item))) d)
  = option_map f (Dict.get key d).
Proof.
  induction d as [|[k w] rest IH]; simpl; [reflexivity|].
  destruct (String.eqb key k); auto.
Qed.

Lemma dict_mem_false_get {V : Type} (key : string) (d : dict V) :
  Dict.mem key d = false -> Dict.get key d = None.
Proof.
  unfold Dict.mem. destruct (Dict.get key d); [discriminate|reflexivity].
Qed.

(** ** More on the conversion *)

Lemma div_not_key_error (a b : float) (key : string) :
  Py.div a b <> Raise (KeyError key).
Proof. unfold Py.div. destruct (PrimFloat.eqb b 0%float); discriminate. Qed.

Lemma invalid_code_fails (base : string) (rates : dict float) (code : string) :
  Dict.mem code rates = false -> code <> base ->
  negb (Dict.mem code rates) && negb (String.eqb code base) = true.
Proof.
  intros Hmem Hneq. rewrite Hmem, (eqb_false_of_neq Hneq). reflexivity.
Qed.

(** X1: among the pairs of valid codes, the only rate lookup that fails is
    the one of the base converted into itself while the base is no key of
    [rates]: the branch for [from == base] reads [rates[to]]. *)
Theorem key_error_only_for_base_to_base (base : string) (rates : dict float)
    (from_currency to_currency : string) (amount : float)
    (Hfrom : valid_code base rates from_currency)
    (Hto : valid_code base rates to_currency) :
  (forall key,
      conversion_result base rates from_currency to_currency amount
      = Raise (KeyError key) ->
      from_currency = base /\ to_currency = base /\ key = base
      /\ Dict.mem base rates = false) /\
  (from_currency = base -> to_currency = base -> Dict.mem base rates = false ->
   conversion_result base rates from_currency to_currency amount
   = Raise (KeyError base)).
Proof.
  split.
  - intros key. unfold conversion_result.
    destruct (String.eqb_spec from_currency base) as [Hbase|Hnot].
    + unfold Dict.item.
      destruct (Dict.get to_currency rates) as [r|] eqn:Hget.
      * destruct (is_crypto to_currency); simpl; intros H;
          [destruct (@div_not_key_error _ _ _ H)|discriminate].
      * assert (Hmem : Dict.mem to_currency rates = false).
        { unfold Dict.mem. rewrite Hget. reflexivity. }
        destruct Hto as [Hto|Hto]; [|rewrite Hmem in Hto; discriminate].
        subst to_currency.
        destruct (is_crypto base); simpl; intros H; injection H as <-; auto.
    + destruct (valid_code_rate Hfrom Hnot) as [rf Hrf].
      rewrite (item_get _ _ Hrf).
      destruct (String.eqb_spec to_currency base) as [Hbase|Hnot'].
      * destruct (is_crypto from_currency); simpl; intros H;
          [discriminate|destruct (@div_not_key_error _ _ _ H)].
      * destruct (valid_code_rate Hto Hnot') as [rt Hrt].
        rewrite (item_get _ _ Hrt).
        destruct (is_crypto from_currency), (is_crypto to_currency); simpl;
          intros H;
          try (destruct (@div_not_key_error _ _ _ H));
          try discriminate;
          unfold Py.div in H;
          destruct (PrimFloat.eqb rf 0%float); simpl in H; try discriminate;
          destruct (PrimFloat.eqb rt 0%float); discriminate.
  - intros Hf Ht Hmem. subst from_currency to_currency.
    unfold conversion_result. rewrite String.eqb_refl.
    unfold Dict.item. rewrite (dict_mem_false_get _ _ Hmem).
    destruct (is_crypto base); reflexivity.
Qed.

Lemma key_error_only_for_base_to_base_witness :
  conversion_result "USD" [("EUR", 0.5%float)] "USD" "USD" 7%float
  = Raise (KeyError "USD").
Proof.
  refine (proj2 (@key_error_only_for_base_to_base "USD" [("EUR", 0.5%float)]
            "USD" "USD" 7%float _ _) eq_refl eq_refl eq_refl).
  - left; reflexivity.
  - left; reflexivity.
Defined.

(** X2: called with the base as source and no target, the tool takes the
    base as the target as well and, the base being no key of [rates],
    returns the error text of the failed lookup. *)
Theorem base_without_target_is_an_error
    (fromisoformat : string -> option datetime) (table : RateTable)
    (from_currency : string) (to_currency : option string) (amount : float)
    (Hsource : normalize from_currency = table_base table)
    (Htarget : to_currency = None \/ to_currency = Some "")
    (Hbase : Dict.mem (table_base table) (table_rates table) = false) :
  or_error (convert_currency_body fromisoformat (Ok (Some table))
              from_currency to_currency amount)
  = Error (KeyError (table_base table)).
Proof.
  assert (Htc : target_code to_currency (table_base table) = table_base table).
  { destruct Htarget as [H|H]; rewrite H; reflexivity. }
  pose proof (convert_currency_body_valid fromisoformat table from_currency
                to_currency amount) as Hbody.
  cbv zeta in Hbody. rewrite Hsource, Htc in Hbody.
  rewrite Hbody; [|left; reflexivity|left; reflexivity].
  unfold conversion_result. rewrite String.eqb_refl.
  unfold Dict.item. rewrite (dict_mem_false_get _ _ Hbase).
  destruct (is_crypto (table_base table)); reflexivity.
Qed.

Lemma base_without_target_is_an_error_witness :
  or_error (convert_currency_body Lib.date_fromisoformat (Ok (Some Sample.table))
              " usd" None 5%float)
  = Error (KeyError "USD").
Proof.
  apply (@base_without_target_is_an_error Lib.date_fromisoformat Sample.table
           " usd" None 5%float); [reflexivity | left; reflexivity | reflexivity].
Defined.

(** X3: a rate of zero in a divisor position raises [ZeroDivisionError]:
    a fiat source other than the base with rate zero fails whatever the
    target, before the target's rate is read, and so does the base
    converted into a crypto code with rate zero. *)
Theorem zero_rate_raises (base : string) (rates : dict float)
    (code : string) (r amount : float)
    (Hrate : Dict.get code rates = Some r)
    (Hzero : PrimFloat.eqb r 0%float = true) :
  (code <> base -> is_crypto code = false ->
   forall to_currency,
     conversion_result base rates code to_currency amount
     = Raise ZeroDivisionError) /\
  (is_crypto code = true ->
   conversion_result base rates base code amount = Raise ZeroDivisionError).
Proof.
  split.
  - intros Hneq Hfiat to_currency. unfold conversion_result.
    rewrite (eqb_false_of_neq Hneq), Hfiat, (item_get _ _ Hrate).
    cbn [bind]. unfold Py.div at 1 2. rewrite Hzero.
    destruct (String.eqb to_currency base); reflexivity.
  - intros Hcrypto. unfold conversion_result.
    rewrite String.eqb_refl, Hcrypto, (item_get _ _ Hrate).
    cbn [bind]. unfold Py.div. rewrite Hzero. reflexivity.
Qed.

Lemma zero_rate_raises_witness :
  conversion_result "USD" [("EUR", 0%float); ("XYZ", 2%float)]
    "EUR" "XYZ" 7%float = Raise ZeroDivisionError.
Proof.
  refine (proj1 (@zero_rate_raises "USD" [("EUR", 0%float); ("XYZ", 2%float)]
            "EUR" 0%float 7%float eq_refl eq_refl) _ eq_refl "XYZ").
  discriminate.
Defined.

(** ** Unknown codes and the hint *)

Lemma insert_condition_true (x y : string) :
  String.ltb y x || String.eqb y x = true -> String.leb y x = true.
Proof.
  unfold String.ltb, String.leb. intros H.
  destruct (String.eqb y x) eqn:Heqb.
  - apply String.eqb_eq in Heqb. subst y.
    pose proof (String.compare_antisym x x) as Hself.
    destruct (String.compare x x); simpl in Hself; try discriminate.
    reflexivity.
  - rewrite orb_false_r in H. destruct (String.compare y x); try discriminate.
    reflexivity.
Qed.

Lemma insert_condition_false (x y : string) :
  String.ltb y x || String.eqb y x = false -> String.leb x y = true.
Proof.
  intros H. apply orb_false_elim in H. destruct H as [Hlt Heq].
  unfold String.ltb in Hlt. unfold String.leb.
  rewrite String.compare_antisym.
  destruct (String.compare y x) eqn:Hc; try discriminate; [|reflexivity].
  apply String.compare_eq_iff in Hc. subst y.
  rewrite String.eqb_refl in Heq. discriminate.
Qed.

Lemma insert_head (x y : string) (rest : list string) :
  String.leb y x = true ->
  HdRel (fun a b => String.leb a b = true) y rest ->
  HdRel (fun a b => String.leb a b = true) y (Str.insert x rest).
Proof.
  intros Hyx Hrest. destruct rest as [|z rest]; simpl.
  - constructor. exact Hyx.
  - destruct (String.ltb z x || String.eqb z x).
    + constructor. inversion Hrest; assumption.
    + constructor. exact Hyx.
Qed.

Lemma insert_ascending (x : string) (codes : list string) :
  ascending codes -> ascending (Str.insert x codes).
Proof.
  unfold ascending. induction codes as [|y rest IH]; intros Hsorted; simpl.
  - repeat constructor.
  - inversion Hsorted as [|? ? Hrest Hhead]; subst.
    destruct (String.ltb y x || String.eqb y x) eqn:Hc.
    + constructor; [apply IH; exact Hrest|].
      apply insert_head; [apply insert_condition_true; exact Hc|exact Hhead].
    + constructor; [exact Hsorted|].
      constructor. apply insert_condition_false. exact Hc.
Qed.

(** [sorted] gives its argument back in ascending order. *)
Lemma sorted_ascending (codes : list string) : ascending (Str.sorted codes).
Proof.
  induction codes as [|x rest IH]; simpl.
  - constructor.
  - apply insert_ascending. exact IH.
Qed.

Lemma in_insert (c x : string) (codes : list string) :
  In c (Str.insert x codes) <-> c = x \/ In c codes.
Proof.
  induction codes as [|y rest IH]; simpl.
  - intuition.
  - destruct (String.ltb y x || String.eqb y x); simpl; rewrite ?IH; intuition.
Qed.

Lemma in_sorted (c : string) (codes : list string) :
  In c (Str.sorted codes) <-> In c codes.
Proof.
  induction codes as [|x rest IH]; simpl; [tauto|].
  rewrite in_insert, IH. intuition.
Qed.

Lemma firstn_ascending (n : nat) (codes : list string) :
  ascending codes -> ascending (firstn n codes).
Proof.
  unfold ascending. revert n.
  induction codes as [|x rest IH]; intros n Hsorted.
  - destruct n; constructor.
  - destruct n as [|n]; simpl; [constructor|].
    inversion Hsorted as [|? ? Hrest Hhead]; subst.
    constructor; [apply IH; exact Hrest|].
    destruct rest as [|y rest]; destruct n; simpl; constructor.
    inversion Hhead; assumption.
Qed.

Lemma in_firstn (c : string) (n : nat) (codes : list string) :
  In c (firstn n codes) -> In c codes.
Proof.
  revert n. induction codes as [|x rest IH]; intros [|n]; simpl; try tauto.
  intros [H|H]; [left; exact H|right; exact (IH n H)].
Qed.

Lemma in_keys_mem {V : Type} (c : string) (d : dict V) :
  In c (Dict.keys d) -> Dict.mem c d = true.
Proof.
  unfold Dict.keys, Dict.mem.
  induction d as [|[k v] rest IH]; simpl; [tauto|].
  intros [H|H].
  - subst k. rewrite String.eqb_refl. reflexivity.
  - destruct (String.eqb c k); [reflexivity|exact (IH H)].
Qed.

(** X4: for codes given as ASCII text, a source that is neither the base
    nor a key of [rates] once normalised is answered with the not-found
    message for that code, before the target is looked at; a valid
    source with such a target is answered with the message for the
    target.  The hint of the message names at most 20 codes, all of them
    keys of [rates], in ascending order. *)
Theorem unknown_currency_is_reported
    (fromisoformat : string -> option datetime) (table : RateTable)
    (from_currency : string) (to_currency : option string) (amount : float)
    (Hascii_from : is_ascii from_currency = true)
    (Hascii_to : match to_currency with
                 | Some code => is_ascii code = true
                 | None => True
                 end) :
  let base := table_base table in
  let rates := table_rates table in
  let from_ := normalize from_currency in
  let to_ := target_code to_currency base in
  let codes := firstn 20 (Str.sorted (Dict.keys rates)) in
  (Dict.mem from_ rates = false -> from_ <> base ->
   or_error (convert_currency_body fromisoformat (Ok (Some table))
               from_currency to_currency amount)
   = CurrencyNotFound from_ (String.concat ", " codes)) /\
  (valid_code base rates from_ -> Dict.mem to_ rates = false -> to_ <> base ->
   or_error (convert_currency_body fromisoformat (Ok (Some table))
               from_currency to_currency amount)
   = CurrencyNotFound to_ (String.concat ", " codes)) /\
  (List.length codes <= 20)%nat /\
  ascending codes /\
  (forall c, In c codes -> Dict.mem c rates = true).
Proof.
  intros base rates from_ to_ codes.
  split; [|split; [|split; [|split]]].
  - intros Hmem Hneq.
    cbv beta zeta iota delta [convert_currency_body bind payload_table].
    fold base rates from_.
    rewrite (@invalid_code_fails _ _ _ Hmem Hneq). reflexivity.
  - intros Hfrom Hmem Hneq.
    cbv beta zeta iota delta [convert_currency_body bind payload_table].
    fold base rates from_ to_.
    rewrite (valid_code_passes Hfrom), (@invalid_code_fails _ _ _ Hmem Hneq).
    reflexivity.
  - apply firstn_le_length.
  - apply firstn_ascending, sorted_ascending.
  - intros c Hc. apply in_keys_mem.
    apply (proj1 (in_sorted c (Dict.keys rates))).
    exact (in_firstn _ _ _ Hc).
Qed.

Lemma unknown_currency_is_reported_witness :
  or_error (convert_currency_body Lib.date_fromisoformat (Ok (Some Sample.table))
              "zzz" (Some "usd") 1%float)
  = CurrencyNotFound "ZZZ" "BTC, EUR, JPY".
Proof.
  refine (proj1 (@unknown_currency_is_reported Lib.date_fromisoformat
            Sample.table "zzz" (Some "usd") 1%float eq_refl eq_refl)
            eq_refl _).
  discriminate.
Defined.

(** ** Normalised codes *)

Lemma upper_char_idempotent (c : ascii) :
  Str.upper_char (Str.upper_char c) = Str.upper_char c.
Proof. destruct c as [[] [] [] [] [] [] [] []]; reflexivity. Qed.

Lemma upper_char_space (c : ascii) :
  Str.is_space (Str.upper_char c) = Str.is_space c.
Proof. destruct c as [[] [] [] [] [] [] [] []]; reflexivity. Qed.

Lemma upper_idempotent (s : string) : Str.upper (Str.upper s) = Str.upper s.
Proof.
  induction s as [|c s IH]; simpl; [reflexivity|].
  rewrite upper_char_idempotent. f_equal. exact IH.
Qed.

Lemma upper_lstrip (s : string) :
  Str.upper (Str.lstrip_where Str.is_space s)
  = Str.lstrip_where Str.is_space (Str.upper s).
Proof.
  induction s as [|c s IH]; simpl; [reflexivity|].
  rewrite upper_char_space. destruct (Str.is_space c); [exact IH|reflexivity].
Qed.

Lemma upper_rstrip (s : string) :
  Str.upper (Fmt.rstrip_where Str.is_space s)
  = Fmt.rstrip_where Str.is_space (Str.upper s).
Proof.
  induction s as [|c s IH]; simpl; [reflexivity|].
  change (Str.map_chars Str.upper_char s) with (Str.upper s).
  rewrite <- IH, upper_char_space.
  destruct (Fmt.rstrip_where Str.is_space s); simpl;
    [destruct (Str.is_space c)|]; reflexivity.
Qed.

Lemma rstrip_idempotent (p : ascii -> bool) (s : string) :
  Fmt.rstrip_where p (Fmt.rstrip_where p s) = Fmt.rstrip_where p s.
Proof.
  induction s as [|c s IH]; simpl; [reflexivity|].
  destruct (Fmt.rstrip_where p s) as [|k kept] eqn:Hr.
  - destruct (p c) eqn:Hp; simpl; [reflexivity|]. rewrite Hp. reflexivity.
  - change (Fmt.rstrip_where p (String c (String k kept)))
      with (match Fmt.rstrip_where p (String k kept) with
            | EmptyString => if p c then EmptyString else String c EmptyString
            | r => String c r
            end).
    rewrite IH. reflexivity.
Qed.

Lemma rstrip_keeps_head (p : ascii -> bool) (c : ascii) (s : string) :
  p c = false ->
  exists rest, Fmt.rstrip_where p (String c s) = String c rest.
Proof.
  intros Hp. simpl. destruct (Fmt.rstrip_where p s) as [|k kept].
  - rewrite Hp. eexists; reflexivity.
  - eexists; reflexivity.
Qed.

Lemma lstrip_head (p : ascii -> bool) (s : string) :
  Str.lstrip_where p s = EmptyString
  \/ exists c rest, Str.lstrip_where p s = String c rest /\ p c = false.
Proof.
  induction s as [|c s IH]; simpl; [left; reflexivity|].
  destruct (p c) eqn:Hp; [exact IH|].
  right. exists c, s. split; [reflexivity|exact Hp].
Qed.

Lemma strip_idempotent (s : string) : Str.strip (Str.strip s) = Str.strip s.
Proof.
  unfold Str.strip.
  destruct (lstrip_head Str.is_space s) as [H|(c & rest & H & Hc)]; rewrite H.
  - reflexivity.
  - destruct (rstrip_keeps_head Str.is_space c rest Hc) as [kept Hk].
    rewrite Hk.
    change (Str.lstrip_where Str.is_space (String c kept))
      with (if Str.is_space c then Str.lstrip_where Str.is_space kept
            else String c kept).
    rewrite Hc, <- Hk. apply rstrip_idempotent.
Qed.

Lemma normalize_idempotent (code : string) :
  normalize (normalize code) = normalize code.
Proof.
  unfold normalize, Str.strip.
  rewrite upper_rstrip, upper_lstrip, upper_idempotent.
  exact (strip_idempotent (Str.upper code)).
Qed.

(** X5: codes given as ASCII text are read without regard to case and
    surrounding blanks: a call with the normalised spelling of the source
    and of a target that does not normalise to the empty text is the same
    call. *)
Theorem codes_are_normalized
    (fromisoformat : string -> option datetime) (self : Tools) (t : float)
    (reply : http_reply (option RateTable))
    (from_currency to_currency : string) (amount : float) (user : json)
    (Hascii_from : is_ascii from_currency = true)
    (Hascii_to : is_ascii to_currency = true)
    (Hto : normalize to_currency <> "") :
  convert_currency fromisoformat self t reply
    (normalize from_currency) (Some (normalize to_currency)) amount user
  = convert_currency fromisoformat self t reply
      from_currency (Some to_currency) amount user.
Proof.
  assert (Htarget : forall base,
             target_code (Some (normalize to_currency)) base
             = target_code (Some to_currency) base).
  { intros base. unfold target_code.
    destruct (normalize to_currency) as [|c rest] eqn:Hn; [contradiction|].
    rewrite <- Hn, normalize_idempotent.
    destruct to_currency; [discriminate|reflexivity]. }
  unfold convert_currency, convert_currency_body.
  destruct (_fetch_rates self t reply) as [[fetched self'] trace].
  destruct fetched as [[table|]|e]; try reflexivity.
  cbn [bind payload_table]. cbv zeta.
  rewrite normalize_idempotent, Htarget. reflexivity.
Qed.

Lemma codes_are_normalized_witness :
  convert_currency Lib.date_fromisoformat Sample.fresh 1000%float
    (Body (Some Sample.table)) (normalize " btc ") (Some (normalize "jpy "))
    2%float JNull
  = convert_currency Lib.date_fromisoformat Sample.fresh 1000%float
      (Body (Some Sample.table)) " btc " (Some "jpy ") 2%float JNull.
Proof.
  apply (@codes_are_normalized Lib.date_fromisoformat Sample.fresh 1000%float
           (Body (Some Sample.table)) " btc " "jpy " 2%float JNull
           eq_refl eq_refl).
  discriminate.
Defined.

(** ** More on the rate cache *)

Lemma http_calls_app (a b : list effect) :
  http_calls (a ++ b) = (http_calls a + http_calls b)%nat.
Proof.
  unfold http_calls. rewrite filter_app, length_app. reflexivity.
Qed.

Lemma fetch_rates_calls (self : Tools) (t : float)
    (reply : http_reply (option RateTable)) :
  http_calls (snd (_fetch_rates self t reply))
  = if cache_is_valid self t then O else 1%nat.
Proof.
  unfold _fetch_rates. destruct (cache_is_valid self t); [reflexivity|].
  destruct (http_result reply); [reflexivity|].
  destruct (data (cache self)); reflexivity.
Qed.

(** X6: the payload that [_fetch_rates] returns is the payload that the
    cache holds after the call; a call makes one request when the cache is
    not valid and none when it is, so a sequence of calls never makes more
    requests than there are calls; the valves are never touched. *)
Theorem fetch_rates_returns_what_is_cached (self : Tools) (t : float)
    (reply : http_reply (option RateTable))
    (calls : list (float * http_reply (option RateTable))) :
  (forall payload,
      fst (fst (_fetch_rates self t reply)) = Ok payload ->
      data (cache (snd (fst (_fetch_rates self t reply)))) = payload) /\
  http_calls (snd (_fetch_rates self t reply))
  = (if cache_is_valid self t then O else 1%nat) /\
  valves (snd (fst (_fetch_rates self t reply))) = valves self /\
  (http_calls (snd (fetch_sequence self calls)) <= List.length calls)%nat.
Proof.
  split; [|split; [apply fetch_rates_calls|split]].
  - intros payload. unfold _fetch_rates.
    destruct (cache_is_valid self t).
    + simpl. intros H. injection H as <-. reflexivity.
    + destruct (http_result reply) as [p|e].
      * simpl. intros H. injection H as <-. reflexivity.
      * destruct (data (cache self)) as [table|] eqn:Hdata; simpl; intros H;
          [injection H as <-; exact Hdata|discriminate].
  - unfold _fetch_rates. destruct (cache_is_valid self t); [reflexivity|].
    destruct (http_result reply); [reflexivity|].
    destruct (data (cache self)); reflexivity.
  - revert self. induction calls as [|[t' reply'] rest IH]; intros self.
    + unfold http_calls. simpl. lia.
    + cbn [fetch_sequence]. pose proof (fetch_rates_calls self t' reply') as Hone.
      destruct (_fetch_rates self t' reply') as [[r self1] trace1].
      specialize (IH self1).
      destruct (fetch_sequence self1 rest) as [[rs self2] trace2].
      cbn [fst snd List.length] in *. rewrite http_calls_app, Hone.
      destruct (cache_is_valid self t'); lia.
Qed.

(** X7: with a table in the cache, a failing endpoint does not show in
    the answer of a tool function: the conversion and the listing are
    those of the cached table and the tool object stays as it was,
    whether the cache was still valid or the fetch failed. *)
Theorem endpoint_failure_is_invisible
    (fromisoformat : string -> option datetime) (self : Tools) (t : float)
    (reply : http_reply (option RateTable)) (table : RateTable)
    (from_currency : string) (to_currency : option string) (amount : float)
    (filter_type : option string) (user : json)
    (Hdata : data (cache self) = Some table)
    (Hfail : fetch_failed reply = true) :
  fst (convert_currency fromisoformat self t reply
         from_currency to_currency amount user)
  = (or_error (convert_currency_body fromisoformat (Ok (Some table))
                 from_currency to_currency amount), self) /\
  fst (list_currencies self t reply filter_type user)
  = (or_error (list_currencies_body (Ok (Some table)) filter_type), self).
Proof.
  assert (Hfetch : fst (_fetch_rates self t reply) = (Ok (Some table), self)).
  { unfold _fetch_rates, cache_is_valid. rewrite Hdata.
    destruct (Py.lt_int _ _); [reflexivity|].
    destruct (fetch_failed_raises reply Hfail) as [e He]. rewrite He.
    reflexivity. }
  unfold convert_currency, list_currencies.
  destruct (_fetch_rates self t reply) as [[fetched self'] trace].
  simpl in Hfetch. injection Hfetch as -> ->. split; reflexivity.
Qed.

Lemma endpoint_failure_is_invisible_witness :
  fst (convert_currency Lib.date_fromisoformat Sample.loaded 5000%float
         (BadStatus 503) "eur" (Some "btc") 65536%float JNull)
  = (Conversion "65,536.00" "EUR" "Euro (€)" "2" "BTC" "Bitcoin (BTC)"
       "0.00003052" (Lib.date_fromisoformat "2024-05-01"), Sample.loaded).
Proof.
  exact (proj1 (@endpoint_failure_is_invisible Lib.date_fromisoformat
           Sample.loaded 5000%float (BadStatus 503) Sample.table
           "eur" (Some "btc") 65536%float None JNull eq_refl eq_refl)).
Defined.

(** ** More on the formatter *)

Lemma negative_is_below_one (amount : float) :
  PrimFloat.ltb amount 0 = true ->
  PrimFloat.leb 100 amount = false /\ PrimFloat.leb 1 amount = false
  /\ exists rest, Fmt.fixed 6 amount = String "-" rest.
Proof.
  rewrite ltb_spec, !leb_spec. unfold SFltb, SFleb, Fmt.fixed.
  destruct (Prim2SF amount) as [s|s| |s m e]; intros H.
  - vm_compute in H. discriminate.
  - destruct s; [|vm_compute in H; discriminate].
    repeat split; try reflexivity. eexists; reflexivity.
  - vm_compute in H. discriminate.
  - destruct s; [|cbn in H; discriminate].
    repeat split; try reflexivity. eexists; reflexivity.
Qed.

(** X8: a negative fiat amount never passes the tests [>= 100] and
    [>= 1], so whatever its size it is rendered with 6 decimals and
    stripped, behind its minus sign. *)
Theorem negative_fiat_amount_is_stripped (amount : float) (currency : string)
    (Hfiat : is_crypto currency = false)
    (Hnegative : PrimFloat.ltb amount 0 = true) :
  _format_amount amount currency
  = Fmt.rstrip "." (Fmt.rstrip "0" (Fmt.fixed 6 amount))
  /\ exists rest, Fmt.fixed 6 amount = String "-" rest.
Proof.
  destruct (negative_is_below_one Hnegative) as (H100 & H1 & Hsign).
  split; [|exact Hsign].
  unfold _format_amount, Py.ge. rewrite Hfiat, H100, H1. reflexivity.
Qed.

Lemma negative_fiat_amount_is_stripped_witness :
  _format_amount (-1234.5)%float "USD" = "-1,234.5".
Proof.
  exact (proj1 (@negative_fiat_amount_is_stripped (-1234.5)%float "USD"
                  eq_refl eq_refl)).
Defined.

Lemma last_char_rstrip (p : ascii -> bool) (s : string) (c : ascii) :
  last_char (Fmt.rstrip_where p s) = Some c -> p c = false.
Proof.
  induction s as [|k s IH]; simpl; [discriminate|].
  destruct (Fmt.rstrip_where p s) as [|k' kept].
  - destruct (p k) eqn:Hp; simpl; [discriminate|].
    intros H. injection H as <-. exact Hp.
  - exact IH.
Qed.

Lemma drop_final_point_cases (s : string) :
  Spec.drop_final_point s = s
  \/ S (points (Spec.drop_final_point s)) = points s.
Proof.
  induction s as [|c [|c' rest] IH].
  - left; reflexivity.
  - simpl. destruct (Ascii.eqb c "."); [right|left]; reflexivity.
  - change (Spec.drop_final_point (String c (String c' rest)))
      with (String c (Spec.drop_final_point (String c' rest))).
    destruct IH as [IH|IH]; [left; rewrite IH; reflexivity|right].
    cbn [points]. cbn [points] in IH. lia.
Qed.

Lemma at_least_hundred (amount : float) :
  PrimFloat.leb 100 amount = true -> PrimFloat.leb 1 amount = true.
Proof.
  rewrite !leb_spec. unfold SFleb.
  replace (Prim2SF 100) with (S754_finite false 7036874417766400 (-46))
    by (vm_compute; reflexivity).
  replace (Prim2SF 1) with (S754_finite false 4503599627370496 (-52))
    by (vm_compute; reflexivity).
  destruct (Prim2SF amount) as [s|s| |s m e]; unfold SFcompare.
  - discriminate.
  - destruct s; [discriminate|reflexivity].
  - discriminate.
  - destruct s; [discriminate|].
    destruct (Z.compare_spec (-46) e), (Z.compare_spec (-52) e);
      try lia; intros; try discriminate; reflexivity.
Qed.

(** X9: a crypto amount, and a fiat amount below 1, is shown without a
    trailing decimal point and without trailing zeros behind a point:
    the text either has no point at all or does not end in a zero. *)
Theorem stripped_amount_has_no_trailing_zero (amount : float)
    (currency : string)
    (Hstripped : is_crypto currency = true \/ PrimFloat.leb 1 amount = false) :
  last_char (_format_amount amount currency) <> Some "."%char
  /\ (points (_format_amount amount currency) = O
      \/ last_char (_format_amount amount currency) <> Some "0"%char).
Proof.
  assert (Hshape : exists decimals,
             _format_amount amount currency
             = Fmt.rstrip "." (Fmt.rstrip "0" (Fmt.fixed decimals amount))).
  { unfold _format_amount, Py.ge.
    destruct (is_crypto currency); [eexists; reflexivity|].
    destruct Hstripped as [H|H]; [discriminate|].
    rewrite H.
    destruct (PrimFloat.leb 100 amount) eqn:H100; [|eexists; reflexivity].
    rewrite (at_least_hundred H100) in H. discriminate. }
  destruct Hshape as [decimals Hshape]. rewrite Hshape.
  set (u := Fmt.rstrip "0" (Fmt.fixed decimals amount)).
  assert (Hu : (points u <= 1)%nat).
  { pose proof (points_rstrip_where (fun c => Fmt.contains c "0")
                  (Fmt.fixed decimals amount)).
    pose proof (points_fixed decimals amount). unfold u, Fmt.rstrip. lia. }
  split.
  - intros H. apply last_char_rstrip in H. discriminate.
  - rewrite (rstrip_point_is_drop_final_point u Hu).
    destruct (drop_final_point_cases u) as [Hsame|Hless].
    + right. rewrite Hsame. intros H. unfold u, Fmt.rstrip in H.
      apply last_char_rstrip in H. discriminate.
    + left. lia.
Qed.

Lemma stripped_amount_has_no_trailing_zero_witness :
  last_char (_format_amount 0.5%float "USD") <> Some "."%char
  /\ (points (_format_amount 0.5%float "USD") = O
      \/ last_char (_format_amount 0.5%float "USD") <> Some "0"%char).
Proof.
  apply (@stripped_amount_has_no_trailing_zero 0.5%float "USD").
  right. reflexivity.
Defined.

(** ** Saving and loading the update state *)

Lemma document_of_lift (items : dict value) (members : dict json) :
  document_of items = Ok members ->
  items = map (fun item => (fst item, VJson (snd item))) members.
Proof.
  revert members. induction items as [|[k [j|d]] rest IH]; intros members; simpl.
  - intros H. injection H as <-. reflexivity.
  - destruct (document_of rest) as [tail|e]; simpl; [|discriminate].
    intros H. injection H as <-. simpl. rewrite <- (IH tail eq_refl).
    reflexivity.
  - discriminate.
Qed.

Lemma document_of_all_json (items : dict value) :
  all_json items = true -> exists members, document_of items = Ok members.
Proof.
  induction items as [|[k [j|d]] rest IH]; simpl; intros H.
  - eexists; reflexivity.
  - destruct (IH H) as [tail Htail]. rewrite Htail. eexists; reflexivity.
  - discriminate.
Qed.

Lemma all_json_lift (members : dict json) :
  all_json (map (fun item => (fst item, VJson (snd item))) members) = true.
Proof. induction members as [|[k j] rest IH]; simpl; auto. Qed.

Lemma all_json_set (key : string) (j : json) (items : dict value) :
  all_json items = true -> all_json (Dict.set key (VJson j) items) = true.
Proof.
  induction items as [|[k [j'|d]] rest IH]; simpl; intros H; try discriminate.
  - reflexivity.
  - destruct (String.eqb key k); simpl; auto.
Qed.

Lemma storable_last_check (items : dict value) :
  storable items = true ->
  exists d, Dict.get "last_check" items = Some (VDatetime d).
Proof.
  induction items as [|[k v] rest IH]; cbn [storable Dict.get];
    [discriminate|].
  destruct (String.eqb "last_check" k).
  - destruct v as [j|d]; [discriminate|]. intros _. exists d. reflexivity.
  - destruct v as [j|d]; [exact IH|discriminate].
Qed.

Lemma storable_unstamped (j : json) (items : dict value) :
  storable items = true ->
  all_json (Dict.set "last_check" (VJson j) items) = true.
Proof.
  induction items as [|[k v] rest IH]; cbn [storable Dict.set];
    [discriminate|].
  destruct (String.eqb "last_check" k).
  - destruct v as [j'|d]; [discriminate|]. cbn [all_json]. auto.
  - destruct v as [j'|d]; [|discriminate]. cbn [all_json]. exact IH.
Qed.

Lemma storable_stamp_json (d : datetime) (items : dict value) :
  all_json items = true ->
  storable (Dict.set "last_check" (VDatetime d) items) = true.
Proof.
  induction items as [|[k [j|d']] rest IH]; cbn [all_json Dict.set];
    intros H; try discriminate.
  - reflexivity.
  - destruct (String.eqb "last_check" k) eqn:Hk; cbn [storable]; rewrite Hk;
      auto.
Qed.

Lemma storable_stamp (d : datetime) (items : dict value) :
  storable items = true ->
  storable (Dict.set "last_check" (VDatetime d) items) = true.
Proof.
  induction items as [|[k v] rest IH]; cbn [storable Dict.set];
    [discriminate|].
  destruct (String.eqb "last_check" k) eqn:Hk; cbn [storable]; rewrite Hk.
  - destruct v; [discriminate|auto].
  - destruct v; [exact IH|discriminate].
Qed.

Lemma storable_set_json (key : string) (j : json) (items : dict value) :
  key <> "last_check" -> storable items = true ->
  storable (Dict.set key (VJson j) items) = true.
Proof.
  intros Hkey. induction items as [|[k v] rest IH]; cbn [storable Dict.set];
    [discriminate|].
  destruct (String.eqb "last_check" k) eqn:Hk.
  - apply String.eqb_eq in Hk. subst k.
    rewrite (eqb_false_of_neq Hkey). cbn [storable].
    rewrite String.eqb_refl.
    destruct v; [discriminate|]. apply all_json_set.
  - destruct v as [j'|d]; [|discriminate]. intros H.
    destruct (String.eqb key k); cbn [storable]; rewrite Hk; auto.
Qed.

(** What [_save_state] does with a storable state. *)
Lemma save_state_storable (self : Tools) (w : World) :
  storable (update_state self) = true ->
  exists d members,
    Dict.get "last_check" (update_state self) = Some (VDatetime d)
    /\ document_of (Dict.set "last_check" (VJson (JStr (isoformat d)))
                      (update_state self)) = Ok members
    /\ _save_state self w
       = (Ok tt, if disk_writable w
                 then [WriteFile DATA_FILE (Stored (JObj members))]
                 else []).
Proof.
  intros Hs. destruct (storable_last_check _ Hs) as [d Hd].
  destruct (document_of_all_json _ (storable_unstamped (JStr (isoformat d)) _ Hs))
    as [members Hm].
  exists d, members. split; [exact Hd|]. split; [exact Hm|].
  unfold _save_state, Dict.item. rewrite Hd. cbn [bind]. rewrite Hm.
  destruct (disk_writable w); reflexivity.
Qed.

(** X10: every state that [_load_state] returns has a datetime under
    ["last_check"] and JSON documents elsewhere, and on such a state
    [_save_state] never raises: it writes one document when the file can
    be opened and nothing when it cannot, the [OSError] being passed
    over. *)
Theorem loaded_state_can_be_saved
    (fromisoformat : string -> option datetime) (file : state_file)
    (self : Tools) (w : World)
    (Hload : _load_state fromisoformat file = Ok (update_state self)) :
  storable (update_state self) = true
  /\ fst (_save_state self w) = Ok tt
  /\ (disk_writable w = false -> snd (_save_state self w) = [])
  /\ (disk_writable w = true ->
      exists members,
        snd (_save_state self w)
        = [WriteFile DATA_FILE (Stored (JObj members))]).
Proof.
  assert (Hs : storable (update_state self) = true).
  { revert Hload. unfold _load_state.
    destruct file as [| |document]; simpl.
    - intros H. injection H as <-. reflexivity.
    - intros H. injection H as <-. reflexivity.
    - destruct document as [| | | | | |members]; simpl; try discriminate.
      destruct (datetime_fromisoformat fromisoformat _) as [d|e]; simpl.
      + intros H. injection H as <-.
        apply storable_stamp_json, all_json_lift.
      + destruct e; simpl; try discriminate;
          intros H; injection H as <-; reflexivity. }
  split; [exact Hs|].
  destruct (save_state_storable self w Hs) as (d & members & _ & _ & Hsave).
  rewrite Hsave. split; [reflexivity|]. split.
  - intros Hw. rewrite Hw. reflexivity.
  - intros Hw. rewrite Hw. exists members. reflexivity.
Qed.

Lemma loaded_state_can_be_saved_witness :
  storable default_update_state = true
  /\ fst (_save_state Sample.fresh Sample.world) = Ok tt
  /\ (disk_writable Sample.world = false ->
      snd (_save_state Sample.fresh Sample.world) = [])
  /\ (disk_writable Sample.world = true ->
      exists members,
        snd (_save_state Sample.fresh Sample.world)
        = [WriteFile DATA_FILE (Stored (JObj members))]).
Proof.
  exact (@loaded_state_can_be_saved Lib.date_fromisoformat Absent
           Sample.fresh Sample.world eq_refl).
Defined.

(** X11: what [_save_state] writes, [_load_state] reads back: loading the
    written document gives the update state that was saved, provided
    [fromisoformat] reads the text that [isoformat] wrote for
    ["last_check"]. *)
Theorem saved_state_loads_back
    (fromisoformat : string -> option datetime) (self : Tools) (w : World)
    (d : datetime)
    (Hstate : storable (update_state self) = true)
    (Hstamp : Dict.get "last_check" (update_state self) = Some (VDatetime d))
    (Hiso : fromisoformat (isoformat d) = Some d)
    (Hdisk : disk_writable w = true) :
  exists members,
    snd (_save_state self w) = [WriteFile DATA_FILE (Stored (JObj members))]
    /\ _load_state fromisoformat (Stored (JObj members))
       = Ok (update_state self).
Proof.
  destruct (save_state_storable self w Hstate)
    as (d' & members & Hd' & Hdoc & Hsave).
  rewrite Hstamp in Hd'. injection Hd' as <-.
  exists members. rewrite Hsave, Hdisk. split; [reflexivity|].
  pose proof (document_of_lift _ Hdoc) as Hlift.
  assert (Hget : Dict.get "last_check" members = Some (JStr (isoformat d))).
  { pose proof (dict_get_set_same "last_check" (VJson (JStr (isoformat d)))
                  (update_state self)) as H.
    rewrite Hlift, dict_get_map in H.
    destruct (Dict.get "last_check" members) as [j|]; simpl in H;
      [injection H as ->; reflexivity|discriminate]. }
  unfold _load_state. cbn [open_and_load members_of bind].
  rewrite Hget. cbn [get_default datetime_fromisoformat]. rewrite Hiso.
  cbn [bind try_except]. rewrite <- Hlift, dict_set_set.
  rewrite (dict_set_same _ _ Hstamp). reflexivity.
Qed.

Lemma saved_state_loads_back_witness :
  exists members,
    snd (_save_state Sample.outdated Sample.world)
    = [WriteFile DATA_FILE (Stored (JObj members))]
    /\ _load_state Lib.stamp_fromisoformat (Stored (JObj members))
       = Ok (update_state Sample.outdated).
Proof.
  apply (@saved_state_loads_back Lib.stamp_fromisoformat Sample.outdated
           Sample.world datetime_2024_01_01); reflexivity.
Defined.

(** X12: loading merges no defaults into a document that it accepts: the
    state has the datetime under ["last_check"] and, under every other
    key, exactly what the file has, so a key that the file lacks is
    missing from the state as well. *)
Theorem loaded_state_has_the_keys_of_the_file
    (fromisoformat : string -> option datetime) (members : dict json)
    (d : datetime)
    (Hstamp : datetime_fromisoformat fromisoformat
                (get_default (Dict.get "last_check" members)
                             (JStr "2024-01-01")) = Ok d) :
  exists state,
    _load_state fromisoformat (Stored (JObj members)) = Ok state
    /\ Dict.get "last_check" state = Some (VDatetime d)
    /\ (forall key, key <> "last_check" ->
          Dict.get key state = option_map VJson (Dict.get key members)).
Proof.
  eexists. split; [|split].
  - unfold _load_state. cbn [open_and_load members_of bind].
    rewrite Hstamp. reflexivity.
  - apply dict_get_set_same.
  - intros key Hkey. rewrite (dict_get_set_other _ _ Hkey).
    apply dict_get_map.
Qed.

Lemma loaded_state_has_the_keys_of_the_file_witness :
  exists state,
    _load_state Lib.date_fromisoformat (Stored (JObj [])) = Ok state
    /\ Dict.get "last_check" state = Some (VDatetime datetime_2024_01_01)
    /\ (forall key, key <> "last_check" ->
          Dict.get key state = option_map VJson (Dict.get key [])).
Proof.
  exact (@loaded_state_has_the_keys_of_the_file Lib.date_fromisoformat []
           datetime_2024_01_01 eq_refl).
Defined.

(** ** The release check *)

Lemma should_check_not_admin (self : Tools) (w : World) (user : json) :
  is_admin user = false -> _should_check_for_updates self w user = Ok false.
Proof.
  unfold is_admin, _should_check_for_updates.
  destruct (negb (ENABLE_UPDATE_CHECK (valves self))); [reflexivity|].
  destruct user as [| | | | | |members]; try reflexivity.
  destruct (Dict.get "role" members) as [[| | | |role| |]|]; try reflexivity.
  destruct (String.eqb_spec role "admin") as [Heq|Hneq]; [discriminate|].
  intros _.
  repeat match goal with
         | |- context [match ?x with _ => _ end] =>
             is_var x; destruct x; try reflexivity
         end.
  contradiction Hneq. reflexivity.
Qed.

Lemma should_check_admin (self : Tools) (w : World) (user : json) :
  ENABLE_UPDATE_CHECK (valves self) = true -> is_admin user = true ->
  _should_check_for_updates self w user
  = (last_check <- Dict.item "last_check" (update_state self) ;;
     match last_check with
     | VDatetime d =>
         time_since_check <- datetime_sub (now w) d ;;
         Ok (twenty_four_hours <=? time_since_check)
     | VJson _ => Raise TypeError
     end).
Proof.
  unfold is_admin, _should_check_for_updates. intros -> Hadmin.
  destruct user as [| | | | | |members]; try discriminate.
  destruct (Dict.get "role" members) as [[| | | |role| |]|]; try discriminate.
  apply String.eqb_eq in Hadmin. subst role. reflexivity.
Qed.

Lemma release_check_raises (self : Tools) (w : World) (e : exn) :
  release_check self w = Raise e ->
  match release_attribute_error w with
  | Some attribute => e = AttributeError attribute
  | None => is_swallowed e = true
  end.
Proof.
  unfold release_check, release_attribute_error.
  destruct (release_endpoint w) as [|status body].
  - intros H. injection H as <-. reflexivity.
  - destruct body as [data|].
    + destruct (status =? 200); [|discriminate]. cbn [bind].
      destruct data as [| | | | | |members]; cbn [members_of bind];
        try (intros H; injection H as <-; reflexivity).
      destruct (get_default (Dict.get "tag_name" members) (JStr ""));
        cbn [lstrip_v bind];
        try (intros H; injection H as <-; reflexivity).
      unfold Dict.item.
      destruct (Dict.get "latest_version" (update_state self)); cbn [bind].
      * discriminate.
      * intros H. injection H as <-. reflexivity.
    + destruct (status =? 200); [|discriminate]. cbn [bind].
      intros H. injection H as <-. reflexivity.
Qed.

Lemma release_check_ok (self : Tools) (w : World) (checked : dict value) :
  release_check self w = Ok checked -> release_attribute_error w = None.
Proof.
  unfold release_check, release_attribute_error.
  destruct (release_endpoint w) as [|status body]; [reflexivity|].
  destruct body as [data|]; [|reflexivity].
  destruct (status =? 200); [|reflexivity]. cbn [bind].
  destruct data as [| | | | | |members]; cbn [members_of bind];
    try discriminate.
  destruct (get_default (Dict.get "tag_name" members) (JStr ""));
    cbn [lstrip_v bind]; try discriminate.
  reflexivity.
Qed.

(** The shape of [_check_github_release]: the request, the update state
    of the [try] block stamped with the clock, the save, and the
    [AttributeError] of a malformed body raised again after them. *)
Lemma check_github_release_shape (self : Tools) (w : World) :
  exists checked,
    (release_check self w = Ok checked
     \/ (exists e, release_check self w = Raise e) /\ checked = update_state self)
    /\ let self' :=
         set_update_state self
           (Dict.set "last_check" (VDatetime (now w)) checked) in
       _check_github_release self w
       = (match release_attribute_error w with
          | Some attribute =>
              _ <- fst (_save_state self' w) ;; Raise (AttributeError attribute)
          | None => fst (_save_state self' w)
          end, self',
          HttpGet release_url :: snd (_save_state self' w)).
Proof.
  unfold _check_github_release.
  destruct (release_check self w) as [checked|e] eqn:Hcheck.
  - exists checked. split; [left; reflexivity|].
    rewrite (release_check_ok self w Hcheck).
    cbn [try_except]. cbv zeta.
    destruct (_save_state _ w) as [saved writes]. reflexivity.
  - exists (update_state self). split; [right; split; [exists e|]; reflexivity|].
    pose proof (release_check_raises self w Hcheck) as Hwhy.
    unfold try_except. fold (is_swallowed e).
    destruct (release_attribute_error w) as [attribute|].
    + subst e. cbn [is_swallowed is_RequestException orb]. cbv zeta.
      destruct (_save_state _ w) as [saved writes]. reflexivity.
    + rewrite Hwhy. cbv zeta.
      destruct (_save_state _ w) as [saved writes]. reflexivity.
Qed.

Lemma release_check_storable (self : Tools) (w : World)
    (checked : dict value) :
  storable (update_state self) = true ->
  release_check self w = Ok checked -> storable checked = true.
Proof.
  intros Hs. unfold release_check.
  destruct (release_endpoint w) as [|status body]; [discriminate|].
  destruct (status =? 200); [|intros H; injection H as <-; exact Hs].
  destruct body as [data|]; cbn [bind]; [|discriminate].
  destruct (members_of data) as [members|]; cbn [bind]; [|discriminate].
  destruct (lstrip_v _) as [new_version|]; cbn [bind]; [|discriminate].
  unfold Dict.item.
  destruct (Dict.get "latest_version" (update_state self)); cbn [bind];
    [|discriminate].
  intros H. injection H as <-.
  assert (H2 : storable
                 (Dict.set "latest_url"
                    (VJson (get_default (Dict.get "html_url" members) (JStr "")))
                    (Dict.set "latest_version" (VJson (JStr new_version))
                       (update_state self))) = true).
  { apply storable_set_json; [discriminate|].
    apply storable_set_json; [discriminate|exact Hs]. }
  destruct (negb _); [|exact H2].
  apply storable_set_json; [discriminate|exact H2].
Qed.

(** X13: whatever the release endpoint answers and whether or not the
    state file can be written, a release check on a storable state makes
    exactly one request, sends no message, stamps ["last_check"] with the
    clock, saves, keeps the state storable and leaves valves and cache
    alone.  It raises in one case only: a 200 reply whose body is no
    object or whose ["tag_name"] is no string raises the [AttributeError]
    of the missing method, after the stamp and the save. *)
Theorem release_check_always_stamps (self : Tools) (w : World)
    (Hstate : storable (update_state self) = true) :
  let '(raised, self', trace) := _check_github_release self w in
  raised = match release_attribute_error w with
           | Some attribute => Raise (AttributeError attribute)
           | None => Ok tt
           end
  /\ Dict.get "last_check" (update_state self') = Some (VDatetime (now w))
  /\ storable (update_state self') = true
  /\ http_calls trace = 1%nat
  /\ emitted trace = []
  /\ (exists members,
        trace = HttpGet release_url
                :: (if disk_writable w
                    then [WriteFile DATA_FILE (Stored (JObj members))]
                    else []))
  /\ valves self' = valves self
  /\ cache self' = cache self.
Proof.
  destruct (check_github_release_shape self w) as (checked & Hchecked & Hshape).
  cbv zeta in Hshape. rewrite Hshape.
  set (self' := set_update_state self _).
  assert (Hs1 : storable checked = true).
  { destruct Hchecked as [H|[_ ->]]; [|exact Hstate].
    exact (release_check_storable self w Hstate H). }
  assert (Hs' : storable (update_state self') = true).
  { apply storable_stamp. exact Hs1. }
  destruct (save_state_storable self' w Hs') as (d & members & _ & _ & Hsave).
  rewrite Hsave. cbn [fst snd bind].
  split; [destruct (release_attribute_error w); reflexivity|].
  split; [apply dict_get_set_same|].
  split; [exact Hs'|].
  split; [destruct (disk_writable w); reflexivity|].
  split; [destruct (disk_writable w); reflexivity|].
  split; [exists members; reflexivity|].
  split; reflexivity.
Qed.

Lemma release_check_always_stamps_witness :
  let '(raised, self', trace) :=
    _check_github_release Sample.fresh
      {| now := now Sample.world;
         release_endpoint := ReleaseResponse 200 (Some (JArr []));
         disk_writable := true |} in
  raised = Raise (AttributeError "get")
  /\ Dict.get "last_check" (update_state self')
     = Some (VDatetime (now Sample.world))
  /\ storable (update_state self') = true
  /\ http_calls trace = 1%nat
  /\ emitted trace = []
  /\ (exists members,
        trace = [HttpGet release_url;
                 WriteFile DATA_FILE (Stored (JObj members))])
  /\ valves self' = valves Sample.fresh
  /\ cache self' = cache Sample.fresh.
Proof.
  exact (@release_check_always_stamps Sample.fresh
           {| now := now Sample.world;
              release_endpoint := ReleaseResponse 200 (Some (JArr []));
              disk_writable := true |} eq_refl).
Defined.

Lemma check_github_release_state (self : Tools) (w : World)
    (checked : dict value) :
  (release_check self w = Ok checked
   \/ (exists e, release_check self w = Raise e) /\ checked = update_state self) ->
  update_state (snd (fst (_check_github_release self w)))
  = Dict.set "last_check" (VDatetime (now w)) checked.
Proof.
  intros Hchecked.
  destruct (check_github_release_shape self w) as (checked' & Hchecked' & Hshape).
  cbv zeta in Hshape. rewrite Hshape. cbn [fst snd update_state set_update_state].
  destruct Hchecked as [H|[[e He] ->]]; destruct Hchecked' as [H'|[[e' He'] ->]];
    try reflexivity; congruence.
Qed.

(** X14: what a release check records.  When the request fails, the
    status is not 200 or the body does not decode, the update state only
    gets its new ["last_check"], and so it does for a body that is no
    object or whose ["tag_name"] is no string.  A release object with a
    string tag is recorded with its tag stripped of leading [v]s and its
    ["html_url"], and the notification flag is reset exactly when the
    stored version differs from the new one.  On a state without the key
    ["latest_version"] the release is not recorded at all: the
    [KeyError] of the comparison is passed over. *)
Theorem release_check_outcomes (self : Tools) (w : World) :
  let state := update_state self in
  let state' := update_state (snd (fst (_check_github_release self w))) in
  (release_endpoint w = ReleaseRequestFailed
   \/ (exists status body,
         release_endpoint w = ReleaseResponse status body
         /\ (status <> 200 \/ body = None))
   \/ release_attribute_error w <> None ->
   state' = Dict.set "last_check" (VDatetime (now w)) state) /\
  (forall members tag stored,
     release_endpoint w = ReleaseResponse 200 (Some (JObj members)) ->
     get_default (Dict.get "tag_name" members) (JStr "") = JStr tag ->
     Dict.get "latest_version" state = Some stored ->
     let new_version := Str.lstrip "v" tag in
     Dict.get "latest_version" state' = Some (VJson (JStr new_version))
     /\ Dict.get "latest_url" state'
        = Some (VJson (get_default (Dict.get "html_url" members) (JStr "")))
     /\ Dict.get "has_shown_notification" state'
        = (if value_eq_str stored new_version
           then Dict.get "has_shown_notification" state
           else Some (VJson (JBool false)))) /\
  (forall data,
     release_endpoint w = ReleaseResponse 200 (Some data) ->
     Dict.get "latest_version" state = None ->
     state' = Dict.set "last_check" (VDatetime (now w)) state).
Proof.
  intros state state'. subst state'. split; [|split].
  - intros Hfail. apply check_github_release_state.
    destruct Hfail as [Hreply|[(status & body & Hreply & Hwhy)|Hmalformed]].
    + right. split; [|reflexivity]. unfold release_check. rewrite Hreply.
      eexists; reflexivity.
    + unfold release_check. rewrite Hreply.
      destruct (Z.eqb_spec status 200) as [->|Hstatus].
      * destruct Hwhy as [H| ->]; [contradiction|].
        right. split; [eexists|]; reflexivity.
      * left. reflexivity.
    + right. split; [|reflexivity].
      destruct (release_check self w) as [checked|e] eqn:Hcheck;
        [|exists e; reflexivity].
      contradiction Hmalformed. exact (release_check_ok self w Hcheck).
  - intros members tag stored Hreply Htag Hstored new_version.
    rewrite (check_github_release_state self w
               (checked := if negb (value_eq_str stored new_version)
                           then Dict.set "has_shown_notification"
                                  (VJson (JBool false))
                                  (Dict.set "latest_url"
                                     (VJson (get_default
                                               (Dict.get "html_url" members)
                                               (JStr "")))
                                     (Dict.set "latest_version"
                                        (VJson (JStr new_version)) state))
                           else Dict.set "latest_url"
                                  (VJson (get_default
                                            (Dict.get "html_url" members)
                                            (JStr "")))
                                  (Dict.set "latest_version"
                                     (VJson (JStr new_version)) state))).
    + destruct (value_eq_str stored new_version); cbn [negb];
        repeat split;
        repeat first
          [ rewrite dict_get_set_same
          | rewrite dict_get_set_other by discriminate ];
        reflexivity.
    + left. unfold release_check. rewrite Hreply.
      cbn [Z.eqb Pos.eqb bind members_of]. rewrite Htag. cbn [lstrip_v bind].
      unfold Dict.item. fold state. rewrite Hstored. reflexivity.
  - intros data Hreply Hmissing. apply check_github_release_state.
    right. split; [|reflexivity].
    unfold release_check. rewrite Hreply. cbn [Z.eqb Pos.eqb bind].
    destruct (members_of data) as [members|e]; cbn [bind];
      [|eexists; reflexivity].
    destruct (lstrip_v _) as [new_version|e]; cbn [bind];
      [|eexists; reflexivity].
    unfold Dict.item. fold state. rewrite Hmissing. eexists; reflexivity.
Qed.

Lemma release_check_outcomes_witness :
  Dict.get "latest_version"
    (update_state (snd (fst (_check_github_release Sample.fresh Sample.world))))
  = Some (VJson (JStr "0.2.0")).
Proof.
  exact (proj1 (proj1 (proj2 (@release_check_outcomes Sample.fresh Sample.world))
                  [("tag_name", JStr "v0.2.0");
                   ("html_url", JStr "https://github.com/anvme")]
                  "v0.2.0" (VJson JNull) eq_refl eq_refl eq_refl)).
Defined.

(** X15: a release check is followed by no other for 24 hours: after a
    check at one clock reading, [_should_check_for_updates] answers no at
    every later reading less than 24 hours away, for every user; from 24
    hours on it answers yes to an admin while the valve is on. *)
Theorem one_release_check_a_day (self : Tools) (w later : World) (user : json)
    (Hnaive : utcoffset (now w) = None)
    (Hnaive' : utcoffset (now later) = None) :
  let self' := snd (fst (_check_github_release self w)) in
  let elapsed := microseconds_of (now later) - microseconds_of (now w) in
  (elapsed < twenty_four_hours ->
   _should_check_for_updates self' later user = Ok false) /\
  (twenty_four_hours <= elapsed ->
   ENABLE_UPDATE_CHECK (valves self) = true -> is_admin user = true ->
   _should_check_for_updates self' later user = Ok true).
Proof.
  intros self' elapsed.
  assert (Hstamp : Dict.get "last_check" (update_state self')
                   = Some (VDatetime (now w))).
  { destruct (check_github_release_shape self w) as (checked & _ & Hshape).
    cbv zeta in Hshape. unfold self'. rewrite Hshape.
    apply dict_get_set_same. }
  assert (Hvalves : valves self' = valves self).
  { destruct (check_github_release_shape self w) as (checked & _ & Hshape).
    cbv zeta in Hshape. unfold self'. rewrite Hshape. reflexivity. }
  assert (Hsub : datetime_sub (now later) (now w) = Ok elapsed).
  { unfold datetime_sub. rewrite Hnaive, Hnaive'. reflexivity. }
  split.
  - intros Hsoon.
    destruct (is_admin user) eqn:Hadmin;
      [|exact (should_check_not_admin self' later user Hadmin)].
    destruct (ENABLE_UPDATE_CHECK (valves self')) eqn:Hvalve.
    + rewrite (should_check_admin self' later user Hvalve Hadmin).
      unfold Dict.item. rewrite Hstamp. cbn [bind]. rewrite Hsub. cbn [bind].
      destruct (Z.leb_spec twenty_four_hours elapsed); [lia|reflexivity].
    + unfold _should_check_for_updates. rewrite Hvalve. reflexivity.
  - intros Hlate Hvalve Hadmin. rewrite <- Hvalves in Hvalve.
    rewrite (should_check_admin self' later user Hvalve Hadmin).
    unfold Dict.item. rewrite Hstamp. cbn [bind]. rewrite Hsub. cbn [bind].
    destruct (Z.leb_spec twenty_four_hours elapsed); [reflexivity|lia].
Qed.

Lemma one_release_check_a_day_witness :
  _should_check_for_updates
    (snd (fst (_check_github_release Sample.fresh Sample.world)))
    Sample.world Sample.admin
  = Ok false.
Proof.
  refine (proj1 (@one_release_check_a_day Sample.fresh Sample.world
                   Sample.world Sample.admin eq_refl eq_refl) _).
  reflexivity.
Defined.

(** ** The notify step *)

(** [_get_update_notification] never returns a message: where it would
    build one, reading [EXT_TITLE] raises. *)
Lemma notification_is_never_built (Version : Type)
    (version_parse : string -> option Version)
    (version_gt : Version -> Version -> bool) (self : Tools) (text : string) :
  _get_update_notification version_parse version_gt self = Ok text ->
  text = "".
Proof.
  unfold _get_update_notification, Dict.item.
  destruct (Dict.get "latest_version" (update_state self)) as [latest|];
    cbn [bind]; [|discriminate].
  destruct (negb (truthy latest)); [intros H; injection H as <-; reflexivity|].
  destruct (parse_version version_parse latest) as [parsed|e]; cbn [bind].
  - destruct (parse_version version_parse (VJson (JStr CURRENT_VERSION)))
      as [current|e]; cbn [bind].
    + destruct (version_gt parsed current).
      * cbn. discriminate.
      * cbn. intros H. injection H as <-. reflexivity.
    + unfold try_except.
      destruct (is_ValueError e || match e with TypeError => true | _ => false end);
        [intros H; injection H as <-; reflexivity|discriminate].
  - unfold try_except.
    destruct (is_ValueError e || match e with TypeError => true | _ => false end);
      [intros H; injection H as <-; reflexivity|discriminate].
Qed.

(** The notify step after the check: it changes neither the tool object
    nor the world. *)
Lemma notify_step_is_silent (Version : Type)
    (version_parse : string -> option Version)
    (version_gt : Version -> Version -> bool)
    (self : Tools) (w : World) (user : json) (event_emitter : option emitter) :
  _should_check_for_updates self w user = Ok false ->
  snd (fst (_check_and_notify_updates version_parse version_gt self w user
              event_emitter)) = self
  /\ snd (_check_and_notify_updates version_parse version_gt self w user
            event_emitter) = [].
Proof.
  intros Hcheck. unfold _check_and_notify_updates. rewrite Hcheck.
  destruct (Dict.item "has_shown_notification" (update_state self));
    [|split; reflexivity].
  destruct event_emitter as [[]|]; [|split; reflexivity].
  destruct (negb (truthy a)); [|split; reflexivity].
  destruct (_get_update_notification version_parse version_gt self)
    as [text|e] eqn:Htext; [|split; reflexivity].
  rewrite (notification_is_never_built _ _ _ Htext). split; reflexivity.
Qed.

(** X16: for a user who is not an admin, and for everyone while the valve
    is off, [_check_and_notify_updates] makes no release check and is
    the notify step alone: no request is sent, nothing is written and
    the tool object stays as it was.  The call still ends as the notify
    step ends: with the [KeyError] of a missing flag, normally when the
    notification is marked as shown or there is no emitter, and otherwise
    as [_get_update_notification] ends, which is the [NameError] of
    [EXT_TITLE] when a newer version is stored. *)
Theorem no_release_check_without_admin (Version : Type)
    (version_parse : string -> option Version)
    (version_gt : Version -> Version -> bool)
    (self : Tools) (w : World) (user : json) (event_emitter : option emitter)
    (Hidle : is_admin user = false
             \/ ENABLE_UPDATE_CHECK (valves self) = false) :
  _check_and_notify_updates version_parse version_gt self w user event_emitter
  = (silent_notify_result
       (Dict.item "has_shown_notification" (update_state self))
       event_emitter
       (_get_update_notification version_parse version_gt self),
     self, []).
Proof.
  assert (Hcheck : _should_check_for_updates self w user = Ok false).
  { destruct Hidle as [H|H].
    - exact (should_check_not_admin self w user H).
    - unfold _should_check_for_updates. rewrite H. reflexivity. }
  unfold _check_and_notify_updates, silent_notify_result. rewrite Hcheck.
  destruct (Dict.item "has_shown_notification" (update_state self)) as [flag|e];
    [|reflexivity].
  destruct event_emitter as [[]|]; [|reflexivity].
  destruct (negb (truthy flag)); [|reflexivity].
  destruct (_get_update_notification version_parse version_gt self)
    as [text|e] eqn:Htext; [|reflexivity].
  rewrite (notification_is_never_built _ _ _ Htext). reflexivity.
Qed.

Lemma no_release_check_without_admin_witness :
  _check_and_notify_updates Lib.release_parse Lib.release_gt
    Sample.outdated Sample.world (JObj [("role", JStr "user")])
    (Some HostEmitter)
  = (Raise (NameError "EXT_TITLE"), Sample.outdated, []).
Proof.
  apply (@no_release_check_without_admin (list Z) Lib.release_parse
           Lib.release_gt Sample.outdated Sample.world
           (JObj [("role", JStr "user")]) (Some HostEmitter)).
  left. reflexivity.
Defined.

Lemma emitted_app (a b : list effect) :
  emitted (a ++ b) = (emitted a ++ emitted b)%list.
Proof. unfold emitted. apply flat_map_app. Qed.

Lemma check_github_release_emits_nothing (self : Tools) (w : World) :
  emitted (snd (_check_github_release self w)) = [].
Proof.
  destruct (check_github_release_shape self w) as (checked & _ & Hshape).
  cbv zeta in Hshape. rewrite Hshape. cbn [snd emitted flat_map app].
  unfold _save_state.
  destruct (_ <- Dict.item "last_check" _ ;; _) as [data|e]; [|reflexivity].
  destruct (disk_writable w); [|reflexivity].
  destruct (document_of data); reflexivity.
Qed.

(** X17: on no input does [_check_and_notify_updates] send a message
    through the event emitter: the only message it could send is the one
    that [_get_update_notification] never builds. *)
Theorem notifier_never_emits (Version : Type)
    (version_parse : string -> option Version)
    (version_gt : Version -> Version -> bool)
    (self : Tools) (w : World) (user : json) (event_emitter : option emitter) :
  emitted (snd (_check_and_notify_updates version_parse version_gt self w user
                  event_emitter)) = []
  /\ forall text,
       _get_update_notification version_parse version_gt self = Ok text ->
       text = "".
Proof.
  split; [|intros text; apply notification_is_never_built].
  unfold _check_and_notify_updates.
  destruct (_should_check_for_updates self w user) as [should_check|e];
    [|reflexivity].
  assert (Hchecked :
            emitted (snd (if should_check then _check_github_release self w
                          else (Ok tt, self, []))) = []).
  { destruct should_check; [apply check_github_release_emits_nothing|reflexivity]. }
  destruct (if should_check then _check_github_release self w
            else (Ok tt, self, [])) as [[checked self1] trace1].
  cbn [snd] in Hchecked.
  destruct checked as [[]|e]; [|exact Hchecked].
  destruct (Dict.item "has_shown_notification" (update_state self1));
    [|exact Hchecked].
  destruct event_emitter as [[]|]; [|exact Hchecked].
  destruct (negb (truthy a)); [|exact Hchecked].
  destruct (_get_update_notification version_parse version_gt self1)
    as [text|e] eqn:Htext; [|exact Hchecked].
  rewrite (notification_is_never_built _ _ _ Htext). exact Hchecked.
Qed.

Lemma notify_unparsable_is_silent_witness :
  _check_and_notify_updates Lib.release_parse Lib.release_gt
    (set_update_state Sample.fresh
       (Dict.set "latest_version" (VJson (JStr "next"))
                 default_update_state))
    Sample.world JNull (Some HostEmitter)
  = (Ok tt,
     set_update_state Sample.fresh
       (Dict.set "latest_version" (VJson (JStr "next"))
                 default_update_state), []).
Proof.
  apply (@notify_unparsable_is_silent (list Z) Lib.release_parse Lib.release_gt
           _ Sample.world JNull "next"); reflexivity.
Defined.

Lemma notify_shown_is_silent_witness :
  _check_and_notify_updates Lib.release_parse Lib.release_gt
    (set_update_state Sample.outdated
       (Dict.set "has_shown_notification" (VJson (JBool true))
                 (update_state Sample.outdated)))
    Sample.world JNull (Some HostEmitter)
  = (Ok tt,
     set_update_state Sample.outdated
       (Dict.set "has_shown_notification" (VJson (JBool true))
                 (update_state Sample.outdated)), []).
Proof.
  apply (@notify_shown_is_silent (list Z) Lib.release_parse Lib.release_gt
           _ Sample.world JNull (Some HostEmitter)); reflexivity.
Defined.

(** ** The listing *)

Lemma filter_crypto_of_fiat (codes : list string) :
  filter is_crypto (filter (fun c => negb (is_crypto c)) codes) = [].
Proof.
  induction codes as [|c rest IH]; simpl; [reflexivity|].
  destruct (is_crypto c) eqn:Hc; simpl; [exact IH|].
  rewrite Hc. exact IH.
Qed.

Lemma filter_fiat_of_crypto (codes : list string) :
  filter (fun c => negb (is_crypto c)) (filter is_crypto codes) = [].
Proof.
  induction codes as [|c rest IH]; simpl; [reflexivity|].
  destruct (is_crypto c) eqn:Hc; simpl; [|exact IH].
  rewrite Hc. exact IH.
Qed.

Lemma rows_of_three_length_bounded (n : nat) (codes : list string) :
  (List.length codes <= n)%nat ->
  List.length (rows_of_three codes) = Nat.div (List.length codes + 2) 3.
Proof.
  revert codes. induction n as [n IH] using (well_founded_induction lt_wf).
  intros [|a [|b [|c rest]]] Hlen; try reflexivity.
  cbn [rows_of_three List.length].
  rewrite (IH (List.length rest)); [|simpl in Hlen; lia|lia].
  replace (S (S (S (List.length rest))) + 2)%nat
    with (List.length rest + 2 + 1 * 3)%nat by lia.
  rewrite Nat.div_add by lia. lia.
Qed.

(** X20: the filter of [list_currencies] is read without regard to ASCII
    case.  With ["crypto"] the listing has no fiat rows and every line is
    one of the crypto codes; with ["fiat"] it has no crypto lines; any
    other non-empty filter is answered with the invalid-filter message;
    without a filter the count is the base plus every key of [rates], and
    the fiat codes come three to a row. *)
Theorem listing_follows_the_filter (table : RateTable) (filter_type : string) :
  (Str.lower filter_type = "crypto" ->
   exists count lines,
     list_currencies_body (Ok (Some table)) (Some filter_type)
     = Ok (Listing "Cryptocurrencies" count lines [])
     /\ forall code name, In (code, name) lines -> is_crypto code = true) /\
  (Str.lower filter_type = "fiat" ->
   exists count rows,
     list_currencies_body (Ok (Some table)) (Some filter_type)
     = Ok (Listing "Fiat Currencies" count [] rows)) /\
  (filter_type <> "" -> Str.lower filter_type <> "crypto" ->
   Str.lower filter_type <> "fiat" ->
   list_currencies_body (Ok (Some table)) (Some filter_type) = Ok InvalidFilter) /\
  (exists lines rows,
     list_currencies_body (Ok (Some table)) None
     = Ok (Listing "All Currencies" (S (List.length (table_rates table)))
             lines rows)
     /\ List.length rows
        = Nat.div (List.length
                     (filter (fun c => negb (is_crypto c))
                        (table_base table :: Dict.keys (table_rates table)))
                   + 2) 3).
Proof.
  split; [|split; [|split]].
  - intros Hlower.
    destruct filter_type as [|c rest]; [discriminate|].
    unfold list_currencies_body. cbn [bind payload_table]. cbv zeta.
    rewrite Hlower. cbn [String.eqb Ascii.eqb Bool.eqb andb].
    rewrite filter_fiat_of_crypto. cbn [rows_of_three].
    do 2 eexists. split; [reflexivity|].
    intros code name Hin. apply in_map_iff in Hin.
    destruct Hin as (code' & Hpair & Hin). injection Hpair as -> _.
    apply (proj1 (in_sorted _ _)) in Hin.
    apply (proj1 (filter_In _ _ _)) in Hin. exact (proj2 Hin).
  - intros Hlower.
    destruct filter_type as [|c rest]; [discriminate|].
    unfold list_currencies_body. cbn [bind payload_table]. cbv zeta.
    rewrite Hlower. cbn [String.eqb Ascii.eqb Bool.eqb andb].
    rewrite filter_crypto_of_fiat. cbn [Str.sorted fold_right map].
    do 2 eexists. reflexivity.
  - intros Hnonempty Hcrypto Hfiat.
    destruct filter_type as [|c rest]; [contradiction|].
    unfold list_currencies_body. cbn [bind payload_table]. cbv zeta.
    rewrite (eqb_false_of_neq Hcrypto), (eqb_false_of_neq Hfiat). reflexivity.
  - unfold list_currencies_body. cbn [bind payload_table]. cbv zeta.
    do 2 eexists. split.
    + cbn [List.length]. unfold Dict.keys. rewrite length_map. reflexivity.
    + apply (rows_of_three_length_bounded (n := List.length
               (filter (fun c => negb (is_crypto c))
                  (table_base table :: Dict.keys (table_rates table))))).
      lia.
Qed.

Lemma listing_follows_the_filter_witness :
  exists count lines,
    list_currencies_body (Ok (Some Sample.table)) (Some "Crypto")
    = Ok (Listing "Cryptocurrencies" count lines [])
    /\ forall code name, In (code, name) lines -> is_crypto code = true.
Proof.
  exact (proj1 (@listing_follows_the_filter Sample.table "Crypto") eq_refl).
Defined.

(** X21: the tool functions share the cache: after a call that fetched a
    table, a call of another tool function within the cache duration
    answers from that table, makes no request and leaves the tool object
    as the first call left it. *)
Theorem tools_share_the_cache
    (fromisoformat : string -> option datetime) (self : Tools)
    (t0 t1 : float) (table : RateTable)
    (reply : http_reply (option RateTable))
    (from_currency : string) (to_currency : option string) (amount : float)
    (filter_type : option string) (user : json)
    (Hmiss : cache_is_valid self t0 = false)
    (Hwithin : Py.lt_int (PrimFloat.sub t1 t0) (CACHE_DURATION (valves self))
               = true) :
  let self1 :=
    snd (fst (list_currencies self t0 (Body (Some table)) filter_type user)) in
  convert_currency fromisoformat self1 t1 reply
    from_currency to_currency amount user
  = (or_error (convert_currency_body fromisoformat (Ok (Some table))
                 from_currency to_currency amount), self1, []).
Proof.
  intros self1.
  assert (Hself1 : self1
                   = set_cache self {| data := Some table; timestamp := t0 |}).
  { unfold self1, list_currencies.
    rewrite (fetch_rates_miss_success self t0 (Some table) Hmiss). reflexivity. }
  unfold convert_currency.
  rewrite Hself1.
  rewrite (fetch_rates_hit
             (set_cache self {| data := Some table; timestamp := t0 |})
             t1 reply (table := table) eq_refl Hwithin).
  reflexivity.
Qed.

Lemma tools_share_the_cache_witness :
  convert_currency Lib.date_fromisoformat
    (snd (fst (list_currencies Sample.fresh 1000%float
                 (Body (Some Sample.table)) None JNull)))
    1100%float RequestFailed "eur" None 1%float JNull
  = (or_error (convert_currency_body Lib.date_fromisoformat
                 (Ok (Some Sample.table)) "eur" None 1%float),
     snd (fst (list_currencies Sample.fresh 1000%float
                 (Body (Some Sample.table)) None JNull)), []).
Proof.
  apply (@tools_share_the_cache Lib.date_fromisoformat Sample.fresh
           1000%float 1100%float Sample.table RequestFailed
           "eur" None 1%float None JNull);
    [reflexivity | vm_compute; reflexivity].
Defined.
